(** * generate_manifest.py: the firmware manifest generator

    A shallow embedding of [Tools/scripts/generate_manifest.py]: the
    directory walker, the record accumulator with its channel precedence
    policy, and the projector with its USB-id enrichment.

    Strings are byte strings ([string] of [ascii]); the file system is a
    read-only environment of the [os]/[os.path] calls the script makes;
    the two output streams are one log of messages that survives an
    exception; an unhandled Python exception is [Raise]. *)

From Stdlib Require OrderedTypeEx.
From Stdlib Require Import ZArith Lia Ascii.
From stdpp Require Import base option list gmap strings sorting.

Local Open Scope Z_scope.

(** ** Byte-string helpers: the [str] methods the script calls *)

Module Str.

Definition is_digit (c : ascii) : bool :=
  let n := Ascii.N_of_ascii c in (48 <=? n)%N && (n <=? 57)%N.

(** the class [[0-9a-f]] *)
Definition is_hex (c : ascii) : bool :=
  let n := Ascii.N_of_ascii c in
  is_digit c || ((97 <=? n)%N && (n <=? 102)%N).

(** [str.isspace] on bytes: space, \t, \n, \v, \f, \r *)
Definition is_space (c : ascii) : bool :=
  let n := Ascii.N_of_ascii c in
  (n =? 32)%N || ((9 <=? n)%N && (n <=? 13)%N).

Definition newline : ascii := Ascii.ascii_of_N 10.

Fixpoint take_while (p : ascii -> bool) (s : string) : string :=
  match s with
  | EmptyString => EmptyString
  | String c s' => if p c then String c (take_while p s') else EmptyString
  end.

Fixpoint drop_while (p : ascii -> bool) (s : string) : string :=
  match s with
  | EmptyString => EmptyString
  | String c s' => if p c then drop_while p s' else s
  end.

Fixpoint drop (n : nat) (s : string) : string :=
  match n, s with
  | O, _ => s
  | S n', EmptyString => EmptyString
  | S n', String _ s' => drop n' s'
  end.

Definition is_empty (s : string) : bool :=
  match s with EmptyString => true | _ => false end.

(** [s.startswith(p)] *)
Fixpoint startswith (p s : string) : bool :=
  match p, s with
  | EmptyString, _ => true
  | String a p', String b s' => Ascii.eqb a b && startswith p' s'
  | String _ _, EmptyString => false
  end.

(** [c in s] for one byte *)
Fixpoint has_char (c : ascii) (s : string) : bool :=
  match s with
  | EmptyString => false
  | String d s' => Ascii.eqb d c || has_char c s'
  end.

(** [s.endswith(c)] for a one-character suffix *)
Fixpoint endswith_char (c : ascii) (s : string) : bool :=
  match s with
  | EmptyString => false
  | String d EmptyString => Ascii.eqb d c
  | String _ s' => endswith_char c s'
  end.

(** [s.split(sep)] for a one-character separator: never empty. *)
Fixpoint split (sep : ascii) (s : string) : list string :=
  match s with
  | EmptyString => [EmptyString]
  | String c s' =>
      if Ascii.eqb c sep then EmptyString :: split sep s'
      else match split sep s' with
           | [] => [String c EmptyString]
           | p :: ps => String c p :: ps
           end
  end.

(** [sep.join(l)] *)
Fixpoint join (sep : string) (l : list string) : string :=
  match l with
  | [] => EmptyString
  | [x] => x
  | x :: l' => x +:+ sep +:+ join sep l'
  end.

(** [l[-1]] of a list of strings that is never empty here *)
Definition last_part (l : list string) : string := List.last l EmptyString.

(** [s.lstrip()], [s.rstrip()], [s.strip()] *)
Definition lstrip (s : string) : string := drop_while is_space s.

Fixpoint rstrip (s : string) : string :=
  match s with
  | EmptyString => EmptyString
  | String c s' =>
      match rstrip s' with
      | EmptyString => if is_space c then EmptyString else String c EmptyString
      | r => String c r
      end
  end.

Definition strip (s : string) : string := rstrip (lstrip s).

Definition upper_char (c : ascii) : ascii :=
  let n := Ascii.N_of_ascii c in
  if (97 <=? n)%N && (n <=? 122)%N then Ascii.ascii_of_N (n - 32) else c.

(** [s.upper()] *)
Fixpoint upper (s : string) : string :=
  match s with
  | EmptyString => EmptyString
  | String c s' => String (upper_char c) (upper s')
  end.

(** [os.path.join(a, b)] of posixpath *)
Definition path_join (a b : string) : string :=
  if startswith "/" b then b
  else if is_empty a || endswith_char "/"%char a then a +:+ b
  else a +:+ "/" +:+ b.

(** [sorted(l, reverse=True)]: a stable insertion sort, descending. *)
Fixpoint insert_desc (x : string) (l : list string) : list string :=
  match l with
  | [] => [x]
  | y :: l' => if String.ltb x y then y :: insert_desc x l' else x :: l
  end.

Definition sorted_reverse (l : list string) : list string :=
  foldr insert_desc [] l.

End Str.

(** ** The three regular expressions of the script

    Each matcher is the pattern specialised by hand; [re.match] anchors at
    the start only, [re.search] tries every start position from the left. *)

Module Pattern.

(** [re.compile("commit (?P<sha>[0-9a-f]+)").search(content)]: the group
    [sha] of the leftmost match; [[0-9a-f]+] is greedy and nothing
    follows it, so the group is the whole run of hex digits. *)
Fixpoint sha_search (content : string) : option string :=
  match content with
  | EmptyString => None
  | String _ rest =>
      let sha := Str.take_while Str.is_hex (Str.drop 7 content) in
      if Str.startswith "commit " content && negb (Str.is_empty sha)
      then Some sha
      else sha_search rest
  end.

(** the alternation [PX4|navio|pxf], tried from the left *)
Definition boards : list string := ["PX4"; "navio"; "pxf"].

(** what a greedy [.+] takes when nothing follows it: every byte up to
    the first newline ([.] matches no newline) *)
Definition dot_plus (s : string) : string :=
  Str.take_while (fun c => negb (Ascii.eqb c Str.newline)) s.

(** [re.compile("(?P<board>PX4|navio|pxf)(-(?P<frame>.+))?").match(s)]:
    the groups [board] and [frame]; the optional group is dropped when
    [-] or at least one byte of [.+] is missing. *)
Definition platform_frame_match (s : string) : option (string * option string) :=
  match List.find (fun b => Str.startswith b s) boards with
  | None => None
  | Some board =>
      match Str.drop (String.length board) s with
      | String "-" rest =>
          if Str.is_empty (dot_plus rest) then Some (board, None)
          else Some (board, Some (dot_plus rest))
      | _ => Some (board, None)
      end
  end.

(** the class [[.px4]] *)
Definition in_dot_px4 (c : ascii) : bool :=
  Ascii.eqb c "." || Ascii.eqb c "p" || Ascii.eqb c "x" || Ascii.eqb c "4".

Definition next_in_dot_px4 (s : string) : bool :=
  match s with
  | EmptyString => false
  | String c _ => in_dot_px4 c
  end.

(** greedy [\d+] followed by [[.px4]], with backtracking: the longest
    non-empty prefix of the digit run [ds] whose next byte in
    [ds ++ after] is in the class ([4] is a digit and in the class). *)
Fixpoint digits_then_class (ds after : string) : option string :=
  match ds with
  | EmptyString => None
  | String d ds' =>
      match digits_then_class ds' after with
      | Some p => Some (String d p)
      | None =>
          if next_in_dot_px4 (ds' +:+ after) then Some (String d EmptyString)
          else None
      end
  end.

(** [re.compile("[^-]+-(?P<variant>v\d+)[.px4]").match(file)]: the group
    [variant]. [[^-]+] must stop at the first [-] and cannot be empty. *)
Definition variant_firmware_match (file : string) : option string :=
  let not_dash := fun c => negb (Ascii.eqb c "-") in
  let name := Str.take_while not_dash file in
  if Str.is_empty name then None
  else
    match Str.drop_while not_dash file with
    | String "-" (String "v" rest) =>
        let ds := Str.take_while Str.is_digit rest in
        match digits_then_class ds (Str.drop_while Str.is_digit rest) with
        | Some d => Some (String "v" d)
        | None => None
        end
    | _ => None
    end.

(** [re.compile("(?P<year>\d{4})-(?P<month>\d{2})").match(s)] succeeds *)
Definition year_month_match (s : string) : bool :=
  match s with
  | String y1 (String y2 (String y3 (String y4 (String d (String m1 (String m2 _)))))) =>
      Str.is_digit y1 && Str.is_digit y2 && Str.is_digit y3 && Str.is_digit y4
      && Ascii.eqb d "-" && Str.is_digit m1 && Str.is_digit m2
  | _ => false
  end.

(** [fnmatch.fnmatch(tag, r)] for the four patterns of [RELEASE_TYPES]:
    three literals and [stable-*] *)
Definition fnmatch (tag r : string) : bool :=
  if String.eqb r "stable-*" then Str.startswith "stable-" tag
  else String.eqb tag r.

End Pattern.

(** ** Data model *)

(** [class Firmware]: the attributes of one build artifact. [None] is the
    Python [None] of the eight attributes [__init__] sets, and the absent
    key of the three ([latest], [timestamp], [format]) a visit adds. *)
Record Firmware := mkFirmware {
  fw_date : option Z;
  fw_platform : option string;
  fw_vehicletype : option string;
  fw_filepath : option string;
  fw_git_sha : option string;
  fw_frame : option string;
  fw_release_type : option string;
  fw_firmware_version : option string;
  fw_latest : option Z;
  fw_timestamp : option Z;
  fw_format : option string
}.

(** [Firmware()] *)
Definition Firmware_new : Firmware :=
  mkFirmware None None None None None None None None None None None.

Definition set_platform (v : option string) (f : Firmware) : Firmware :=
  mkFirmware (fw_date f) v (fw_vehicletype f) (fw_filepath f) (fw_git_sha f)
    (fw_frame f) (fw_release_type f) (fw_firmware_version f) (fw_latest f)
    (fw_timestamp f) (fw_format f).

Definition set_vehicletype (v : option string) (f : Firmware) : Firmware :=
  mkFirmware (fw_date f) (fw_platform f) v (fw_filepath f) (fw_git_sha f)
    (fw_frame f) (fw_release_type f) (fw_firmware_version f) (fw_latest f)
    (fw_timestamp f) (fw_format f).

Definition set_filepath (v : option string) (f : Firmware) : Firmware :=
  mkFirmware (fw_date f) (fw_platform f) (fw_vehicletype f) v (fw_git_sha f)
    (fw_frame f) (fw_release_type f) (fw_firmware_version f) (fw_latest f)
    (fw_timestamp f) (fw_format f).

Definition set_git_sha (v : option string) (f : Firmware) : Firmware :=
  mkFirmware (fw_date f) (fw_platform f) (fw_vehicletype f) (fw_filepath f) v
    (fw_frame f) (fw_release_type f) (fw_firmware_version f) (fw_latest f)
    (fw_timestamp f) (fw_format f).

Definition set_frame (v : option string) (f : Firmware) : Firmware :=
  mkFirmware (fw_date f) (fw_platform f) (fw_vehicletype f) (fw_filepath f)
    (fw_git_sha f) v (fw_release_type f) (fw_firmware_version f) (fw_latest f)
    (fw_timestamp f) (fw_format f).

Definition set_release_type (v : option string) (f : Firmware) : Firmware :=
  mkFirmware (fw_date f) (fw_platform f) (fw_vehicletype f) (fw_filepath f)
    (fw_git_sha f) (fw_frame f) v (fw_firmware_version f) (fw_latest f)
    (fw_timestamp f) (fw_format f).

Definition set_firmware_version (v : option string) (f : Firmware) : Firmware :=
  mkFirmware (fw_date f) (fw_platform f) (fw_vehicletype f) (fw_filepath f)
    (fw_git_sha f) (fw_frame f) (fw_release_type f) v (fw_latest f)
    (fw_timestamp f) (fw_format f).

Definition set_latest (v : option Z) (f : Firmware) : Firmware :=
  mkFirmware (fw_date f) (fw_platform f) (fw_vehicletype f) (fw_filepath f)
    (fw_git_sha f) (fw_frame f) (fw_release_type f) (fw_firmware_version f) v
    (fw_timestamp f) (fw_format f).

Definition set_timestamp (v : option Z) (f : Firmware) : Firmware :=
  mkFirmware (fw_date f) (fw_platform f) (fw_vehicletype f) (fw_filepath f)
    (fw_git_sha f) (fw_frame f) (fw_release_type f) (fw_firmware_version f)
    (fw_latest f) v (fw_format f).

Definition set_format (v : option string) (f : Firmware) : Firmware :=
  mkFirmware (fw_date f) (fw_platform f) (fw_vehicletype f) (fw_filepath f)
    (fw_git_sha f) (fw_frame f) (fw_release_type f) (fw_firmware_version f)
    (fw_latest f) (fw_timestamp f) v.

(** A Python [dict] with string keys, in insertion order (the order of
    Python 3.7 and later; no theorem below depends on it). *)
Definition dict (V : Type) : Type := list (string * V).

(** [d[k]], [None] for a missing key *)
Fixpoint dget {V : Type} (k : string) (d : dict V) : option V :=
  match d with
  | [] => None
  | (k', v) :: d' => if String.eqb k' k then Some v else dget k d'
  end.

(** [if k not in d: d[k] = v0] followed by the in-place change [f] of
    [d[k]]: a present key keeps its position, a new one goes last. *)
Fixpoint at_key {V : Type} (k : string) (v0 : V) (f : V -> V) (d : dict V) : dict V :=
  match d with
  | [] => [(k, f v0)]
  | (k', v) :: d' =>
      if String.eqb k' k then (k', f v) :: d' else (k', v) :: at_key k v0 f d'
  end.

(** [d.values()] *)
Definition dvalues {V : Type} (d : dict V) : list V := map snd d.

(** The lookup table [firmware_data]:
    vehicle type, platform key, commit hash, format, frame. *)
Definition by_frame : Type := dict Firmware.
Definition by_format : Type := dict by_frame.
Definition by_sha : Type := dict by_format.
Definition by_platform : Type := dict by_sha.
Definition table : Type := dict by_platform.

(** [firmware_data[vehicletype][file_platform][git_sha][firmware_format][frame]] *)
Definition lookup_record (vehicletype file_platform git_sha firmware_format frame : string)
    (firmware_data : table) : option Firmware :=
  d1 ← dget vehicletype firmware_data;
  d2 ← dget file_platform d1;
  d3 ← dget git_sha d2;
  d4 ← dget firmware_format d3;
  dget frame d4.

(** ** The environment: file system, log, exceptions *)

(** What [os.listdir] gives: the names, or the [errno] of its [OSError]. *)
Inductive listing :=
| Names (names : list string)
| Errno (errno : Z).

(** What [json.load(open(path))] gives for a sidecar, as far as the script
    looks: the load raises, or the document has no [board_id], or it has
    the integer [board_id]. *)
Inductive apj_json :=
| ApjRaises
| ApjNoBoardId
| ApjBoardId (board_id : Z).

(** The tree is a snapshot that is only read. [read] is
    [open(path).read()], [None] when it raises; [getctime] is total: the
    script asks only for paths it has just listed. *)
Record FileSystem := mkFileSystem {
  isdir : string -> bool;
  path_exists : string -> bool;
  listdir : string -> listing;
  read : string -> option string;
  getctime : string -> Z;
  json_load : string -> apj_json
}.

(** The messages the script prints, in order (all to stderr except
    [ErrorListing], which goes to stdout). *)
Inductive message :=
| ErrorListing (dir : string)
| NoFile (path : string)
| FailedToParse (path : string)
| MalformedFirmwareVersion (path : string)
| BadFile (path : string)
| UnknownTag (tag : string)
| BadApjPath (path : string)
| NoBoardId (path : string)
| NoPlatform (path : string)
| NotBinariesDirectory.

Inductive exn :=
| OSError
| ValueError
| TypeError
| NameError
| KeyError
| AttributeError
| JSONError
| PlainException.

Inductive result (A : Type) :=
| Ok (a : A)
| Raise (e : exn).

Arguments Ok {A} a.
Arguments Raise {A} e.

(** A computation that prints and may raise: the log so far goes in, the
    log after it comes out, also when an exception escapes. *)
Definition M (A : Type) : Type := list message -> result A * list message.

Definition ret {A : Type} (a : A) : M A := fun log => (Ok a, log).

Definition raise {A : Type} (e : exn) : M A := fun log => (Raise e, log).

Definition bind {A B : Type} (m : M A) (k : A -> M B) : M B :=
  fun log =>
    match m log with
    | (Ok a, log') => k a log'
    | (Raise e, log') => (Raise e, log')
    end.

Definition print (msg : message) : M unit := fun log => (Ok tt, log ++ [msg]).

Notation "'let*' x := m 'in' k" := (bind m (fun x => k))
  (at level 10, x name, m at level 100, k at level 200).
Notation "'run' m 'then' k" := (bind m (fun _ => k))
  (at level 10, m at level 100, k at level 200).

(** [for x in l: st = body st x] *)
Fixpoint for_each {A S : Type} (body : S -> A -> M S) (l : list A) (st : S) : M S :=
  match l with
  | [] => ret st
  | x :: l' => let* st' := body st x in for_each body l' st'
  end.

(** ** The record accumulator *)

Definition FIRMWARE_TYPES : list string :=
  ["AntennaTracker"; "Copter"; "Plane"; "Rover"; "Sub"].

Definition RELEASE_TYPES : list string :=
  ["beta"; "latest"; "stable"; "stable-*"].

(** Python truth of an integer attribute: [not firmware["latest"]] *)
Definition falsy (v : option Z) : bool :=
  match v with
  | Some z => z =? 0
  | None => true
  end.

Definition is_None {A : Type} (v : option A) : bool :=
  match v with
  | None => true
  | Some _ => false
  end.

(** [git_sha_from_git_version]: the read or the search may raise. *)
Definition git_sha_from_git_version (fs : FileSystem) (filepath : string) : result string :=
  match read fs filepath with
  | None => Raise OSError
  | Some content =>
      match Pattern.sha_search content with
      | None => Raise PlainException
      | Some sha => Ok sha
      end
  end.

(** The [try] block that reads [firmware-version.txt]: the unpacking of
    [split("-")] into two names raises [ValueError] unless there are
    exactly two parts; both handlers print and leave [None]. *)
Definition read_firmware_version (fs : FileSystem) (firmware_version_file : string)
    : M (option string) :=
  match read fs firmware_version_file with
  | None => run print (BadFile firmware_version_file) then ret None
  | Some content =>
      let firmware_version := Str.strip content in
      match Str.split "-" firmware_version with
      | [version_numbers; release_type] => ret (Some firmware_version)
      | _ => run print (MalformedFirmwareVersion firmware_version_file) then ret None
      end
  end.

(** The [if m is not None ... else ...] that names platform and frame. *)
Definition platform_and_frame (vehicletype platformdir : string) : string * string :=
  match Pattern.platform_frame_match platformdir with
  | Some (board, Some frame) => (board, frame)
  | Some (board, None) => (board, vehicletype)
  | None => (platformdir, vehicletype)
  end.

(** The platform key of a file: the variant of its name is appended. *)
Definition file_platform_of (platform file : string) : string :=
  match Pattern.variant_firmware_match file with
  | Some variant => Str.join "-" [platform; variant]
  | None => platform
  end.

(** ["".join(file.split(".")[-1:])] *)
Definition firmware_format_of (file : string) : string :=
  Str.last_part (Str.split "." file).

(** Lines 294 to 308: the [latest] flag, the release type and the path. *)
Definition apply_releasetype (releasetype path : string) (firmware : Firmware) : Firmware :=
  let firmware := set_latest (Some 0) firmware in
  if String.eqb releasetype "dev" then
    let firmware :=
      if is_None (fw_filepath firmware) then set_filepath (Some path) firmware
      else firmware in
    if is_None (fw_release_type firmware) then set_release_type (Some "dev") firmware
    else firmware
  else if String.eqb releasetype "latest" then
    let firmware := set_latest (Some 1) firmware in
    let firmware := set_filepath (Some path) firmware in
    if is_None (fw_release_type firmware) then set_release_type (Some "dev") firmware
    else firmware
  else
    let firmware :=
      if falsy (fw_latest firmware) then set_filepath (Some path) firmware
      else firmware in
    set_release_type (Some releasetype) firmware.

(** Lines 310 to 316: the attributes every visit refreshes. *)
Definition refresh (fs : FileSystem)
    (file_platform vehicletype git_sha frame firmware_format : string)
    (firmware_version : option string) (firmware : Firmware) : Firmware :=
  let firmware := set_platform (Some file_platform) firmware in
  let firmware := set_vehicletype (Some vehicletype) firmware in
  let firmware := set_git_sha (Some git_sha) firmware in
  let firmware := set_frame (Some frame) firmware in
  let firmware :=
    set_timestamp (getctime fs <$> fw_filepath firmware) firmware in
  let firmware := set_format (Some firmware_format) firmware in
  set_firmware_version firmware_version firmware.

(** One visit of a record, lines 294 to 316. *)
Definition visit (fs : FileSystem) (releasetype path : string)
    (file_platform vehicletype git_sha frame firmware_format : string)
    (firmware_version : option string) (firmware : Firmware) : Firmware :=
  refresh fs file_platform vehicletype git_sha frame firmware_format firmware_version
    (apply_releasetype releasetype path firmware).

(** Lines 273 to 289 and the change of the record found: each level of
    the table gets an empty dict, and the last a [Firmware()], where the
    key is new. *)
Definition update_record (vehicletype file_platform git_sha firmware_format frame : string)
    (f : Firmware -> Firmware) (firmware_data : table) : table :=
  at_key vehicletype []
    (at_key file_platform []
      (at_key git_sha []
        (at_key firmware_format []
          (at_key frame Firmware_new f))))
    firmware_data.

(** The files of a platform directory that are firmware: neither a
    descriptor, nor the generated listing, nor hidden. *)
Definition is_firmware_file (file : string) : bool :=
  negb (bool_decide (file ∈ ["git-version.txt"; "firmware-version.txt"; "files.html"]))
  && negb (Str.startswith "." file).

(** The body of [for file in os.listdir(some_dir)]. *)
Definition file_step (fs : FileSystem) (some_dir vehicletype releasetype : string)
    (platform frame git_sha : string) (firmware_version : option string)
    (firmware_data : table) (file : string) : table :=
  if bool_decide (file ∈ ["git-version.txt"; "firmware-version.txt"; "files.html"])
  then firmware_data
  else if Str.startswith "." file then firmware_data
  else
    let file_platform := file_platform_of platform file in
    let firmware_format := firmware_format_of file in
    update_record vehicletype file_platform git_sha firmware_format frame
      (visit fs releasetype (Str.path_join some_dir file)
         file_platform vehicletype git_sha frame firmware_format firmware_version)
      firmware_data.

(** The body of [for platformdir in dlist]. *)
Definition platformdir_step (fs : FileSystem) (dir vehicletype releasetype : string)
    (firmware_data : table) (platformdir : string) : M table :=
  if Str.startswith "." platformdir then ret firmware_data
  else
    let some_dir := Str.path_join dir platformdir in
    if negb (isdir fs some_dir) then ret firmware_data
    else
      let git_version_txt := Str.path_join some_dir "git-version.txt" in
      if negb (path_exists fs git_version_txt) then
        run print (NoFile git_version_txt) then ret firmware_data
      else
        match git_sha_from_git_version fs git_version_txt with
        | Raise _ => run print (FailedToParse git_version_txt) then ret firmware_data
        | Ok git_sha =>
            let firmware_version_file := Str.path_join some_dir "firmware-version.txt" in
            let* firmware_version := read_firmware_version fs firmware_version_file in
            let '(platform, frame) := platform_and_frame vehicletype platformdir in
            match listdir fs some_dir with
            | Errno _ => raise OSError
            | Names files =>
                ret (fold_left
                       (file_step fs some_dir vehicletype releasetype platform frame
                          git_sha firmware_version)
                       files firmware_data)
            end
        end.

(** [add_firmware_data_from_dir(dir, firmware_data, vehicletype, releasetype)] *)
Definition add_firmware_data_from_dir (fs : FileSystem) (dir : string)
    (firmware_data : table) (vehicletype releasetype : string) : M table :=
  if negb (isdir fs dir) then ret firmware_data
  else
    match listdir fs dir with
    | Errno _ => run print (ErrorListing dir) then ret firmware_data
    | Names dlist =>
        for_each (platformdir_step fs dir vehicletype releasetype) dlist firmware_data
    end.

(** ** The directory walker *)

(** [valid_release_type(tag)] *)
Definition valid_release_type (tag : string) : bool :=
  existsb (Pattern.fnmatch tag) RELEASE_TYPES.

(** The body of [for firstlevel in vdir]. The dated branch stops at its
    [continue]; the rest of that branch is never run. For an unknown tag
    the message is printed and the entry skipped, as under Python 2, where
    [os.path.join] of the listing alone returns it. *)
Definition firstlevel_step (fs : FileSystem) (basedir vehicletype : string)
    (xfirmwares : table) (firstlevel : string) : M table :=
  if String.eqb firstlevel "files.html" || Str.startswith "." firstlevel
  then ret xfirmwares
  else if Pattern.year_month_match firstlevel then ret xfirmwares
  else
    let tag := firstlevel in
    if negb (valid_release_type tag) then
      run print (UnknownTag tag) then ret xfirmwares
    else
      let tag_path := Str.path_join (Str.path_join basedir vehicletype) tag in
      if negb (isdir fs tag_path) then ret xfirmwares
      else add_firmware_data_from_dir fs tag_path xfirmwares vehicletype tag.

(** The body of [for vehicletype in vehicletypes]. The state is the
    variable [vdir] (unbound at first) and the table: an [OSError] other
    than errno 2 falls out of the handler and the inner loop runs on the
    [vdir] of the previous vehicle type, or raises [NameError]. *)
Definition vehicletype_step (fs : FileSystem) (basedir : string)
    (st : option (list string) * table) (vehicletype : string)
    : M (option (list string) * table) :=
  let inner (vdir : list string) :=
    let* xfirmwares :=
      for_each (firstlevel_step fs basedir vehicletype) vdir (snd st) in
    ret (Some vdir, xfirmwares) in
  match listdir fs (Str.path_join basedir vehicletype) with
  | Names names => inner (Str.sorted_reverse names)
  | Errno errno =>
      if errno =? 2 then ret st
      else match fst st with
           | None => raise NameError
           | Some vdir => inner vdir
           end
  end.

(** The first half of [walk_directory]: the table after the walk. *)
Definition walk_tree (fs : FileSystem) (basedir : string) : M table :=
  let* st := for_each (vehicletype_step fs basedir) FIRMWARE_TYPES (None, []) in
  ret (snd st).

(** ** The projector *)

(** [xfirmwares_to_firmwares]: the leaves, in traversal order. *)
Definition xfirmwares_to_firmwares (xfirmwares : table) : list Firmware :=
  flat_map (fun d1 : by_platform =>
    flat_map (fun d2 : by_sha =>
      flat_map (fun d3 : by_format =>
        flat_map (fun d4 : by_frame => dvalues d4) (dvalues d3))
      (dvalues d2))
    (dvalues d1))
  (dvalues xfirmwares).

(** The values of a manifest entry. *)
Inductive value :=
| VNone
| VInt (z : Z)
| VStr (s : string)
| VList (l : list string).

(** A manifest entry, the dict [some_json]. *)
Abbreviation entry := (gmap string value).

Definition of_str (v : option string) : value :=
  match v with
  | Some s => VStr s
  | None => VNone
  end.

Definition frame_to_mavlink_dict : dict string :=
  [("quad", "QUADROTOR"); ("hexa", "HEXAROTOR"); ("y6", "ARDUPILOT_Y6");
   ("tri", "TRICOPTER"); ("octa", "OCTOROTOR");
   ("octa-quad", "ARDUPILOT_OCTAQUAD"); ("heli", "HELICOPTER");
   ("Plane", "FIXED_WING"); ("AntennaTracker", "ANTENNA_TRACKER");
   ("Rover", "GROUND_ROVER"); ("Sub", "SUBMARINE")].

(** [frame_map(frame)] *)
Definition frame_map (frame : string) : string :=
  match dget frame frame_to_mavlink_dict with
  | Some mav => mav
  | None => frame
  end.

(** [releasetype_map(releasetype)] *)
Definition releasetype_map (releasetype : string) : string :=
  if String.eqb releasetype "stable" then "OFFICIAL" else Str.upper releasetype.

(** [parse_fw_version(version)]: each unpacking raises [ValueError] unless
    the split has exactly as many parts as names. *)
Definition parse_fw_version (version : string)
    : result (string * string * string * string) :=
  match Str.split "-" version with
  | [version_numbers; release_type] =>
      match Str.split "." version_numbers with
      | [major; minor; patch] => Ok (major, minor, patch, version)
      | _ => Raise ValueError
      end
  | _ => Raise ValueError
  end.

(** [re.sub(re.compile("^" + re.escape(basedir)), baseurl, filepath)] for a
    [baseurl] that has no backslash: a literal prefix is replaced. *)
Definition urlify (basedir baseurl filepath : string) : string :=
  if Str.startswith basedir filepath
  then baseurl +:+ Str.drop (String.length basedir) filepath
  else filepath.

(** [firmware[k].append(x)] *)
Definition list_append (k x : string) (firmware : entry) : entry :=
  match firmware !! k with
  | Some (VList l) => <[k := VList (l ++ [x])]> firmware
  | _ => firmware
  end.

(** [add_USB_IDs_PX4(firmware)] *)
Definition add_USB_IDs_PX4 (firmware : entry) : M entry :=
  match firmware !! "url" with
  | Some (VStr url) =>
      let suffix := Str.last_part (Str.split "-" url) in
      let set (usbid : string) (board_id : Z) (bl : string) :=
        <["bootloader_str" := VList [bl]]>
          (<["board_id" := VInt board_id]>
             (<["USBID" := VList [usbid]]> firmware)) in
      if String.eqb suffix "v1.px4" then
        ret (set "0x26AC/0x0010" 5 "PX4 BL FMU v1.x")
      else if bool_decide (suffix ∈ ["v2.px4"; "v3.px4"]) then
        ret (set "0x26AC/0x0011" 9 "PX4 BL FMU v2.x")
      else if String.eqb suffix "v4.px4" then
        ret (set "0x26AC/0x0012" 11 "PX4 BL FMU v4.x")
      else if String.eqb suffix "v4pro.px4" then
        ret (set "0x26AC/0x0013" 13 "PX4 BL FMU v4.x PRO")
      else ret firmware
  | Some _ => raise AttributeError
  | None => raise KeyError
  end.

(** the local [USBID_MAP] of [add_USB_IDs_ChibiOS] *)
Definition USBID_MAP : dict (list string) :=
  [("CubeBlack", ["0x2DAE/0x1011"]); ("CubeOrange", ["0x2DAE/0x1016"]);
   ("CubePurple", ["0x2DAE/0x1005"]); ("CubeYellow", ["0x2DAE/0x1002"]);
   ("Pixhawk4", ["0x3162/0x0047"]); ("PH4-mini", ["0x3162/0x0049"]);
   ("Pixhawk6", ["0x3162/0x004B"]); ("VRBrain-v51", ["0x27AC/0x1151"]);
   ("VRBrain-v52", ["0x27AC/0x1152"]); ("VRBrain-v54", ["0x27AC/0x1154"]);
   ("VRCore-v10", ["0x27AC/0x1910"]); ("VRUBrain-v51", ["0x27AC/0x1351"])].

(** One [if board_id == n:] block: both lists get one more element. *)
Definition special_case (board_id n : Z) (bl usbid : string) (firmware : entry) : entry :=
  if board_id =? n
  then list_append "USBID" usbid (list_append "bootloader_str" bl firmware)
  else firmware.

(** [add_USB_IDs_ChibiOS(firmware)] *)
Definition add_USB_IDs_ChibiOS (fs : FileSystem) (basedir baseurl : string)
    (firmware : entry) : M entry :=
  match firmware !! "url" with
  | Some (VStr full_url) =>
      let url := Str.drop (String.length baseurl + 1) full_url in
      let apj_path := Str.path_join basedir url in
      if negb (path_exists fs apj_path) then
        run print (BadApjPath apj_path) then ret firmware
      else
        match json_load fs apj_path with
        | ApjRaises => raise JSONError
        | ApjNoBoardId => run print (NoBoardId apj_path) then ret firmware
        | ApjBoardId board_id =>
            match firmware !! "platform" with
            | None => run print (NoPlatform apj_path) then ret firmware
            | Some (VStr platform) =>
                let firmware := <["board_id" := VInt board_id]> firmware in
                let firmware :=
                  <["bootloader_str" := VList [platform +:+ "-BL"]]> firmware in
                let firmware :=
                  match dget platform USBID_MAP with
                  | Some ids => <["USBID" := VList ids]> firmware
                  | None => <["USBID" := VList ["0x0483/0x5740"]]> firmware
                  end in
                let firmware :=
                  special_case board_id 50 "PX4 BL FMU v5.x" "0x26AC/0x0032" firmware in
                let firmware :=
                  special_case board_id 9 "PX4 BL FMU v2.x" "0x26AC/0x0011" firmware in
                let firmware :=
                  special_case board_id 11 "PX4 BL FMU v4.x" "0x26AC/0x0012" firmware in
                let firmware :=
                  special_case board_id 13 "PX4 BL FMU v4.x PRO" "0x26AC/0x0013" firmware in
                let firmware :=
                  special_case board_id 88 "MindPX BL FMU v2.x" "0x26AC/0x0030" firmware in
                ret firmware
            | Some _ => raise TypeError
            end
        end
  | Some _ => raise TypeError
  | None => raise KeyError
  end.

(** [add_USB_IDs(firmware)] *)
Definition add_USB_IDs (fs : FileSystem) (basedir baseurl : string)
    (firmware : entry) : M entry :=
  match firmware !! "format" with
  | None => raise KeyError
  | Some (VStr fmt) =>
      if String.eqb fmt "px4" then add_USB_IDs_PX4 firmware
      else if String.eqb fmt "apj" then
        add_USB_IDs_ChibiOS fs basedir baseurl firmware
      else ret firmware
  | Some _ => ret firmware
  end.

(** Python truth of [firmware["firmware-version"]]: neither [None] nor
    the empty string. *)
Definition truthy (v : option string) : bool :=
  match v with
  | Some s => negb (Str.is_empty s)
  | None => false
  end.

(** The [if firmware["firmware-version"]:] block of the projection. *)
Definition add_version (firmware_version : option string) (some_json : entry) : M entry :=
  if truthy firmware_version then
    match parse_fw_version (default EmptyString firmware_version) with
    | Raise e => raise e
    | Ok (major, minor, patch, release_type) =>
        ret (<["mav-firmware-version-patch" := VStr patch]>
              (<["mav-firmware-version-minor" := VStr minor]>
                (<["mav-firmware-version-major" := VStr major]>
                  (<["mav-firmware-version" := VStr (Str.join "." [major; minor; patch])]>
                    some_json))))
    end
  else ret some_json.

(** The dict literal [some_json] of the projection. *)
Definition some_json_of (firmware : Firmware) (url version_type : string)
    (latest : Z) (format : string) : entry :=
  <["format" := VStr format]>
    (<["latest" := VInt latest]>
      (<["mav-firmware-version-type" := VStr version_type]>
        (<["mav-type" := of_str (frame_map <$> fw_frame firmware)]>
          (<["url" := VStr url]>
            (<["git-sha" := of_str (fw_git_sha firmware)]>
              (<["platform" := of_str (fw_platform firmware)]>
                (<["mav-autopilot" := VStr "ARDUPILOTMEGA"]> ∅))))))).

(** The body of [for firmware in firmwares]: [re.sub] on a [None] path,
    [.upper()] on a [None] release type and a missing [latest] or
    [format] key raise. *)
Definition project (fs : FileSystem) (basedir baseurl : string)
    (firmware_json : list entry) (firmware : Firmware) : M (list entry) :=
  match fw_filepath firmware with
  | None => raise TypeError
  | Some filepath =>
      let url := urlify basedir baseurl filepath in
      match fw_release_type firmware with
      | None => raise AttributeError
      | Some releasetype =>
          let version_type := releasetype_map releasetype in
          match fw_latest firmware, fw_format firmware with
          | Some latest, Some format =>
              let some_json := some_json_of firmware url version_type latest format in
              let* some_json := add_version (fw_firmware_version firmware) some_json in
              let* some_json := add_USB_IDs fs basedir baseurl some_json in
              ret (firmware_json ++ [some_json])
          | _, _ => raise KeyError
          end
      end
  end.

(** The manifest, the dict [ret] of [walk_directory]. *)
Record manifest := mkManifest {
  format_version : string;
  firmware_list : list entry
}.

(** The second half of [walk_directory]. *)
Definition project_all (fs : FileSystem) (basedir baseurl : string)
    (xfirmwares : table) : M manifest :=
  let firmwares := xfirmwares_to_firmwares xfirmwares in
  let* firmware_json := for_each (project fs basedir baseurl) firmwares [] in
  ret (mkManifest "1.0.0" firmware_json).

(** [walk_directory(basedir)] of a generator made with [basedir] and
    [baseurl]; [json()] calls it on the generator's own [basedir]. *)
Definition walk_directory (fs : FileSystem) (basedir baseurl : string) : M manifest :=
  let* xfirmwares := walk_tree fs basedir in
  project_all fs basedir baseurl xfirmwares.

(** [looks_like_binaries_directory(dir)] *)
Definition looks_like_binaries_directory (fs : FileSystem) (dir : string) : result bool :=
  match listdir fs dir with
  | Errno _ => Raise OSError
  | Names names => Ok (existsb (fun e => bool_decide (e ∈ FIRMWARE_TYPES)) names)
  end.

(** [json()], up to the serialisation of the structure. *)
Definition json (fs : FileSystem) (basedir baseurl : string) : M manifest :=
  match looks_like_binaries_directory fs basedir with
  | Raise e => raise e
  | Ok looks =>
      run (if looks then ret tt else print NotBinariesDirectory) then
      walk_directory fs basedir baseurl
  end.

(** The run from an empty log. *)
Definition run_json (fs : FileSystem) (basedir baseurl : string)
    : result manifest * list message :=
  json fs basedir baseurl [].

(** ** A file system given by its directories and files, for examples *)

Record file := mkFile {
  file_path : string;
  file_content : string;
  file_ctime : Z;
  file_json : apj_json
}.

Definition find_file (files : list file) (path : string) : option file :=
  List.find (fun f => String.eqb (file_path f) path) files.

(** Directories are listed with their entries; what is not listed does
    not exist. *)
Definition tree (dirs : dict (list string)) (files : list file) : FileSystem :=
  mkFileSystem
    (fun p => negb (is_None (dget p dirs)))
    (fun p => negb (is_None (dget p dirs)) || negb (is_None (find_file files p)))
    (fun p => match dget p dirs with
              | Some names => Names names
              | None => Errno (if is_None (find_file files p) then 2 else 20)
              end)
    (fun p => file_content <$> find_file files p)
    (fun p => default 0 (file_ctime <$> find_file files p))
    (fun p => default ApjRaises (file_json <$> find_file files p)).

(** Two channel directories of one vehicle type holding the same build:
    [latest] and [stable] (and [beta]) each have [navio-quad] with the same
    commit and the same file name. *)
Definition same_build_files (channel : string) : list file :=
  let d := "/b/Copter/" +:+ channel +:+ "/navio-quad" in
  [mkFile (d +:+ "/git-version.txt") "commit deadbeef" 1 ApjRaises;
   mkFile (d +:+ "/firmware-version.txt") "3.6.0-official" 1 ApjRaises;
   mkFile (d +:+ "/ArduCopter.apj") "{}" 2 (ApjBoardId 9)].

Definition same_build_dirs (channel : string) : dict (list string) :=
  [("/b/Copter/" +:+ channel, ["navio-quad"]);
   ("/b/Copter/" +:+ channel +:+ "/navio-quad",
    ["git-version.txt"; "firmware-version.txt"; "ArduCopter.apj"])].

Definition same_build_tree (channels : list string) : FileSystem :=
  tree ([("/b", ["Copter"]); ("/b/Copter", channels)]
          ++ flat_map same_build_dirs channels)
       (flat_map same_build_files channels).

(** [add_firmware_data_from_dir] on one channel directory after another,
    from an empty table and an empty log: each call names the directory
    and the release type it passes ([dev] is the default of the
    parameter). *)
Definition visit_dirs (fs : FileSystem) (calls : list (string * string))
    : result table * list message :=
  for_each
    (fun firmware_data call =>
       add_firmware_data_from_dir fs ("/b/Copter/" +:+ call.1) firmware_data
         "Copter" call.2)
    calls [] [].

(** The record of the shared build in the table a run gives. *)
Definition shared_record (r : result table * list message) : option Firmware :=
  match r with
  | (Ok firmware_data, _) => lookup_record "Copter" "navio" "deadbeef" "apj" "quad" firmware_data
  | (Raise _, _) => None
  end.

(** The text holds the pattern ["commit <hex>"]: the word [commit], one
    space and at least one byte of [[0-9a-f]]. *)
Definition contains_commit (content : string) : Prop :=
  exists pre c post,
    content = pre +:+ "commit " +:+ String c post /\ Str.is_hex c = true.

(** A platform directory whose descriptor is absent, or unreadable, or
    without the pattern. *)
Definition lacks_commit (fs : FileSystem) (git_version_txt : string) : Prop :=
  path_exists fs git_version_txt = false
  \/ forall content, read fs git_version_txt = Some content -> ~ contains_commit content.

(** The firmware-version descriptor cannot be read, or its stripped text
    does not split on [-] into exactly two parts. *)
Definition version_unparsable (fs : FileSystem) (firmware_version_file : string) : Prop :=
  match read fs firmware_version_file with
  | None => True
  | Some content => length (Str.split "-" (Str.strip content)) <> 2%nat
  end.

(** The warning of the handler that catches it. *)
Definition version_warning (fs : FileSystem) (firmware_version_file : string) : message :=
  match read fs firmware_version_file with
  | None => BadFile firmware_version_file
  | Some _ => MalformedFirmwareVersion firmware_version_file
  end.

(** A record with every attribute of a visit set except the firmware
    version. *)
Definition populated_without_version
    (vehicletype file_platform git_sha firmware_format frame : string)
    (firmware : Firmware) : Prop :=
  fw_firmware_version firmware = None
  /\ fw_platform firmware = Some file_platform
  /\ fw_vehicletype firmware = Some vehicletype
  /\ fw_git_sha firmware = Some git_sha
  /\ fw_frame firmware = Some frame
  /\ fw_format firmware = Some firmware_format
  /\ is_Some (fw_filepath firmware)
  /\ is_Some (fw_release_type firmware)
  /\ is_Some (fw_latest firmware)
  /\ is_Some (fw_timestamp firmware).

(** A channel directory with two platform directories that have no usable
    descriptor ([apm2] has none, that of [apm1] has no hash) and one
    ([apm3]) whose firmware version is malformed. *)
Definition incomplete_tree : FileSystem :=
  tree [("/b", ["Copter"]); ("/b/Copter", ["stable"]);
        ("/b/Copter/stable", ["apm2"; "apm1"; "apm3"]);
        ("/b/Copter/stable/apm2", ["ArduCopter.hex"]);
        ("/b/Copter/stable/apm1", ["git-version.txt"; "ArduCopter.hex"]);
        ("/b/Copter/stable/apm3",
         ["git-version.txt"; "firmware-version.txt"; "ArduCopter.hex"])]
       [mkFile "/b/Copter/stable/apm2/ArduCopter.hex" "" 1 ApjRaises;
        mkFile "/b/Copter/stable/apm1/git-version.txt" "commit XYZ" 1 ApjRaises;
        mkFile "/b/Copter/stable/apm1/ArduCopter.hex" "" 1 ApjRaises;
        mkFile "/b/Copter/stable/apm3/git-version.txt" "commit 0a1b2c" 1 ApjRaises;
        mkFile "/b/Copter/stable/apm3/firmware-version.txt" "3.6.0-rc1-official" 1
          ApjRaises;
        mkFile "/b/Copter/stable/apm3/ArduCopter.hex" "" 5 ApjRaises].

(** An entry with the three keys of the enrichment set. *)
Definition enriched (board_id : Z) (bl usb : list string) (firmware : entry) : entry :=
  <["USBID" := VList usb]>
    (<["bootloader_str" := VList bl]> (<["board_id" := VInt board_id]> firmware)).

(** What one special case adds to a list. *)
Definition extra (board_id n : Z) (x : string) : list string :=
  if board_id =? n then [x] else [].

(** The five board ids with a legacy pair. *)
Definition legacy_board_ids : list Z := [50; 9; 11; 13; 88].

(** The entry of the one firmware of [same_build_tree ["stable"]] before
    the enrichment, with base url [http://fw]. *)
Definition navio_entry : entry :=
  some_json_of
    (mkFirmware None (Some "navio") (Some "Copter")
       (Some "/b/Copter/stable/navio-quad/ArduCopter.apj") (Some "deadbeef")
       (Some "quad") (Some "stable") (Some "3.6.0-official") (Some 0) (Some 2)
       (Some "apj"))
    "http://fw/Copter/stable/navio-quad/ArduCopter.apj" "OFFICIAL" 0 "apj".

(** The suffixes of the table of [add_USB_IDs_PX4]. *)
Definition px4_suffixes : list string :=
  ["v1.px4"; "v2.px4"; "v3.px4"; "v4.px4"; "v4pro.px4"].

(** One [PX4] platform directory with [ArduCopter-v1.px4] and a firmware
    of an unknown variant. *)
Definition px4_tree : FileSystem :=
  tree [("/b", ["Copter"]); ("/b/Copter", ["stable"]);
        ("/b/Copter/stable", ["PX4"]);
        ("/b/Copter/stable/PX4",
         ["git-version.txt"; "ArduCopter-v1.px4"; "ArduCopter-v7.px4"])]
       [mkFile "/b/Copter/stable/PX4/git-version.txt" "commit 0123abc" 1 ApjRaises;
        mkFile "/b/Copter/stable/PX4/ArduCopter-v1.px4" "" 3 ApjRaises;
        mkFile "/b/Copter/stable/PX4/ArduCopter-v7.px4" "" 4 ApjRaises].

(** A message other than the "no platform" warning of the apj
    enrichment. *)
Definition not_no_platform (msg : message) : Prop :=
  match msg with
  | NoPlatform _ => False
  | _ => True
  end.

(** A computation that prints only messages of [P] and whose result, when
    it returns one, satisfies [Q]. *)
Definition hoare {A : Type} (P : message -> Prop) (m : M A) (Q : A -> Prop) : Prop :=
  forall log,
    Forall P log ->
    Forall P (m log).2 /\ forall a, (m log).1 = Ok a -> Q a.

(** What every record of the table has after its visits: the attributes
    the projection reads, and a firmware version that is unset or has
    exactly two dash-separated parts. *)
Definition visited (firmware : Firmware) : Prop :=
  is_Some (fw_filepath firmware)
  /\ is_Some (fw_release_type firmware)
  /\ is_Some (fw_latest firmware)
  /\ is_Some (fw_format firmware)
  /\ forall v, fw_firmware_version firmware = Some v ->
       length (Str.split "-" v) = 2%nat.

Definition all_visited (firmware_data : table) : Prop :=
  Forall (fun d1 : by_platform =>
    Forall (fun d2 : by_sha =>
      Forall (fun d3 : by_format =>
        Forall (fun d4 : by_frame => Forall visited (dvalues d4)) (dvalues d3))
      (dvalues d2))
    (dvalues d1))
  (dvalues firmware_data).

(** The shape the projection asks of a version string: two parts around
    one dash, the first of three parts around two dots. *)
Definition three_part_shape (version : string) : Prop :=
  exists version_numbers release_type major minor patch,
    Str.split "-" version = [version_numbers; release_type]
    /\ Str.split "." version_numbers = [major; minor; patch].

(** A tree whose firmware version has two parts around the dash, the
    first of two numbers only. *)
Definition short_version_tree : FileSystem :=
  tree [("/b", ["Copter"]); ("/b/Copter", ["stable"]);
        ("/b/Copter/stable", ["apm2"]);
        ("/b/Copter/stable/apm2",
         ["git-version.txt"; "firmware-version.txt"; "ArduCopter.hex"])]
       [mkFile "/b/Copter/stable/apm2/git-version.txt" "commit 0a1b2c" 1 ApjRaises;
        mkFile "/b/Copter/stable/apm2/firmware-version.txt" "3.6-official" 1 ApjRaises;
        mkFile "/b/Copter/stable/apm2/ArduCopter.hex" "" 5 ApjRaises].

(** ** Invariants of the table *)

(** A dict without a repeated key whose values satisfy [P] of their
    key. *)
Definition dict_inv {V : Type} (P : string -> V -> Prop) (d : dict V) : Prop :=
  NoDup (map fst d) /\ Forall (fun kv => P kv.1 kv.2) d.

(** The key path of a record: vehicle type, platform key, commit hash,
    format, frame. *)
Definition tuple : Type := string * string * string * string * string.

(** No level of the table repeats a key, and every record satisfies [R]
    of its key path. *)
Definition table_inv (R : tuple -> Firmware -> Prop) (firmware_data : table) : Prop :=
  dict_inv (fun k1 (d1 : by_platform) =>
    dict_inv (fun k2 (d2 : by_sha) =>
      dict_inv (fun k3 (d3 : by_format) =>
        dict_inv (fun k4 (d4 : by_frame) =>
          dict_inv (fun k5 firmware => R (k1, k2, k3, k4, k5) firmware) d4) d3) d2) d1)
    firmware_data.

(** The records with their key paths, in traversal order. *)
Definition keyed_records (firmware_data : table) : list (tuple * Firmware) :=
  flat_map (fun e1 : string * by_platform =>
    flat_map (fun e2 : string * by_sha =>
      flat_map (fun e3 : string * by_format =>
        flat_map (fun e4 : string * by_frame =>
          map (fun e5 : string * Firmware => ((e1.1, e2.1, e3.1, e4.1, e5.1), e5.2)) e4.2)
          e3.2) e2.2) e1.2) firmware_data.

(** The firmware version the [try] block leaves, without its message. *)
Definition firmware_version_of (fs : FileSystem) (firmware_version_file : string)
    : option string :=
  match read fs firmware_version_file with
  | None => None
  | Some content =>
      match Str.split "-" (Str.strip content) with
      | [version_numbers; release_type] => Some (Str.strip content)
      | _ => None
      end
  end.

(** What holds when [add_firmware_data_from_dir(dir, ...)] reaches the
    visit of [file] in [platformdir]: every test on the way has passed. *)
Record dir_visit (fs : FileSystem) (dir platformdir file sha : string)
    (ver : option string) : Prop := mk_dir_visit {
  dv_dir : isdir fs dir = true;
  dv_listed : exists dlist, listdir fs dir = Names dlist /\ platformdir ∈ dlist;
  dv_not_hidden : Str.startswith "." platformdir = false;
  dv_isdir : isdir fs (Str.path_join dir platformdir) = true;
  dv_descriptor :
    path_exists fs (Str.path_join (Str.path_join dir platformdir) "git-version.txt")
      = true;
  dv_sha :
    git_sha_from_git_version fs
      (Str.path_join (Str.path_join dir platformdir) "git-version.txt") = Ok sha;
  dv_version :
    ver = firmware_version_of fs
            (Str.path_join (Str.path_join dir platformdir) "firmware-version.txt");
  dv_file : exists files,
      listdir fs (Str.path_join dir platformdir) = Names files /\ file ∈ files;
  dv_firmware : is_firmware_file file = true
}.

(** What holds when [walk_directory(basedir)] reaches a visit: the vehicle
    type is one of the five, the tag has passed the tests of the first
    level, and the rest is a visit of the tag directory. *)
Record walker_visit (fs : FileSystem) (basedir vt tag platformdir file sha : string)
    (ver : option string) : Prop := mk_walker_visit {
  wv_vehicletype : vt ∈ FIRMWARE_TYPES;
  wv_listed : exists vt' names,
      listdir fs (Str.path_join basedir vt') = Names names /\ tag ∈ names;
  wv_not_generated :
    String.eqb tag "files.html" || Str.startswith "." tag = false;
  wv_not_dated : Pattern.year_month_match tag = false;
  wv_valid : valid_release_type tag = true;
  wv_dir :
    dir_visit fs (Str.path_join (Str.path_join basedir vt) tag) platformdir file sha ver
}.

(** The visit of [file] of [platformdir] of [dir] with release type [rt],
    as a change of the record found at its key path. *)
Definition visit_of (fs : FileSystem) (dir vt rt platformdir file sha : string)
    (ver : option string) : Firmware -> Firmware :=
  visit fs rt (Str.path_join (Str.path_join dir platformdir) file)
    (file_platform_of (platform_and_frame vt platformdir).1 file) vt sha
    (platform_and_frame vt platformdir).2 (firmware_format_of file) ver.

(** The key path of that visit. *)
Definition key_of (vt platformdir file sha : string) : tuple :=
  (vt, file_platform_of (platform_and_frame vt platformdir).1 file, sha,
   firmware_format_of file, (platform_and_frame vt platformdir).2).

(** [R] survives every visit [add_firmware_data_from_dir] can make in
    [dir]: of a record that satisfies it, and of a new one. *)
Definition dir_preserves (fs : FileSystem) (R : tuple -> Firmware -> Prop)
    (dir vt rt : string) : Prop :=
  forall platformdir file sha ver firmware,
    dir_visit fs dir platformdir file sha ver ->
    R (key_of vt platformdir file sha) firmware \/ firmware = Firmware_new ->
    R (key_of vt platformdir file sha)
      (visit_of fs dir vt rt platformdir file sha ver firmware).

(** [R] survives every visit the walk of [basedir] can make. *)
Definition walk_preserves (fs : FileSystem) (R : tuple -> Firmware -> Prop)
    (basedir : string) : Prop :=
  forall vt tag platformdir file sha ver firmware,
    walker_visit fs basedir vt tag platformdir file sha ver ->
    R (key_of vt platformdir file sha) firmware \/ firmware = Firmware_new ->
    R (key_of vt platformdir file sha)
      (visit_of fs (Str.path_join (Str.path_join basedir vt) tag) vt tag
         platformdir file sha ver firmware).

(** Every message. *)
Definition any_message (msg : message) : Prop := True.

(** The release types a record can have after a walk. *)
Definition allowed_release_type (r : string) : Prop :=
  r = "dev" \/ r = "beta" \/ r = "stable" \/ Str.startswith "stable-" r = true.

(** The path of [file] of [platformdir] of the directory of [tag] of the
    vehicle type, as the walk joins it. *)
Definition walked_path (basedir vt tag platformdir file : string) : string :=
  Str.path_join
    (Str.path_join (Str.path_join (Str.path_join basedir vt) tag) platformdir) file.

(** A record as the last visit of a walk left it: that visit was a real
    visit of the walk for the record's key path and it set everything but
    the release type, which is that of the tag unless the tag is
    [latest]. *)
Definition as_last_visited (fs : FileSystem) (basedir : string) (k : tuple)
    (firmware : Firmware) : Prop :=
  exists vt tag platformdir file sha ver,
    k = key_of vt platformdir file sha
    /\ walker_visit fs basedir vt tag platformdir file sha ver
    /\ fw_vehicletype firmware = Some vt
    /\ fw_platform firmware
         = Some (file_platform_of (platform_and_frame vt platformdir).1 file)
    /\ fw_git_sha firmware = Some sha
    /\ fw_format firmware = Some (firmware_format_of file)
    /\ fw_frame firmware = Some (platform_and_frame vt platformdir).2
    /\ fw_filepath firmware = Some (walked_path basedir vt tag platformdir file)
    /\ fw_timestamp firmware
         = Some (getctime fs (walked_path basedir vt tag platformdir file))
    /\ fw_latest firmware = Some (if String.eqb tag "latest" then 1 else 0)
    /\ fw_firmware_version firmware = ver
    /\ (exists r, fw_release_type firmware = Some r /\ allowed_release_type r
                  /\ (tag <> "latest" -> r = tag)).

(** The key path a record names by its own attributes. *)
Definition tuple_of (firmware : Firmware) : option tuple :=
  vt ← fw_vehicletype firmware;
  fp ← fw_platform firmware;
  sha ← fw_git_sha firmware;
  fmt ← fw_format firmware;
  fr ← fw_frame firmware;
  Some (vt, fp, sha, fmt, fr).

(** ** The manifest against the table *)

(** The keys of the firmware version and of the USB enrichment. *)
Definition version_keys : list string :=
  ["mav-firmware-version"; "mav-firmware-version-major";
   "mav-firmware-version-minor"; "mav-firmware-version-patch"].

Definition usb_keys : list string := ["USBID"; "board_id"; "bootloader_str"].

(** The entry [e] carries the attributes of the record [firmware] under
    the eight keys of the dict literal. *)
Definition entry_of (basedir baseurl : string) (firmware : Firmware) (e : entry) : Prop :=
  e !! "mav-autopilot" = Some (VStr "ARDUPILOTMEGA")
  /\ e !! "platform" = Some (of_str (fw_platform firmware))
  /\ e !! "git-sha" = Some (of_str (fw_git_sha firmware))
  /\ e !! "url"
       = (fun p => VStr (urlify basedir baseurl p)) <$> fw_filepath firmware
  /\ e !! "mav-type" = Some (of_str (frame_map <$> fw_frame firmware))
  /\ e !! "mav-firmware-version-type"
       = (fun r => VStr (releasetype_map r)) <$> fw_release_type firmware
  /\ e !! "latest" = VInt <$> fw_latest firmware
  /\ e !! "format" = VStr <$> fw_format firmware.

(** The version keys of the entry [e] against the firmware version of the
    record: absent when the version is unset or empty; otherwise the
    version is [major.minor.patch-release] and the keys hold the dotted
    part and its three components. *)
Definition version_of (firmware : Firmware) (e : entry) : Prop :=
  if truthy (fw_firmware_version firmware) then
    exists major minor patch release_type,
      fw_firmware_version firmware
        = Some (major +:+ "." +:+ minor +:+ "." +:+ patch +:+ "-" +:+ release_type)
      /\ Str.has_char "." major = false /\ Str.has_char "." minor = false
      /\ Str.has_char "." patch = false
      /\ Str.has_char "-" (major +:+ "." +:+ minor +:+ "." +:+ patch) = false
      /\ Str.has_char "-" release_type = false
      /\ e !! "mav-firmware-version"
           = Some (VStr (major +:+ "." +:+ minor +:+ "." +:+ patch))
      /\ e !! "mav-firmware-version-major" = Some (VStr major)
      /\ e !! "mav-firmware-version-minor" = Some (VStr minor)
      /\ e !! "mav-firmware-version-patch" = Some (VStr patch)
  else forall k, k ∈ version_keys -> e !! k = None.

(** The record of the one firmware of [same_build_tree ["stable"]]. *)
Definition navio_record : Firmware :=
  mkFirmware None (Some "navio") (Some "Copter")
    (Some "/b/Copter/stable/navio-quad/ArduCopter.apj") (Some "deadbeef")
    (Some "quad") (Some "stable") (Some "3.6.0-official") (Some 0) (Some 2)
    (Some "apj").

(** The variable [vdir], when bound, holds names of the listing of some
    vehicle-type directory. *)
Definition vdir_listed (fs : FileSystem) (basedir : string)
    (vdir : option (list string)) : Prop :=
  forall l, vdir = Some l ->
    exists vt' names,
      listdir fs (Str.path_join basedir vt') = Names names
      /\ forall n, n ∈ l -> n ∈ names.

(** Every byte of the string is of [[0-9a-f]]. *)
Definition all_hex (s : string) : Prop :=
  forall c, Str.has_char c s = true -> Str.is_hex c = true.

(** The names of every listing are file names: not empty, without [/]. *)
Definition names_plain (fs : FileSystem) : Prop :=
  forall p names n,
    listdir fs p = Names names -> n ∈ names ->
    n <> "" /\ Str.has_char "/" n = false.

(** The same for the listings of an example tree, as a test. *)
Definition plain_listings (dirs : dict (list string)) : bool :=
  forallb (fun kv : string * list string =>
             forallb (fun n => negb (Str.is_empty n) && negb (Str.has_char "/" n)) kv.2)
    dirs.

(** The entries of a vehicle-type directory the walk passes over: the
    generated listing, hidden names, dated names, unknown tags, and tags
    that are no directory. *)
Definition first_level_ignored (fs : FileSystem) (basedir vt name : string) : bool :=
  String.eqb name "files.html" || Str.startswith "." name
  || Pattern.year_month_match name
  || negb (valid_release_type name)
  || negb (isdir fs (Str.path_join (Str.path_join basedir vt) name)).

(** Those of them the walk reports: the unknown tags. *)
Definition first_level_unknown (name : string) : bool :=
  negb (String.eqb name "files.html" || Str.startswith "." name)
  && negb (Pattern.year_month_match name)
  && negb (valid_release_type name).

(** The manifest without firmware. *)
Definition empty_manifest : manifest := mkManifest "1.0.0" [].

(** A base directory that is a regular file: nothing can be listed under
    it, with errno 20 for itself and for what would lie below. *)
Definition file_as_root : FileSystem :=
  mkFileSystem (fun _ => false) (fun p => String.eqb p "/b")
    (fun _ => Errno 20) (fun p => if String.eqb p "/b" then Some "" else None)
    (fun _ => 0) (fun _ => ApjRaises).

(** A tree with nothing at all. *)
Definition nothing : FileSystem := tree [] [].

(** [x] comes at or after [y] in the order of the strings: the relation
    between an element of a listing sorted in reverse and a later one. *)
Definition not_below (x y : string) : Prop := String.ltb x y = false.

(** * Properties *)

(** ** The dict operations *)

Section DictFacts.
Context {V : Type}.
Implicit Types (d : dict V) (k : string) (f : V -> V).

Lemma dget_at_key_same k v0 f d :
  dget k (at_key k v0 f d) = Some (f (default v0 (dget k d))).
Proof.
  induction d as [|[k' v] d IH]; simpl.
  - by rewrite String.eqb_refl.
  - destruct (String.eqb k' k) eqn:E; simpl; rewrite E; [done | apply IH].
Qed.

Lemma dget_at_key_other k k' v0 f d :
  k <> k' -> dget k' (at_key k v0 f d) = dget k' d.
Proof.
  intros Hne. induction d as [|[k1 v] d IH]; simpl.
  - apply String.eqb_neq in Hne. by rewrite Hne.
  - destruct (String.eqb k1 k) eqn:E; simpl.
    + apply String.eqb_eq in E. subst k1.
      apply String.eqb_neq in Hne. by rewrite Hne.
    + destruct (String.eqb k1 k'); [done | apply IH].
Qed.

Lemma dget_at_key k k' v0 f d :
  dget k' (at_key k v0 f d) =
    if String.eqb k k' then Some (f (default v0 (dget k d))) else dget k' d.
Proof.
  destruct (String.eqb k k') eqn:E.
  - apply String.eqb_eq in E. subst. apply dget_at_key_same.
  - apply String.eqb_neq in E. by apply dget_at_key_other.
Qed.

(** The values after [at_key]: the old ones, with the one at [k] changed,
    or the changed default. *)
Lemma Forall_dvalues_at_key (P : V -> Prop) k v0 f d :
  Forall P (dvalues d) ->
  (forall v, P v \/ v = v0 -> P (f v)) ->
  Forall P (dvalues (at_key k v0 f d)).
Proof.
  intros Hd Hf. unfold dvalues in *.
  induction d as [|[k' v] d IH]; simpl.
  - constructor; auto.
  - inversion Hd; subst. destruct (String.eqb k' k); simpl.
    + constructor; auto.
    + constructor; auto.
Qed.

End DictFacts.

(** ** The channel precedence policy on one record *)

Lemma apply_releasetype_dev path firmware :
  apply_releasetype "dev" path firmware =
    let firmware := set_latest (Some 0) firmware in
    let firmware :=
      if is_None (fw_filepath firmware) then set_filepath (Some path) firmware
      else firmware in
    if is_None (fw_release_type firmware) then set_release_type (Some "dev") firmware
    else firmware.
Proof. reflexivity. Qed.

Lemma apply_releasetype_latest path firmware :
  apply_releasetype "latest" path firmware =
    let firmware := set_filepath (Some path) (set_latest (Some 1) (set_latest (Some 0) firmware)) in
    if is_None (fw_release_type firmware) then set_release_type (Some "dev") firmware
    else firmware.
Proof. reflexivity. Qed.

Lemma apply_releasetype_named releasetype path firmware :
  releasetype <> "dev" -> releasetype <> "latest" ->
  apply_releasetype releasetype path firmware =
    set_release_type (Some releasetype)
      (set_filepath (Some path) (set_latest (Some 0) firmware)).
Proof.
  intros Hd Hl. unfold apply_releasetype.
  apply String.eqb_neq in Hd, Hl. rewrite Hd, Hl. reflexivity.
Qed.

(** The refresh keeps the three attributes of the precedence policy. *)
Lemma refresh_keeps fs fp vt sha fr fmt ver firmware :
  let firmware' := refresh fs fp vt sha fr fmt ver firmware in
  fw_filepath firmware' = fw_filepath firmware
  /\ fw_release_type firmware' = fw_release_type firmware
  /\ fw_latest firmware' = fw_latest firmware.
Proof. by destruct firmware. Qed.

(** Every visit resets the flag before it looks at the channel, so after a
    visit by a channel other than [latest] the flag is 0, whatever it
    was. *)
Lemma visit_not_latest_resets fs releasetype path fp vt sha fr fmt ver firmware :
  releasetype <> "latest" ->
  fw_latest (visit fs releasetype path fp vt sha fr fmt ver firmware) = Some 0.
Proof.
  intros Hl. unfold visit.
  destruct (refresh_keeps fs fp vt sha fr fmt ver
              (apply_releasetype releasetype path firmware)) as (_ & _ & ->).
  destruct (decide (releasetype = "dev")) as [->|Hd].
  - rewrite apply_releasetype_dev. by destruct firmware as [? ? ? [] ? ? [] ? ? ? ?].
  - by rewrite apply_releasetype_named.
Qed.

(** After a visit by a named channel the path is this file's path: the
    test [not firmware["latest"]] reads the 0 the visit has just written. *)
Lemma visit_named_overwrites_path fs releasetype path fp vt sha fr fmt ver firmware :
  releasetype <> "dev" -> releasetype <> "latest" ->
  fw_filepath (visit fs releasetype path fp vt sha fr fmt ver firmware) = Some path.
Proof.
  intros Hd Hl. unfold visit.
  destruct (refresh_keeps fs fp vt sha fr fmt ver
              (apply_releasetype releasetype path firmware)) as (-> & _ & _).
  by rewrite apply_releasetype_named.
Qed.

Lemma visit_named_release_type fs releasetype path fp vt sha fr fmt ver firmware :
  releasetype <> "dev" -> releasetype <> "latest" ->
  fw_release_type (visit fs releasetype path fp vt sha fr fmt ver firmware)
    = Some releasetype.
Proof.
  intros Hd Hl. unfold visit.
  destruct (refresh_keeps fs fp vt sha fr fmt ver
              (apply_releasetype releasetype path firmware)) as (_ & -> & _).
  by rewrite apply_releasetype_named.
Qed.

(** ** The record of a tuple in the table *)

Lemma lookup_update_record_same vt fp sha fmt fr f (firmware_data : table) :
  lookup_record vt fp sha fmt fr (update_record vt fp sha fmt fr f firmware_data)
    = Some (f (default Firmware_new (lookup_record vt fp sha fmt fr firmware_data))).
Proof.
  unfold lookup_record, update_record.
  unfold table, by_platform, by_sha, by_format, by_frame in *.
  rewrite dget_at_key_same. simpl.
  rewrite dget_at_key_same. simpl.
  rewrite dget_at_key_same. simpl.
  rewrite dget_at_key_same. simpl.
  rewrite dget_at_key_same.
  destruct (dget vt firmware_data) as [d1|]; simpl; [|reflexivity].
  destruct (dget fp d1) as [d2|]; simpl; [|reflexivity].
  destruct (dget sha d2) as [d3|]; simpl; [|reflexivity].
  destruct (dget fmt d3) as [d4|]; reflexivity.
Qed.

Lemma lookup_update_record_other vt fp sha fmt fr vt' fp' sha' fmt' fr' f
    (firmware_data : table) :
  (vt, fp, sha, fmt, fr) <> (vt', fp', sha', fmt', fr') ->
  lookup_record vt' fp' sha' fmt' fr' (update_record vt fp sha fmt fr f firmware_data)
    = lookup_record vt' fp' sha' fmt' fr' firmware_data.
Proof.
  intros Hne. unfold lookup_record, update_record.
  unfold table, by_platform, by_sha, by_format, by_frame in *.
  rewrite dget_at_key.
  destruct (String.eqb vt vt') eqn:E1; [|done].
  apply String.eqb_eq in E1. subst vt'. simpl.
  rewrite dget_at_key.
  destruct (String.eqb fp fp') eqn:E2;
    [|destruct (dget vt firmware_data); reflexivity].
  apply String.eqb_eq in E2. subst fp'. simpl.
  rewrite dget_at_key.
  destruct (String.eqb sha sha') eqn:E3;
    [|destruct (dget vt firmware_data) as [d1|]; simpl; [|reflexivity];
      destruct (dget fp d1); reflexivity].
  apply String.eqb_eq in E3. subst sha'. simpl.
  rewrite dget_at_key.
  destruct (String.eqb fmt fmt') eqn:E4;
    [|destruct (dget vt firmware_data) as [d1|]; simpl; [|reflexivity];
      destruct (dget fp d1) as [d2|]; simpl; [|reflexivity];
      destruct (dget sha d2); reflexivity].
  apply String.eqb_eq in E4. subst fmt'. simpl.
  rewrite dget_at_key.
  destruct (String.eqb fr fr') eqn:E5.
  { apply String.eqb_eq in E5. by subst fr'. }
  destruct (dget vt firmware_data) as [d1|]; simpl; [|reflexivity].
  destruct (dget fp d1) as [d2|]; simpl; [|reflexivity].
  destruct (dget sha d2) as [d3|]; simpl; [|reflexivity].
  destruct (dget fmt d3); reflexivity.
Qed.

Lemma file_step_firmware_file fs some_dir vt rt platform frame sha ver
    (firmware_data : table) file :
  is_firmware_file file = true ->
  file_step fs some_dir vt rt platform frame sha ver firmware_data file
    = update_record vt (file_platform_of platform file) sha (firmware_format_of file) frame
        (visit fs rt (Str.path_join some_dir file) (file_platform_of platform file)
           vt sha frame (firmware_format_of file) ver)
        firmware_data.
Proof.
  unfold is_firmware_file, file_step. intros H.
  destruct (bool_decide _); [done|].
  destruct (Str.startswith "." file); [done|]. reflexivity.
Qed.

Lemma file_step_skipped fs some_dir vt rt platform frame sha ver
    (firmware_data : table) file :
  is_firmware_file file = false ->
  file_step fs some_dir vt rt platform frame sha ver firmware_data file = firmware_data.
Proof.
  unfold is_firmware_file, file_step. intros H.
  destruct (bool_decide _); [done|].
  destruct (Str.startswith "." file); done.
Qed.

(** ** Channel precedence: the claims on [latest], [dev] and named channels *)

(** C1 (the code departs from the claim). The same build lies in
    [latest] and in [stable]; the accumulator visits [latest], then
    [stable]. After the first visit the record has [latest = 1] and the
    path of the [latest] file; after the second it has [latest = 0] and
    the path of the [stable] file: the path was not sticky. *)
Theorem latest_then_stable_not_sticky :
  let fs := same_build_tree ["latest"; "stable"] in
  (exists first,
      shared_record (visit_dirs fs [("latest", "latest")]) = Some first
      /\ fw_latest first = Some 1
      /\ fw_filepath first = Some "/b/Copter/latest/navio-quad/ArduCopter.apj")
  /\ (exists final,
      shared_record (visit_dirs fs [("latest", "latest"); ("stable", "stable")])
        = Some final
      /\ fw_latest final = Some 0
      /\ fw_filepath final = Some "/b/Copter/stable/navio-quad/ArduCopter.apj").
Proof.
  split; eexists; (split; [vm_compute; reflexivity | split; reflexivity]).
Qed.

(** The same on one record, for every input: a visit by [latest] and then
    by [stable] ends with the flag 0 and the path of the second visit. *)
Lemma latest_then_stable_record fs p1 p2 fp vt sha fr fmt ver1 ver2 firmware :
  let first := visit fs "latest" p1 fp vt sha fr fmt ver1 firmware in
  let final := visit fs "stable" p2 fp vt sha fr fmt ver2 first in
  fw_latest first = Some 1 /\ fw_filepath first = Some p1
  /\ fw_latest final = Some 0 /\ fw_filepath final = Some p2.
Proof.
  cbv zeta. split; [|split; [|split]].
  - unfold visit. by destruct firmware as [? ? ? ? ? ? [] ? ? ? ?].
  - unfold visit. by destruct firmware as [? ? ? ? ? ? [] ? ? ? ?].
  - by apply visit_not_latest_resets.
  - by apply visit_named_overwrites_path.
Qed.

(** Through the walker the order is the reverse sort of the names, so
    [latest] comes before [beta]: the manifest entry of a build that lies
    in both has [latest = 0] and the [beta] url. *)
Example latest_then_beta_manifest :
  exists m e,
    run_json (same_build_tree ["latest"; "beta"]) "/b" "http://fw" = (Ok m, [])
    /\ firmware_list m = [e]
    /\ e !! "latest" = Some (VInt 0)
    /\ e !! "url" = Some (VStr "http://fw/Copter/beta/navio-quad/ArduCopter.apj").
Proof.
  eexists _, _. split; [vm_compute; reflexivity|].
  split; [reflexivity|]. split; vm_compute; reflexivity.
Qed.

(** C2 (the code departs from the claim). The record of a build has been
    visited by [latest]; a visit without a channel ([dev]) of the same
    build in another directory keeps the path and the release type, and
    sets the [latest] flag from 1 to 0. *)
Theorem dev_visit_resets_latest :
  let fs := same_build_tree ["latest"; "stable"] in
  exists before after,
    shared_record (visit_dirs fs [("latest", "latest")]) = Some before
    /\ shared_record (visit_dirs fs [("latest", "latest"); ("stable", "dev")])
         = Some after
    /\ fw_filepath after = fw_filepath before
    /\ fw_release_type after = fw_release_type before
    /\ fw_latest before = Some 1
    /\ fw_latest after = Some 0.
Proof.
  eexists _, _.
  split; [vm_compute; reflexivity|]. split; [vm_compute; reflexivity|].
  repeat split.
Qed.

(** What a [dev] visit does to a record, for every input: a path and a
    release type that are set stay, unset ones are filled, and the flag is
    0 afterwards whatever it was. *)
Lemma dev_visit_record fs path fp vt sha fr fmt ver firmware :
  let after := visit fs "dev" path fp vt sha fr fmt ver firmware in
  fw_filepath after = Some (default path (fw_filepath firmware))
  /\ fw_release_type after = Some (default "dev" (fw_release_type firmware))
  /\ fw_latest after = Some 0.
Proof.
  cbv zeta. unfold visit.
  destruct (refresh_keeps fs fp vt sha fr fmt ver
              (apply_releasetype "dev" path firmware)) as (-> & -> & ->).
  rewrite apply_releasetype_dev.
  by destruct firmware as [? ? ? [] ? ? [] ? ? ? ?].
Qed.

(** C3. A visit of a firmware file by a channel other than [dev] and
    [latest] leaves the record of its tuple with that channel as release
    type, whatever the table held; so after [stable] and then
    [stable-1.2.3] on the same file name the release type is
    [stable-1.2.3]. *)
Theorem named_channel_sets_release_type
    fs dir1 dir2 vt releasetype platform frame sha ver1 ver2
    (firmware_data : table) file :
  releasetype <> "dev" -> releasetype <> "latest" ->
  is_firmware_file file = true ->
  let key_of := lookup_record vt (file_platform_of platform file) sha
                  (firmware_format_of file) frame in
  (exists firmware,
      key_of (file_step fs dir1 vt releasetype platform frame sha ver1
                firmware_data file) = Some firmware
      /\ fw_release_type firmware = Some releasetype)
  /\ (exists firmware,
      key_of (file_step fs dir2 vt "stable-1.2.3" platform frame sha ver2
                (file_step fs dir1 vt "stable" platform frame sha ver1
                   firmware_data file) file) = Some firmware
      /\ fw_release_type firmware = Some "stable-1.2.3").
Proof.
  intros Hd Hl Hf key_of. subst key_of. split.
  - rewrite file_step_firmware_file by done.
    rewrite lookup_update_record_same. eexists. split; [reflexivity|].
    by apply visit_named_release_type.
  - rewrite (file_step_firmware_file _ dir2) by done.
    rewrite lookup_update_record_same. eexists. split; [reflexivity|].
    by apply visit_named_release_type.
Qed.

Lemma named_channel_sets_release_type_witness :
  exists firmware,
    lookup_record "Copter" (file_platform_of "navio" "ArduCopter.apj") "deadbeef"
      (firmware_format_of "ArduCopter.apj") "quad"
      (file_step (same_build_tree ["beta"]) "/b/Copter/beta/navio-quad" "Copter"
         "beta" "navio" "quad" "deadbeef" None [] "ArduCopter.apj") = Some firmware
    /\ fw_release_type firmware = Some "beta".
Proof.
  apply (named_channel_sets_release_type (same_build_tree ["beta"])
           "/b/Copter/beta/navio-quad" "/b/Copter/beta/navio-quad" "Copter" "beta"
           "navio" "quad" "deadbeef" None None [] "ArduCopter.apj");
    [discriminate | discriminate | reflexivity].
Defined.

(** The two directories of the claim, visited in that order. *)
Example stable_then_stable_xyz :
  exists firmware,
    shared_record
      (visit_dirs (same_build_tree ["stable"; "stable-1.2.3"])
         [("stable", "stable"); ("stable-1.2.3", "stable-1.2.3")]) = Some firmware
    /\ fw_release_type firmware = Some "stable-1.2.3".
Proof. eexists. split; [vm_compute; reflexivity | reflexivity]. Qed.

(** ** Strings and patterns *)

Lemma startswith_app p r : Str.startswith p (p +:+ r) = true.
Proof.
  induction p as [|c p IH]; simpl; [done|].
  by rewrite Ascii.eqb_refl.
Qed.

Lemma startswith_inv p s : Str.startswith p s = true -> exists r, s = p +:+ r.
Proof.
  revert s. induction p as [|c p IH]; intros s H; simpl in *.
  - by exists s.
  - destruct s as [|d s]; [done|].
    apply andb_true_iff in H as [Hc H].
    apply Ascii.eqb_eq in Hc. subst d.
    destruct (IH _ H) as [r ->]. by exists r.
Qed.

Lemma drop_length_app p r : Str.drop (String.length p) (p +:+ r) = r.
Proof. induction p as [|c p IH]; simpl; [by destruct r | apply IH]. Qed.

Lemma take_while_nonempty p s :
  Str.is_empty (Str.take_while p s) = false ->
  exists c s', s = String c s' /\ p c = true.
Proof.
  destruct s as [|c s]; simpl; [done|].
  destruct (p c) eqn:E; [|done]. intros _. by exists c, s.
Qed.

Lemma sha_search_cons a rest :
  Pattern.sha_search (String a rest) =
    if Str.startswith "commit " (String a rest)
       && negb (Str.is_empty (Str.take_while Str.is_hex (Str.drop 7 (String a rest))))
    then Some (Str.take_while Str.is_hex (Str.drop 7 (String a rest)))
    else Pattern.sha_search rest.
Proof. reflexivity. Qed.

Lemma sha_search_finds content :
  contains_commit content -> exists sha, Pattern.sha_search content = Some sha.
Proof.
  intros (pre & c & post & -> & Hc).
  induction pre as [|a pre IH].
  - change ("" +:+ "commit " +:+ String c post)
      with (String "c" ("ommit " +:+ String c post)).
    rewrite sha_search_cons.
    change (String "c" ("ommit " +:+ String c post))
      with ("commit " +:+ String c post).
    rewrite startswith_app.
    change 7%nat with (String.length "commit ").
    rewrite drop_length_app.
    cbn [Str.take_while]. rewrite Hc. simpl. eauto.
  - destruct IH as [sha IH].
    change (String a pre +:+ "commit " +:+ String c post)
      with (String a (pre +:+ "commit " +:+ String c post)).
    rewrite sha_search_cons.
    match goal with |- context [if ?b then _ else _] => destruct b end;
      eauto.
Qed.

Lemma sha_search_found content sha :
  Pattern.sha_search content = Some sha -> contains_commit content.
Proof.
  induction content as [|a content IH]; [done|].
  rewrite sha_search_cons.
  destruct (Str.startswith "commit " (String a content)) eqn:Hp;
    destruct (Str.is_empty (Str.take_while Str.is_hex (Str.drop 7 (String a content))))
      eqn:He; cbn [andb negb]; intros H.
  - destruct (IH H) as (pre & c & post & -> & Hc).
    by exists (String a pre), c, post.
  - apply startswith_inv in Hp as [r Hr].
    apply take_while_nonempty in He as (c & post & Hd & Hc).
    rewrite Hr in Hd. change 7%nat with (String.length "commit ") in Hd.
    rewrite drop_length_app in Hd. subst r.
    by exists "", c, post.
  - destruct (IH H) as (pre & c & post & -> & Hc).
    by exists (String a pre), c, post.
  - destruct (IH H) as (pre & c & post & -> & Hc).
    by exists (String a pre), c, post.
Qed.

(** The search fails exactly on the texts without the pattern. *)
Lemma sha_search_None content :
  Pattern.sha_search content = None <-> ~ contains_commit content.
Proof.
  split.
  - intros HN Hc. apply sha_search_finds in Hc as [sha Hs]. congruence.
  - intros Hn. destruct (Pattern.sha_search content) eqn:E; [|done].
    exfalso. eauto using sha_search_found.
Qed.

(** ** Missing or unusable version-control descriptor *)

(** C4. A platform directory (an entry of the channel directory that is a
    directory and not hidden) whose [git-version.txt] is absent, or cannot
    be read, or has no ["commit <hex>"] leaves the table exactly as it
    was and prints one warning: [NoFile] when the file is absent,
    [FailedToParse] otherwise. *)
Theorem lacking_descriptor_contributes_nothing
    fs dir vt releasetype (firmware_data : table) platformdir log :
  Str.startswith "." platformdir = false ->
  isdir fs (Str.path_join dir platformdir) = true ->
  let git_version_txt :=
    Str.path_join (Str.path_join dir platformdir) "git-version.txt" in
  lacks_commit fs git_version_txt ->
  platformdir_step fs dir vt releasetype firmware_data platformdir log
    = (Ok firmware_data,
       log ++ [if path_exists fs git_version_txt
               then FailedToParse git_version_txt
               else NoFile git_version_txt]).
Proof.
  intros Hh Hd gv Hl. unfold platformdir_step. rewrite Hh, Hd. cbn [negb].
  fold gv. clearbody gv. destruct (path_exists fs gv) eqn:He; cbn [negb].
  - destruct Hl as [Hl|Hl]; [congruence|].
    unfold git_sha_from_git_version.
    destruct (read fs gv) as [content|] eqn:Hr; [|reflexivity].
    specialize (Hl content eq_refl). apply sha_search_None in Hl.
    rewrite Hl. reflexivity.
  - reflexivity.
Qed.

Lemma lacking_descriptor_contributes_nothing_witness :
  platformdir_step incomplete_tree "/b/Copter/stable" "Copter" "stable" [] "apm1" []
    = (Ok [], [FailedToParse "/b/Copter/stable/apm1/git-version.txt"]).
Proof.
  apply (lacking_descriptor_contributes_nothing incomplete_tree "/b/Copter/stable"
           "Copter" "stable" [] "apm1" []).
  - reflexivity.
  - reflexivity.
  - right. intros content Hr. vm_compute in Hr.
    injection Hr as <-. apply sha_search_None. reflexivity.
Defined.

(** The absent descriptor, and the whole channel directory. *)
Example absent_descriptor :
  platformdir_step incomplete_tree "/b/Copter/stable" "Copter" "stable" [] "apm2" []
    = (Ok [], [NoFile "/b/Copter/stable/apm2/git-version.txt"]).
Proof. reflexivity. Qed.

(** ** A firmware version that does not parse at accumulation time *)

Lemma read_firmware_version_unparsable fs file log :
  version_unparsable fs file ->
  read_firmware_version fs file log = (Ok None, log ++ [version_warning fs file]).
Proof.
  unfold version_unparsable, read_firmware_version, version_warning.
  destruct (read fs file) as [content|]; [|reflexivity].
  intros Hl.
  destruct (Str.split "-" (Str.strip content)) as [|a [|b [|c l]]];
    try reflexivity.
  by destruct Hl.
Qed.

(** A version the accumulator keeps has exactly two parts. *)
Lemma read_firmware_version_Some fs file log v log' :
  read_firmware_version fs file log = (Ok (Some v), log') ->
  length (Str.split "-" v) = 2%nat.
Proof.
  unfold read_firmware_version.
  destruct (read fs file) as [content|]; [|discriminate].
  destruct (Str.split "-" (Str.strip content)) as [|a [|b [|c l]]] eqn:E;
    try discriminate.
  intros [= <- _]. by rewrite E.
Qed.

Lemma read_firmware_version_returns fs file log :
  exists v log', read_firmware_version fs file log = (Ok v, log').
Proof.
  unfold read_firmware_version.
  destruct (read fs file) as [content|]; [|by eexists _, _].
  destruct (Str.split "-" (Str.strip content)) as [|a [|b [|c l]]];
    by eexists _, _.
Qed.

Lemma is_Some_filepath_apply releasetype path firmware :
  is_Some (fw_filepath (apply_releasetype releasetype path firmware)).
Proof.
  unfold apply_releasetype.
  destruct (String.eqb releasetype "dev");
    [|destruct (String.eqb releasetype "latest")];
    destruct firmware as [? ? ? [] ? ? [] ? ? ? ?]; simpl; eauto.
Qed.

Lemma is_Some_release_type_apply releasetype path firmware :
  is_Some (fw_release_type (apply_releasetype releasetype path firmware)).
Proof.
  unfold apply_releasetype.
  destruct (String.eqb releasetype "dev");
    [|destruct (String.eqb releasetype "latest")];
    destruct firmware as [? ? ? [] ? ? [] ? ? ? ?]; simpl; eauto.
Qed.

Lemma is_Some_latest_apply releasetype path firmware :
  is_Some (fw_latest (apply_releasetype releasetype path firmware)).
Proof.
  unfold apply_releasetype.
  destruct (String.eqb releasetype "dev");
    [|destruct (String.eqb releasetype "latest")];
    destruct firmware as [? ? ? [] ? ? [] ? ? ? ?]; simpl; eauto.
Qed.

(** What a visit refreshes, and what it has set by then. *)
Lemma visit_fields fs releasetype path fp vt sha fr fmt ver firmware :
  let firmware' := visit fs releasetype path fp vt sha fr fmt ver firmware in
  fw_firmware_version firmware' = ver
  /\ fw_platform firmware' = Some fp
  /\ fw_vehicletype firmware' = Some vt
  /\ fw_git_sha firmware' = Some sha
  /\ fw_frame firmware' = Some fr
  /\ fw_format firmware' = Some fmt
  /\ is_Some (fw_filepath firmware')
  /\ is_Some (fw_release_type firmware')
  /\ is_Some (fw_latest firmware')
  /\ is_Some (fw_timestamp firmware').
Proof.
  cbv zeta. unfold visit.
  pose proof (is_Some_filepath_apply releasetype path firmware) as H1.
  pose proof (is_Some_release_type_apply releasetype path firmware) as H2.
  pose proof (is_Some_latest_apply releasetype path firmware) as H3.
  destruct (apply_releasetype releasetype path firmware)
    as [? ? ? p ? ? r ? l ? ?]; simpl in *.
  destruct H1 as [? ->]. repeat split; eauto.
Qed.

Lemma visit_populated fs releasetype path fp vt sha fr fmt firmware :
  populated_without_version vt fp sha fmt fr
    (visit fs releasetype path fp vt sha fr fmt None firmware).
Proof. apply visit_fields. Qed.

(** A later file of the same platform directory keeps the record of a
    tuple populated: it visits it again, or it leaves it alone. *)
Lemma file_step_keeps_populated fs some_dir vt rt platform frame sha
    (firmware_data : table) file fp fmt :
  (exists firmware,
      lookup_record vt fp sha fmt frame firmware_data = Some firmware
      /\ populated_without_version vt fp sha fmt frame firmware) ->
  exists firmware,
    lookup_record vt fp sha fmt frame
      (file_step fs some_dir vt rt platform frame sha None firmware_data file)
      = Some firmware
    /\ populated_without_version vt fp sha fmt frame firmware.
Proof.
  intros H. destruct (is_firmware_file file) eqn:Hf.
  - rewrite file_step_firmware_file by done.
    destruct (decide ((vt, file_platform_of platform file, sha,
                       firmware_format_of file, frame) = (vt, fp, sha, fmt, frame)))
      as [Heq|Hne].
    + injection Heq as <- <-. rewrite lookup_update_record_same.
      eexists. split; [reflexivity | apply visit_populated].
    + by rewrite lookup_update_record_other.
  - by rewrite file_step_skipped.
Qed.

Lemma fold_file_step_keeps_populated fs some_dir vt rt platform frame sha
    files (firmware_data : table) fp fmt :
  (exists firmware,
      lookup_record vt fp sha fmt frame firmware_data = Some firmware
      /\ populated_without_version vt fp sha fmt frame firmware) ->
  exists firmware,
    lookup_record vt fp sha fmt frame
      (fold_left (file_step fs some_dir vt rt platform frame sha None) files
         firmware_data) = Some firmware
    /\ populated_without_version vt fp sha fmt frame firmware.
Proof.
  revert firmware_data. induction files as [|f files IH]; intros fd H; simpl; [done|].
  apply IH. by apply file_step_keeps_populated.
Qed.

Lemma fold_file_step_populates fs some_dir vt rt platform frame sha
    files (firmware_data : table) file :
  file ∈ files -> is_firmware_file file = true ->
  exists firmware,
    lookup_record vt (file_platform_of platform file) sha (firmware_format_of file)
      frame
      (fold_left (file_step fs some_dir vt rt platform frame sha None) files
         firmware_data) = Some firmware
    /\ populated_without_version vt (file_platform_of platform file) sha
         (firmware_format_of file) frame firmware.
Proof.
  intros Hin Hf. revert firmware_data.
  induction files as [|f files IH]; intros fd; [by apply elem_of_nil in Hin|].
  apply elem_of_cons in Hin as [<-|Hin]; simpl.
  - apply fold_file_step_keeps_populated.
    rewrite file_step_firmware_file by done.
    rewrite lookup_update_record_same.
    eexists. split; [reflexivity | apply visit_populated].
  - by apply IH.
Qed.

(** C6. A platform directory with a usable [git-version.txt] whose
    [firmware-version.txt] cannot be read or has the wrong number of
    dash-separated parts: the step prints exactly the warning of the
    handler, returns a table in which the record of every firmware file of
    the directory exists with the firmware version unset and every other
    attribute set, and the loop over the channel directory goes on with
    the next platform directory from that table. *)
Theorem unparsable_version_left_unset
    fs dir vt releasetype (firmware_data : table) platformdir rest log sha files :
  Str.startswith "." platformdir = false ->
  let some_dir := Str.path_join dir platformdir in
  let firmware_version_file := Str.path_join some_dir "firmware-version.txt" in
  let platform := (platform_and_frame vt platformdir).1 in
  let frame := (platform_and_frame vt platformdir).2 in
  isdir fs some_dir = true ->
  path_exists fs (Str.path_join some_dir "git-version.txt") = true ->
  git_sha_from_git_version fs (Str.path_join some_dir "git-version.txt") = Ok sha ->
  version_unparsable fs firmware_version_file ->
  listdir fs some_dir = Names files ->
  exists firmware_data' : table,
    platformdir_step fs dir vt releasetype firmware_data platformdir log
      = (Ok firmware_data', log ++ [version_warning fs firmware_version_file])
    /\ (forall file, file ∈ files -> is_firmware_file file = true ->
        exists firmware,
          lookup_record vt (file_platform_of platform file) sha
            (firmware_format_of file) frame firmware_data' = Some firmware
          /\ populated_without_version vt (file_platform_of platform file) sha
               (firmware_format_of file) frame firmware)
    /\ for_each (platformdir_step fs dir vt releasetype) (platformdir :: rest)
         firmware_data log
       = for_each (platformdir_step fs dir vt releasetype) rest
           firmware_data' (log ++ [version_warning fs firmware_version_file]).
Proof.
  intros Hh some_dir fvf platform frame Hd He Hs Hv Hl.
  exists (fold_left (file_step fs some_dir vt releasetype platform frame sha None)
            files firmware_data).
  assert (platformdir_step fs dir vt releasetype firmware_data platformdir log
      = (Ok (fold_left (file_step fs some_dir vt releasetype platform frame sha None)
               files firmware_data),
         log ++ [version_warning fs fvf])) as Hstep.
  { unfold platformdir_step. rewrite Hh. fold some_dir. rewrite Hd, He, Hs.
    cbn [negb]. fold fvf. unfold bind at 1.
    rewrite (read_firmware_version_unparsable _ _ _ Hv).
    subst platform frame.
    destruct (platform_and_frame vt platformdir) as [p f]. rewrite Hl.
    reflexivity. }
  split; [exact Hstep|]. split.
  - intros file Hin Hf. by apply fold_file_step_populates.
  - cbn [for_each]. unfold bind at 1. by rewrite Hstep.
Qed.

Lemma unparsable_version_left_unset_witness :
  exists firmware_data' : table,
    platformdir_step incomplete_tree "/b/Copter/stable" "Copter" "stable" [] "apm3" []
      = (Ok firmware_data',
         [] ++ [version_warning incomplete_tree
                  "/b/Copter/stable/apm3/firmware-version.txt"])
    /\ (forall file,
        file ∈ ["git-version.txt"; "firmware-version.txt"; "ArduCopter.hex"] ->
        is_firmware_file file = true ->
        exists firmware,
          lookup_record "Copter" (file_platform_of "apm3" file) "0a1b2c"
            (firmware_format_of file) "Copter" firmware_data' = Some firmware
          /\ populated_without_version "Copter" (file_platform_of "apm3" file)
               "0a1b2c" (firmware_format_of file) "Copter" firmware)
    /\ for_each (platformdir_step incomplete_tree "/b/Copter/stable" "Copter" "stable")
         ["apm3"] [] []
       = for_each (platformdir_step incomplete_tree "/b/Copter/stable" "Copter" "stable")
           [] firmware_data'
           ([] ++ [version_warning incomplete_tree
                     "/b/Copter/stable/apm3/firmware-version.txt"]).
Proof.
  apply (unparsable_version_left_unset incomplete_tree "/b/Copter/stable" "Copter"
           "stable" [] "apm3" [] [] "0a1b2c"
           ["git-version.txt"; "firmware-version.txt"; "ArduCopter.hex"]).
  - reflexivity.
  - reflexivity.
  - reflexivity.
  - reflexivity.
  - unfold version_unparsable. vm_compute. discriminate.
  - reflexivity.
Defined.

(** The record the malformed version leaves, and the warning. *)
Example malformed_version_record :
  exists firmware_data firmware,
    platformdir_step incomplete_tree "/b/Copter/stable" "Copter" "stable" [] "apm3" []
      = (Ok firmware_data,
         [MalformedFirmwareVersion "/b/Copter/stable/apm3/firmware-version.txt"])
    /\ xfirmwares_to_firmwares firmware_data = [firmware]
    /\ firmware =
         mkFirmware None (Some "apm3") (Some "Copter")
           (Some "/b/Copter/stable/apm3/ArduCopter.hex") (Some "0a1b2c")
           (Some "Copter") (Some "stable") None (Some 0) (Some 5) (Some "hex").
Proof.
  eexists _, _. split; [vm_compute; reflexivity|].
  split; reflexivity.
Qed.

(** ** Platform and frame from the name of the platform directory *)

Lemma dot_plus_no_newline s :
  Str.has_char Str.newline s = false -> Pattern.dot_plus s = s.
Proof.
  unfold Pattern.dot_plus. induction s as [|c s IH]; simpl; [done|].
  intros H. apply orb_false_iff in H as [Hc Hs].
  rewrite Hc. simpl. by rewrite IH.
Qed.

Lemma platform_frame_match_board board rest :
  board ∈ Pattern.boards ->
  Pattern.platform_frame_match (board +:+ rest) =
    match rest with
    | String "-" suffix =>
        if Str.is_empty (Pattern.dot_plus suffix) then Some (board, None)
        else Some (board, Some (Pattern.dot_plus suffix))
    | _ => Some (board, None)
    end.
Proof.
  intros Hb. unfold Pattern.boards in Hb.
  repeat (apply elem_of_cons in Hb as [->|Hb]); [..|by apply elem_of_nil in Hb];
    reflexivity.
Qed.

Lemma platform_frame_match_no_board name :
  (forall board, board ∈ Pattern.boards -> Str.startswith board name = false) ->
  Pattern.platform_frame_match name = None.
Proof.
  intros H. unfold Pattern.platform_frame_match, Pattern.boards in *.
  cbn [List.find].
  rewrite (H "PX4"), (H "navio"), (H "pxf"); [done|..];
    repeat constructor.
Qed.

(** C7. The name of the platform directory gives platform and frame:
    - a board prefix ([PX4], [navio], [pxf]), a dash and a suffix: the
      platform is the board and the frame is the suffix (the suffix as
      [.+] takes it: up to a newline, and the vehicle type if that is
      nothing);
    - a board prefix and no dash after it: the platform is the board and
      the frame is the vehicle type;
    - no board prefix: the platform is the whole name and the frame is
      the vehicle type. *)
Theorem platform_and_frame_inference vt name :
  (forall board suffix,
      board ∈ Pattern.boards -> name = board +:+ "-" +:+ suffix ->
      suffix <> "" -> Str.has_char Str.newline suffix = false ->
      platform_and_frame vt name = (board, suffix))
  /\ (forall board suffix,
      board ∈ Pattern.boards -> name = board +:+ "-" +:+ suffix ->
      platform_and_frame vt name =
        (board, if Str.is_empty (Pattern.dot_plus suffix) then vt
                else Pattern.dot_plus suffix))
  /\ (forall board rest,
      board ∈ Pattern.boards -> name = board +:+ rest ->
      Str.startswith "-" rest = false ->
      platform_and_frame vt name = (board, vt))
  /\ ((forall board, board ∈ Pattern.boards -> Str.startswith board name = false) ->
      platform_and_frame vt name = (name, vt)).
Proof.
  unfold platform_and_frame. repeat split.
  - intros board suffix Hb -> Hne Hnl.
    rewrite platform_frame_match_board by done.
    change ("-" +:+ suffix) with (String "-" suffix). cbv iota beta.
    rewrite dot_plus_no_newline by done.
    by destruct suffix.
  - intros board suffix Hb ->.
    rewrite platform_frame_match_board by done.
    change ("-" +:+ suffix) with (String "-" suffix). cbv iota beta.
    by destruct (Str.is_empty (Pattern.dot_plus suffix)).
  - intros board rest Hb -> Hr.
    rewrite platform_frame_match_board by done.
    destruct rest as [|c rest]; [done|].
    simpl in Hr. rewrite andb_true_r in Hr.
    destruct c as [[] [] [] [] [] [] [] []]; try done.
  - intros H. by rewrite platform_frame_match_no_board.
Qed.

Lemma platform_and_frame_inference_witness :
  platform_and_frame "Copter" "navio-quad" = ("navio", "quad")
  /\ platform_and_frame "Copter" "navio-quad" =
       ("navio", if Str.is_empty (Pattern.dot_plus "quad") then "Copter"
                 else Pattern.dot_plus "quad")
  /\ platform_and_frame "Plane" "PX4" = ("PX4", "Plane")
  /\ platform_and_frame "Plane" "apm2" = ("apm2", "Plane").
Proof.
  split; [|split; [|split]].
  - apply (proj1 (platform_and_frame_inference "Copter" "navio-quad") "navio" "quad");
      [repeat constructor | reflexivity | discriminate | reflexivity].
  - apply (proj1 (proj2 (platform_and_frame_inference "Copter" "navio-quad"))
             "navio" "quad");
      [repeat constructor | reflexivity].
  - apply (proj1 (proj2 (proj2 (platform_and_frame_inference "Plane" "PX4")))
             "PX4" "");
      [repeat constructor | reflexivity | reflexivity].
  - apply (proj2 (proj2 (proj2 (platform_and_frame_inference "Plane" "apm2")))).
    intros board Hb. unfold Pattern.boards in Hb.
    repeat (apply elem_of_cons in Hb as [->|Hb]); [..|by apply elem_of_nil in Hb];
      reflexivity.
Defined.

(** ** USB ids of an apj firmware *)

Lemma special_case_enriched board_id n blx ux bl usb firmware :
  special_case board_id n blx ux (enriched board_id bl usb firmware)
  = enriched board_id (bl ++ extra board_id n blx) (usb ++ extra board_id n ux) firmware.
Proof.
  unfold special_case, extra. destruct (board_id =? n).
  - unfold list_append, enriched.
    rewrite lookup_insert_ne by done. rewrite lookup_insert_eq.
    rewrite lookup_insert_ne by done. rewrite lookup_insert_eq.
    apply map_eq. intros k.
    rewrite !lookup_insert. repeat case_decide; congruence.
  - by rewrite !app_nil_r.
Qed.

(** The enrichment of an entry whose sidecar exists and has a board id. *)
Lemma add_USB_IDs_ChibiOS_enriched fs basedir baseurl (firmware : entry)
    full_url platform board_id log :
  firmware !! "url" = Some (VStr full_url) ->
  firmware !! "platform" = Some (VStr platform) ->
  let apj_path :=
    Str.path_join basedir (Str.drop (String.length baseurl + 1) full_url) in
  path_exists fs apj_path = true ->
  json_load fs apj_path = ApjBoardId board_id ->
  add_USB_IDs_ChibiOS fs basedir baseurl firmware log =
    (Ok (enriched board_id
           ([platform +:+ "-BL"]
              ++ extra board_id 50 "PX4 BL FMU v5.x" ++ extra board_id 9 "PX4 BL FMU v2.x"
              ++ extra board_id 11 "PX4 BL FMU v4.x"
              ++ extra board_id 13 "PX4 BL FMU v4.x PRO"
              ++ extra board_id 88 "MindPX BL FMU v2.x")
           (default ["0x0483/0x5740"] (dget platform USBID_MAP)
              ++ extra board_id 50 "0x26AC/0x0032" ++ extra board_id 9 "0x26AC/0x0011"
              ++ extra board_id 11 "0x26AC/0x0012" ++ extra board_id 13 "0x26AC/0x0013"
              ++ extra board_id 88 "0x26AC/0x0030")
           firmware), log).
Proof.
  intros Hu Hp apj_path He Hj. unfold add_USB_IDs_ChibiOS.
  rewrite Hu. fold apj_path. rewrite He, Hj, Hp. cbn [negb].
  assert ((match dget platform USBID_MAP with
           | Some ids =>
               <["USBID" := VList ids]>
                 (<["bootloader_str" := VList [platform +:+ "-BL"]]>
                    (<["board_id" := VInt board_id]> firmware))
           | None =>
               <["USBID" := VList ["0x0483/0x5740"]]>
                 (<["bootloader_str" := VList [platform +:+ "-BL"]]>
                    (<["board_id" := VInt board_id]> firmware))
           end) = enriched board_id [platform +:+ "-BL"]
                    (default ["0x0483/0x5740"] (dget platform USBID_MAP)) firmware)
    as ->.
  { by destruct (dget platform USBID_MAP). }
  rewrite !special_case_enriched. by rewrite <- !app_assoc.
Qed.

Lemma enriched_lookups board_id bl usb (firmware : entry) :
  enriched board_id bl usb firmware !! "USBID" = Some (VList usb)
  /\ enriched board_id bl usb firmware !! "bootloader_str" = Some (VList bl)
  /\ enriched board_id bl usb firmware !! "board_id" = Some (VInt board_id).
Proof.
  unfold enriched. repeat split.
  - by rewrite lookup_insert_eq.
  - rewrite lookup_insert_ne by done. by rewrite lookup_insert_eq.
  - rewrite !lookup_insert_ne by done. by rewrite lookup_insert_eq.
Qed.

Lemma add_USB_IDs_apj fs basedir baseurl (firmware : entry) :
  firmware !! "format" = Some (VStr "apj") ->
  add_USB_IDs fs basedir baseurl firmware
    = add_USB_IDs_ChibiOS fs basedir baseurl firmware.
Proof. intros H. unfold add_USB_IDs. by rewrite H. Qed.

Lemma add_USB_IDs_px4 fs basedir baseurl (firmware : entry) :
  firmware !! "format" = Some (VStr "px4") ->
  add_USB_IDs fs basedir baseurl firmware = add_USB_IDs_PX4 firmware.
Proof. intros H. unfold add_USB_IDs. by rewrite H. Qed.

(** C8. An apj entry whose sidecar exists and has a board id gets that
    board id, the bootloader string [<platform>-BL] and the USB ids of its
    platform (the one generic id when the platform is not in the vendor
    table), each list followed by the legacy additions: one pair exactly
    when the board id is one of 50, 9, 11, 13, 88, none otherwise. For
    board id 9 the pair is [0x26AC/0x0011] and [PX4 BL FMU v2.x], so a
    platform outside the vendor table ends with the USB ids
    [0x0483/0x5740; 0x26AC/0x0011]. Nothing is printed. *)
Theorem apj_enrichment_legacy_pairs fs basedir baseurl (firmware : entry)
    full_url platform board_id log :
  firmware !! "format" = Some (VStr "apj") ->
  firmware !! "url" = Some (VStr full_url) ->
  firmware !! "platform" = Some (VStr platform) ->
  let apj_path :=
    Str.path_join basedir (Str.drop (String.length baseurl + 1) full_url) in
  path_exists fs apj_path = true ->
  json_load fs apj_path = ApjBoardId board_id ->
  exists firmware' extra_usb extra_bl,
    add_USB_IDs fs basedir baseurl firmware log = (Ok firmware', log)
    /\ firmware' !! "board_id" = Some (VInt board_id)
    /\ firmware' !! "USBID" =
         Some (VList (default ["0x0483/0x5740"] (dget platform USBID_MAP) ++ extra_usb))
    /\ firmware' !! "bootloader_str" =
         Some (VList ([platform +:+ "-BL"] ++ extra_bl))
    /\ length extra_usb = (if bool_decide (board_id ∈ legacy_board_ids) then 1 else 0)%nat
    /\ length extra_bl = length extra_usb
    /\ (board_id = 9 ->
        extra_usb = ["0x26AC/0x0011"] /\ extra_bl = ["PX4 BL FMU v2.x"]
        /\ (dget platform USBID_MAP = None ->
            firmware' !! "USBID" = Some (VList ["0x0483/0x5740"; "0x26AC/0x0011"])
            /\ firmware' !! "bootloader_str" =
                 Some (VList [platform +:+ "-BL"; "PX4 BL FMU v2.x"])))
    /\ (board_id = 50 ->
        extra_usb = ["0x26AC/0x0032"] /\ extra_bl = ["PX4 BL FMU v5.x"])
    /\ (board_id = 11 ->
        extra_usb = ["0x26AC/0x0012"] /\ extra_bl = ["PX4 BL FMU v4.x"])
    /\ (board_id = 13 ->
        extra_usb = ["0x26AC/0x0013"] /\ extra_bl = ["PX4 BL FMU v4.x PRO"])
    /\ (board_id = 88 ->
        extra_usb = ["0x26AC/0x0030"] /\ extra_bl = ["MindPX BL FMU v2.x"]).
Proof.
  intros Hf Hu Hp apj_path He Hj.
  eexists _, _, _. split.
  { rewrite add_USB_IDs_apj by done.
    exact (add_USB_IDs_ChibiOS_enriched fs basedir baseurl firmware full_url
             platform board_id log Hu Hp He Hj). }
  destruct (enriched_lookups board_id
    ([platform +:+ "-BL"]
       ++ extra board_id 50 "PX4 BL FMU v5.x" ++ extra board_id 9 "PX4 BL FMU v2.x"
       ++ extra board_id 11 "PX4 BL FMU v4.x"
       ++ extra board_id 13 "PX4 BL FMU v4.x PRO"
       ++ extra board_id 88 "MindPX BL FMU v2.x")
    (default ["0x0483/0x5740"] (dget platform USBID_MAP)
       ++ extra board_id 50 "0x26AC/0x0032" ++ extra board_id 9 "0x26AC/0x0011"
       ++ extra board_id 11 "0x26AC/0x0012" ++ extra board_id 13 "0x26AC/0x0013"
       ++ extra board_id 88 "0x26AC/0x0030") firmware) as (H1 & H2 & H3).
  split; [exact H3|]. split; [exact H1|]. split; [exact H2|].
  rewrite H1, H2. clear H1 H2 H3.
  unfold extra, legacy_board_ids.
  split.
  { destruct (Z.eqb_spec board_id 50) as [->|N50]; [reflexivity|].
    destruct (Z.eqb_spec board_id 9) as [->|N9]; [reflexivity|].
    destruct (Z.eqb_spec board_id 11) as [->|N11]; [reflexivity|].
    destruct (Z.eqb_spec board_id 13) as [->|N13]; [reflexivity|].
    destruct (Z.eqb_spec board_id 88) as [->|N88]; [reflexivity|].
    rewrite bool_decide_eq_false_2; [reflexivity|].
    intros Hin.
    repeat (apply elem_of_cons in Hin as [?|Hin]; [done|]).
    by apply elem_of_nil in Hin. }
  split.
  { destruct (board_id =? 50), (board_id =? 9), (board_id =? 11),
      (board_id =? 13), (board_id =? 88); reflexivity. }
  split; [intros ->; split; [reflexivity|split; [reflexivity|]]; by intros ->|].
  split; [intros ->; split; reflexivity|].
  split; [intros ->; split; reflexivity|].
  split; intros ->; split; reflexivity.
Qed.

Lemma apj_enrichment_legacy_pairs_witness :
  exists firmware',
    add_USB_IDs (same_build_tree ["stable"]) "/b" "http://fw" navio_entry []
      = (Ok firmware', [])
    /\ firmware' !! "board_id" = Some (VInt 9)
    /\ firmware' !! "USBID" = Some (VList ["0x0483/0x5740"; "0x26AC/0x0011"])
    /\ firmware' !! "bootloader_str" = Some (VList ["navio-BL"; "PX4 BL FMU v2.x"]).
Proof.
  destruct (apj_enrichment_legacy_pairs (same_build_tree ["stable"]) "/b" "http://fw"
              navio_entry "http://fw/Copter/stable/navio-quad/ArduCopter.apj"
              "navio" 9 [])
    as (firmware' & extra_usb & extra_bl & H & Hb & _ & _ & _ & _ & H9 & _);
    [vm_compute; reflexivity | vm_compute; reflexivity | vm_compute; reflexivity
    | vm_compute; reflexivity | vm_compute; reflexivity |].
  exists firmware'. split; [exact H|]. split; [exact Hb|].
  exact (proj2 (proj2 (H9 eq_refl)) eq_refl).
Defined.

(** The tree of the specification's round trip: one [Copter/stable/navio-quad]
    with commit [deadbeef], version [3.6.0-official] and an apj whose
    sidecar has board id 9 gives one entry. *)
Example navio_round_trip :
  exists m e,
    run_json (same_build_tree ["stable"]) "/b" "http://fw" = (Ok m, [])
    /\ firmware_list m = [e]
    /\ e !! "git-sha" = Some (VStr "deadbeef")
    /\ e !! "mav-firmware-version" = Some (VStr "3.6.0")
    /\ e !! "USBID" = Some (VList ["0x0483/0x5740"; "0x26AC/0x0011"])
    /\ e !! "bootloader_str" = Some (VList ["navio-BL"; "PX4 BL FMU v2.x"])
    /\ e !! "board_id" = Some (VInt 9).
Proof.
  eexists _, _. split; [vm_compute; reflexivity|].
  split; [reflexivity|]. repeat split; vm_compute; reflexivity.
Qed.

(** ** USB ids of a px4 firmware *)

Lemma split_nonempty sep s : Str.split sep s <> [].
Proof.
  destruct s as [|c s]; simpl; [done|].
  destruct (Ascii.eqb c sep); [done|]. by destruct (Str.split sep s).
Qed.

Lemma split_app_sep sep a b :
  Str.split sep (a +:+ String sep b) = Str.split sep a ++ Str.split sep b.
Proof.
  induction a as [|c a IH]; simpl.
  - by rewrite Ascii.eqb_refl.
  - rewrite IH. destruct (Ascii.eqb c sep); [done|].
    pose proof (split_nonempty sep a) as Hne.
    by destruct (Str.split sep a).
Qed.

Lemma split_no_sep sep s : Str.has_char sep s = false -> Str.split sep s = [s].
Proof.
  induction s as [|c s IH]; simpl; [done|].
  intros H. apply orb_false_iff in H as [Hc Hs].
  rewrite Hc. by rewrite IH.
Qed.

Lemma last_part_app l1 l2 :
  l2 <> [] -> Str.last_part (l1 ++ l2) = Str.last_part l2.
Proof.
  unfold Str.last_part. intros Hne. induction l1 as [|x l1 IH]; simpl; [done|].
  rewrite <- IH. destruct (l1 ++ l2) eqn:E; [|done].
  apply app_eq_nil in E as [_ ?]. done.
Qed.

(** The last dash-delimited token of a string that ends in a dash and a
    token without dash is that token. *)
Lemma last_token pre tok :
  Str.has_char "-" tok = false ->
  Str.last_part (Str.split "-" (pre +:+ "-" +:+ tok)) = tok.
Proof.
  intros H. change ("-" +:+ tok) with (String "-" tok).
  rewrite split_app_sep, last_part_app by apply split_nonempty.
  by rewrite split_no_sep.
Qed.

(** C9. For a px4 entry the table is keyed by the last dash-delimited
    token of the url. [ArduCopter-v1.px4] under [PX4] has the platform key
    [PX4-v1]; a url whose last token is [v1.px4] gets the USB id
    [0x26AC/0x0010], board id 5 and [PX4 BL FMU v1.x]; a url whose last
    token is none of the five of the table leaves the entry as it is,
    with nothing printed and nothing raised. *)
Theorem px4_usb_ids fs basedir baseurl (firmware : entry) url log :
  firmware !! "format" = Some (VStr "px4") ->
  firmware !! "url" = Some (VStr url) ->
  let suffix := Str.last_part (Str.split "-" url) in
  file_platform_of "PX4" "ArduCopter-v1.px4" = "PX4-v1"
  /\ (forall pre tok,
      url = pre +:+ "-" +:+ tok -> Str.has_char "-" tok = false -> suffix = tok)
  /\ (suffix = "v1.px4" ->
      exists firmware',
        add_USB_IDs fs basedir baseurl firmware log = (Ok firmware', log)
        /\ firmware' !! "USBID" = Some (VList ["0x26AC/0x0010"])
        /\ firmware' !! "board_id" = Some (VInt 5)
        /\ firmware' !! "bootloader_str" = Some (VList ["PX4 BL FMU v1.x"]))
  /\ (suffix ∉ px4_suffixes ->
      add_USB_IDs fs basedir baseurl firmware log = (Ok firmware, log)).
Proof.
  intros Hf Hu suffix. rewrite add_USB_IDs_px4 by done.
  split; [reflexivity|]. split; [|split].
  - intros pre tok -> Ht. by apply last_token.
  - intros Hs. unfold add_USB_IDs_PX4. rewrite Hu. fold suffix. rewrite Hs.
    eexists. split; [reflexivity|]. repeat split.
    + rewrite !lookup_insert_ne by done. by rewrite lookup_insert_eq.
    + rewrite !lookup_insert_ne by done. by rewrite lookup_insert_eq.
    + by rewrite lookup_insert_eq.
  - intros Hn. unfold add_USB_IDs_PX4. rewrite Hu. fold suffix.
    unfold px4_suffixes in Hn.
    destruct (String.eqb_spec suffix "v1.px4") as [E|_];
      [destruct Hn; rewrite E; repeat constructor|].
    rewrite bool_decide_eq_false_2.
    2:{ intros Hin. apply Hn.
        apply elem_of_cons in Hin as [->|Hin]; [repeat constructor|].
        apply elem_of_cons in Hin as [->|Hin]; [repeat constructor|].
        by apply elem_of_nil in Hin. }
    destruct (String.eqb_spec suffix "v4.px4") as [E|_];
      [destruct Hn; rewrite E; repeat constructor|].
    destruct (String.eqb_spec suffix "v4pro.px4") as [E|_];
      [destruct Hn; rewrite E; repeat constructor|].
    reflexivity.
Qed.

Lemma px4_usb_ids_witness :
  exists firmware',
    add_USB_IDs px4_tree "/b" "http://fw"
      (<["format" := VStr "px4"]>
         (<["url" := VStr "http://fw/Copter/stable/PX4/ArduCopter-v1.px4"]> ∅)) []
      = (Ok firmware', [])
    /\ firmware' !! "USBID" = Some (VList ["0x26AC/0x0010"])
    /\ firmware' !! "board_id" = Some (VInt 5)
    /\ firmware' !! "bootloader_str" = Some (VList ["PX4 BL FMU v1.x"]).
Proof.
  apply (px4_usb_ids px4_tree "/b" "http://fw"
           (<["format" := VStr "px4"]>
              (<["url" := VStr "http://fw/Copter/stable/PX4/ArduCopter-v1.px4"]> ∅))
           "http://fw/Copter/stable/PX4/ArduCopter-v1.px4" []);
    [vm_compute; reflexivity | vm_compute; reflexivity | reflexivity].
Defined.

(** The whole run on a [PX4] directory: the known variant gets its USB
    metadata and the platform key [PX4-v1], the unknown one gets none. *)
Example px4_manifest :
  exists m e1 e7,
    run_json px4_tree "/b" "http://fw"
      = (Ok m, [BadFile "/b/Copter/stable/PX4/firmware-version.txt"])
    /\ firmware_list m ≡ₚ [e1; e7]
    /\ e1 !! "platform" = Some (VStr "PX4-v1")
    /\ e1 !! "USBID" = Some (VList ["0x26AC/0x0010"])
    /\ e1 !! "board_id" = Some (VInt 5)
    /\ e1 !! "bootloader_str" = Some (VList ["PX4 BL FMU v1.x"])
    /\ e7 !! "platform" = Some (VStr "PX4-v7")
    /\ e7 !! "USBID" = None /\ e7 !! "board_id" = None
    /\ e7 !! "bootloader_str" = None.
Proof.
  eexists _, _, _. split; [vm_compute; reflexivity|].
  split; [cbn [firmware_list]; reflexivity|]. repeat split; vm_compute; reflexivity.
Qed.

(** ** What the run prints and what the table holds *)

Section Logs.
(** Any set of messages that has all but the "no platform" warning. *)
Context (P : message -> Prop).
Context (HP : forall msg, not_no_platform msg -> P msg).

Section Hoare.
Context {A B : Type}.

Lemma hoare_ret (a : A) (Q : A -> Prop) : Q a -> hoare P (ret a) Q.
Proof. intros H log Hl. split; [done|]. by intros ? [= <-]. Qed.

Lemma hoare_raise e (Q : A -> Prop) : hoare P (raise e) Q.
Proof. intros log Hl. split; [done|]. by intros ? [=]. Qed.

Lemma hoare_bind (m : M A) (k : A -> M B) (Q : A -> Prop) (R : B -> Prop) :
  hoare P m Q -> (forall a, Q a -> hoare P (k a) R) -> hoare P (bind m k) R.
Proof.
  intros Hm Hk log Hl. unfold bind.
  destruct (Hm log Hl) as [H1 H2].
  destruct (m log) as [[a|e] log']; simpl in *.
  - by apply Hk; [apply H2|].
  - split; [done|]. by intros ? [=].
Qed.

Lemma hoare_weaken (m : M A) (Q Q' : A -> Prop) :
  hoare P m Q -> (forall a, Q a -> Q' a) -> hoare P m Q'.
Proof.
  intros Hm HQ log Hl. destruct (Hm log Hl) as [H1 H2]. split; [done|].
  intros a Ha. by apply HQ, H2.
Qed.

End Hoare.

Lemma hoare_for_each {A S : Type} (body : S -> A -> M S) (I : S -> Prop) l st :
  I st -> (forall st x, I st -> hoare P (body st x) I) ->
  hoare P (for_each body l st) I.
Proof.
  intros Hst Hb. revert st Hst.
  induction l as [|x l IH]; intros st Hst; simpl.
  - by apply hoare_ret.
  - eapply hoare_bind; [by apply Hb|]. intros st' Hst'. by apply IH.
Qed.

Lemma hoare_print msg (Q : unit -> Prop) :
  not_no_platform msg -> Q tt -> hoare P (print msg) Q.
Proof.
  intros Hm HQ log Hl. unfold print; simpl. split.
  - apply Forall_app. split; [done|]. constructor; [by apply HP | constructor].
  - by intros [] _.
Qed.

Lemma hoare_print_then {A : Type} msg (a : A) (Q : A -> Prop) :
  not_no_platform msg -> Q a -> hoare P (run print msg then ret a) Q.
Proof.
  intros Hm HQ. eapply hoare_bind; [by apply (hoare_print msg (fun _ => True))|].
  intros _ _. by apply hoare_ret.
Qed.

(** *** The accumulator keeps every record visited *)

Lemma visit_visited fs releasetype path fp vt sha fr fmt ver firmware :
  (forall v, ver = Some v -> length (Str.split "-" v) = 2%nat) ->
  visited (visit fs releasetype path fp vt sha fr fmt ver firmware).
Proof.
  intros Hv.
  destruct (visit_fields fs releasetype path fp vt sha fr fmt ver firmware)
    as (H1 & _ & _ & _ & _ & H6 & H7 & H8 & H9 & _).
  unfold visited. rewrite H1, H6. eauto 10.
Qed.

Lemma update_record_all_visited vt fp sha fmt fr f (firmware_data : table) :
  all_visited firmware_data ->
  (forall firmware, visited (f firmware)) ->
  all_visited (update_record vt fp sha fmt fr f firmware_data).
Proof.
  intros Ht Hf. unfold all_visited, update_record.
  apply Forall_dvalues_at_key; [done|]. intros d1 H1.
  assert (Forall (fun d2 : by_sha =>
            Forall (fun d3 : by_format =>
              Forall (fun d4 : by_frame => Forall visited (dvalues d4)) (dvalues d3))
            (dvalues d2)) (dvalues d1)) as H1'
    by (destruct H1 as [H | ->]; [done | constructor]).
  apply Forall_dvalues_at_key; [done|]. intros d2 H2.
  assert (Forall (fun d3 : by_format =>
            Forall (fun d4 : by_frame => Forall visited (dvalues d4)) (dvalues d3))
          (dvalues d2)) as H2'
    by (destruct H2 as [H | ->]; [done | constructor]).
  apply Forall_dvalues_at_key; [done|]. intros d3 H3.
  assert (Forall (fun d4 : by_frame => Forall visited (dvalues d4)) (dvalues d3))
    as H3' by (destruct H3 as [H | ->]; [done | constructor]).
  apply Forall_dvalues_at_key; [done|]. intros d4 H4.
  assert (Forall visited (dvalues d4)) as H4'
    by (destruct H4 as [H | ->]; [done | constructor]).
  apply Forall_dvalues_at_key; [done|]. auto.
Qed.

Lemma file_step_all_visited fs some_dir vt rt platform frame sha ver
    (firmware_data : table) file :
  (forall v, ver = Some v -> length (Str.split "-" v) = 2%nat) ->
  all_visited firmware_data ->
  all_visited (file_step fs some_dir vt rt platform frame sha ver firmware_data file).
Proof.
  intros Hv Ht. destruct (is_firmware_file file) eqn:Hf.
  - rewrite file_step_firmware_file by done.
    apply update_record_all_visited; [done|].
    intros firmware. by apply visit_visited.
  - by rewrite file_step_skipped.
Qed.

Lemma fold_file_step_all_visited fs some_dir vt rt platform frame sha ver
    files (firmware_data : table) :
  (forall v, ver = Some v -> length (Str.split "-" v) = 2%nat) ->
  all_visited firmware_data ->
  all_visited
    (fold_left (file_step fs some_dir vt rt platform frame sha ver) files firmware_data).
Proof.
  intros Hv. revert firmware_data.
  induction files as [|f files IH]; intros fd Ht; simpl; [done|].
  apply IH. by apply file_step_all_visited.
Qed.

Lemma hoare_read_firmware_version fs file :
  hoare P (read_firmware_version fs file)
    (fun ver => forall v, ver = Some v -> length (Str.split "-" v) = 2%nat).
Proof.
  unfold read_firmware_version.
  destruct (read fs file) as [content|]; [|by apply hoare_print_then].
  destruct (Str.split "-" (Str.strip content)) as [|a [|b [|c l]]] eqn:E;
    try by apply hoare_print_then.
  apply hoare_ret. intros v [= <-]. by rewrite E.
Qed.

Lemma hoare_platformdir_step fs dir vt rt (firmware_data : table) platformdir :
  all_visited firmware_data ->
  hoare P (platformdir_step fs dir vt rt firmware_data platformdir) all_visited.
Proof.
  intros Ht. unfold platformdir_step.
  destruct (Str.startswith "." platformdir); [by apply hoare_ret|].
  destruct (isdir fs _); cbn [negb]; [|by apply hoare_ret].
  destruct (path_exists fs _); cbn [negb]; [|by apply hoare_print_then].
  destruct (git_sha_from_git_version fs _) as [sha|e];
    [|by apply hoare_print_then].
  eapply hoare_bind; [apply hoare_read_firmware_version|].
  intros ver Hv. cbv beta.
  destruct (platform_and_frame vt platformdir) as [platform frame].
  destruct (listdir fs _) as [files|errno]; [|apply hoare_raise].
  apply hoare_ret. by apply fold_file_step_all_visited.
Qed.

Lemma hoare_add_firmware_data_from_dir fs dir (firmware_data : table) vt rt :
  all_visited firmware_data ->
  hoare P (add_firmware_data_from_dir fs dir firmware_data vt rt) all_visited.
Proof.
  intros Ht. unfold add_firmware_data_from_dir.
  destruct (isdir fs dir); cbn [negb]; [|by apply hoare_ret].
  destruct (listdir fs dir) as [dlist|errno]; [|by apply hoare_print_then].
  apply hoare_for_each; [done|].
  intros st x Hst. by apply hoare_platformdir_step.
Qed.

Lemma hoare_firstlevel_step fs basedir vt (xfirmwares : table) firstlevel :
  all_visited xfirmwares ->
  hoare P (firstlevel_step fs basedir vt xfirmwares firstlevel) all_visited.
Proof.
  intros Ht. unfold firstlevel_step.
  destruct (_ || _); [by apply hoare_ret|].
  destruct (Pattern.year_month_match firstlevel); [by apply hoare_ret|].
  destruct (valid_release_type firstlevel); cbn [negb];
    [|by apply hoare_print_then].
  destruct (isdir fs _); cbn [negb]; [|by apply hoare_ret].
  by apply hoare_add_firmware_data_from_dir.
Qed.

Lemma hoare_vehicletype_step fs basedir (st : option (list string) * table) vt :
  all_visited st.2 ->
  hoare P (vehicletype_step fs basedir st vt) (fun st' => all_visited st'.2).
Proof.
  intros Ht. unfold vehicletype_step.
  assert (forall vdir,
    hoare P (let* xfirmwares :=
             for_each (firstlevel_step fs basedir vt) vdir st.2 in
           ret (Some vdir, xfirmwares))
      (fun st' => all_visited st'.2)) as Hinner.
  { intros vdir. eapply hoare_bind.
    - apply hoare_for_each; [exact Ht|].
      intros t x Hx. by apply hoare_firstlevel_step.
    - intros t Hx. by apply hoare_ret. }
  destruct (listdir fs _) as [names|errno]; [apply Hinner|].
  destruct (errno =? 2); [by apply hoare_ret|].
  destruct st.1; [apply Hinner | apply hoare_raise].
Qed.

(** The table after the walk: every record is visited; and the walk
    prints no "no platform" warning. *)
Lemma hoare_walk_tree fs basedir : hoare P (walk_tree fs basedir) all_visited.
Proof.
  unfold walk_tree. eapply hoare_bind.
  - apply (hoare_for_each _ (fun st => all_visited st.2)); [constructor|].
    intros st x Hst. by apply hoare_vehicletype_step.
  - intros st Hst. by apply hoare_ret.
Qed.

(** *** The projection never meets an entry without platform *)

Lemma some_json_of_platform firmware url version_type latest format :
  is_Some (some_json_of firmware url version_type latest format !! "platform").
Proof.
  unfold some_json_of. rewrite !lookup_insert_ne by done.
  rewrite lookup_insert_eq. eauto.
Qed.

Lemma hoare_add_version ver (some_json : entry) :
  is_Some (some_json !! "platform") ->
  hoare P (add_version ver some_json) (fun e : entry => is_Some (e !! "platform")).
Proof.
  intros Hp. unfold add_version.
  destruct (truthy ver); [|by apply hoare_ret].
  destruct (parse_fw_version _) as [[[[major minor] patch] rt]|e];
    [|apply hoare_raise].
  apply hoare_ret. by rewrite !lookup_insert_ne by done.
Qed.

Lemma hoare_add_USB_IDs_PX4 (firmware : entry) :
  hoare P (add_USB_IDs_PX4 firmware) (fun _ => True).
Proof.
  unfold add_USB_IDs_PX4.
  destruct (firmware !! "url") as [[| |url|]|];
    try apply hoare_raise.
  repeat match goal with
         | |- hoare _ (if ?b then _ else _) _ => destruct b
         end; by apply hoare_ret.
Qed.

Lemma hoare_add_USB_IDs_ChibiOS fs basedir baseurl (firmware : entry) :
  is_Some (firmware !! "platform") ->
  hoare P (add_USB_IDs_ChibiOS fs basedir baseurl firmware) (fun _ => True).
Proof.
  intros [p Hp]. unfold add_USB_IDs_ChibiOS.
  destruct (firmware !! "url") as [[| |url|]|];
    try apply hoare_raise.
  destruct (path_exists fs _); cbn [negb]; [|by apply hoare_print_then].
  destruct (json_load fs _) as [| |board_id];
    [apply hoare_raise | by apply hoare_print_then |].
  rewrite Hp. destruct p; try apply hoare_raise. by apply hoare_ret.
Qed.

Lemma hoare_add_USB_IDs fs basedir baseurl (firmware : entry) :
  is_Some (firmware !! "platform") ->
  hoare P (add_USB_IDs fs basedir baseurl firmware) (fun _ => True).
Proof.
  intros Hp. unfold add_USB_IDs.
  destruct (firmware !! "format") as [[| |fmt|]|];
    try (by apply hoare_ret); try apply hoare_raise.
  destruct (String.eqb fmt "px4"); [apply hoare_add_USB_IDs_PX4|].
  destruct (String.eqb fmt "apj"); [by apply hoare_add_USB_IDs_ChibiOS|].
  by apply hoare_ret.
Qed.

Lemma hoare_project fs basedir baseurl firmware_json firmware :
  hoare P (project fs basedir baseurl firmware_json firmware) (fun _ => True).
Proof.
  unfold project.
  destruct (fw_filepath firmware) as [filepath|]; [|apply hoare_raise].
  destruct (fw_release_type firmware) as [releasetype|]; [|apply hoare_raise].
  destruct (fw_latest firmware) as [latest|]; [|apply hoare_raise].
  destruct (fw_format firmware) as [format|]; [|apply hoare_raise].
  eapply hoare_bind;
    [apply hoare_add_version, some_json_of_platform|].
  intros e He. cbv beta.
  eapply hoare_bind; [by apply hoare_add_USB_IDs|].
  intros e' _. by apply hoare_ret.
Qed.

Lemma hoare_walk_directory fs basedir baseurl :
  hoare P (walk_directory fs basedir baseurl) (fun _ => True).
Proof.
  unfold walk_directory. eapply hoare_bind; [apply hoare_walk_tree|].
  intros t _. unfold project_all. eapply hoare_bind.
  - apply (hoare_for_each _ (fun _ => True)); [done|].
    intros st x _. apply hoare_project.
  - intros l _. by apply hoare_ret.
Qed.

Lemma hoare_json fs basedir baseurl :
  hoare P (json fs basedir baseurl) (fun _ => True).
Proof.
  unfold json.
  destruct (looks_like_binaries_directory fs basedir) as [looks|e];
    [|apply hoare_raise].
  eapply hoare_bind with (Q := fun _ => True).
  - destruct looks; [by apply hoare_ret | by apply hoare_print].
  - intros _ _. apply hoare_walk_directory.
Qed.

End Logs.

(** C10. The dict the projection builds always has the key [platform], so
    the enrichment of an apj entry never takes the branch that prints
    "no platform": whatever the tree, the base directory and the base
    url, the log of the whole run (also of a run that an exception ends)
    holds no such warning. *)
Theorem no_platform_warning_never_printed fs basedir baseurl path :
  NoPlatform path ∉ (run_json fs basedir baseurl).2.
Proof.
  unfold run_json. intros Hin.
  destruct (hoare_json not_no_platform (fun _ H => H) fs basedir baseurl []
              (Forall_nil_2 _)) as [H _].
  rewrite Forall_forall in H. exact (H _ Hin).
Qed.

(** ** The strict parse of the firmware version in the projection *)

Lemma parse_fw_version_shape version major minor patch :
  parse_fw_version version = Ok (major, minor, patch, version) <->
  exists version_numbers release_type,
    Str.split "-" version = [version_numbers; release_type]
    /\ Str.split "." version_numbers = [major; minor; patch].
Proof.
  unfold parse_fw_version. split.
  - destruct (Str.split "-" version) as [|a [|b [|c l]]]; try discriminate.
    destruct (Str.split "." a) as [|x [|y [|z [|w l]]]] eqn:E; try discriminate.
    intros [= <- <- <-]. by exists a, b.
  - intros (a & b & -> & ->). reflexivity.
Qed.

Lemma parse_fw_version_raises version :
  ~ three_part_shape version -> parse_fw_version version = Raise ValueError.
Proof.
  intros Hn. unfold parse_fw_version.
  destruct (Str.split "-" version) as [|a [|b [|c l]]] eqn:E1; try reflexivity.
  destruct (Str.split "." a) as [|x [|y [|z [|w l]]]] eqn:E2; try reflexivity.
  destruct Hn. by exists a, b, x, y, z.
Qed.

Lemma all_visited_leaves (firmware_data : table) :
  all_visited firmware_data ->
  Forall visited (xfirmwares_to_firmwares firmware_data).
Proof.
  unfold all_visited, xfirmwares_to_firmwares. intros H.
  apply Forall_flat_map. eapply Forall_impl; [exact H|]. intros d1 H1. cbv beta in *.
  apply Forall_flat_map. eapply Forall_impl; [exact H1|]. intros d2 H2. cbv beta in *.
  apply Forall_flat_map. eapply Forall_impl; [exact H2|]. intros d3 H3. cbv beta in *.
  apply Forall_flat_map. eapply Forall_impl; [exact H3|]. by intros d4 H4.
Qed.

(** A visited record with a version of two dash-separated parts that is
    not of the three-part shape: its projection raises [ValueError]
    before it prints anything. *)
Lemma project_raises fs basedir baseurl firmware_json firmware v log :
  visited firmware ->
  fw_firmware_version firmware = Some v ->
  ~ three_part_shape v ->
  project fs basedir baseurl firmware_json firmware log = (Raise ValueError, log).
Proof.
  intros ([p Hp] & [r Hr] & [l Hl] & [f Hf] & Hv) Hver Hn.
  unfold project. rewrite Hp, Hr, Hl, Hf, Hver.
  unfold bind at 1. unfold add_version.
  assert (truthy (Some v) = true) as ->.
  { specialize (Hv v Hver). by destruct v. }
  cbn [default]. change (from_option id "" (Some v)) with v.
  by rewrite parse_fw_version_raises.
Qed.

Lemma for_each_raises {A S : Type} (body : S -> A -> M S) l x :
  x ∈ l ->
  (forall st log, exists e log', body st x log = (Raise e, log')) ->
  forall st log, exists e log', for_each body l st log = (Raise e, log').
Proof.
  intros Hin Hx. induction l as [|y l IH]; [by apply elem_of_nil in Hin|].
  intros st log. simpl. unfold bind.
  apply elem_of_cons in Hin as [<-|Hin].
  - destruct (Hx st log) as (e & log' & ->). eauto.
  - destruct (body st y log) as [[st'|e] log']; [by apply IH | eauto].
Qed.

(** C5. A record of the table the walk built whose firmware version is
    present and not of the shape "two parts around the dash, the first of
    three parts around dots": its projection raises [ValueError], and the
    whole of [walk_directory] ends in an exception, so no manifest is
    returned. A present version of that shape is parsed into its three
    components. *)
Theorem strict_version_parse_aborts_run
    fs basedir baseurl log (firmware_data : table) log1 firmware v :
  walk_tree fs basedir log = (Ok firmware_data, log1) ->
  firmware ∈ xfirmwares_to_firmwares firmware_data ->
  fw_firmware_version firmware = Some v ->
  (~ three_part_shape v ->
      (forall firmware_json log', project fs basedir baseurl firmware_json firmware log'
                                  = (Raise ValueError, log'))
      /\ exists e log2, walk_directory fs basedir baseurl log = (Raise e, log2))
  /\ (forall major minor patch,
      parse_fw_version v = Ok (major, minor, patch, v) <->
      exists version_numbers release_type,
        Str.split "-" v = [version_numbers; release_type]
        /\ Str.split "." version_numbers = [major; minor; patch]).
Proof.
  intros Hw Hin Hv. split; [|apply parse_fw_version_shape].
  intros Hn.
  destruct (hoare_walk_tree (fun _ => True) (fun _ _ => I) fs basedir log)
    as [_ Ht]; [by apply Forall_true|].
  rewrite Hw in Ht. specialize (Ht _ eq_refl).
  apply all_visited_leaves in Ht. rewrite Forall_forall in Ht.
  specialize (Ht _ Hin).
  assert (forall firmware_json log',
             project fs basedir baseurl firmware_json firmware log'
             = (Raise ValueError, log')) as Hp.
  { intros. by eapply project_raises. }
  split; [exact Hp|].
  unfold walk_directory, bind at 1. rewrite Hw.
  unfold project_all, bind.
  destruct (for_each_raises (project fs basedir baseurl) _ _ Hin
              (fun st l => ex_intro _ _ (ex_intro _ _ (Hp st l))) [] log1)
    as (e & log2 & ->).
  eauto.
Qed.

Lemma strict_version_parse_aborts_run_witness :
  exists e log2,
    walk_directory short_version_tree "/b" "http://fw" [] = (Raise e, log2).
Proof.
  assert (exists firmware_data firmware,
             walk_tree short_version_tree "/b" [] = (Ok firmware_data, [])
             /\ xfirmwares_to_firmwares firmware_data = [firmware]
             /\ fw_firmware_version firmware = Some "3.6-official")
    as (firmware_data & firmware & Hw & Hl & Hv).
  { eexists _, _. split; [vm_compute; reflexivity|]. split; reflexivity. }
  refine (proj2 (proj1 (strict_version_parse_aborts_run short_version_tree "/b"
                          "http://fw" [] firmware_data [] firmware "3.6-official"
                          Hw _ Hv) _)).
  - rewrite Hl. constructor.
  - intros (a & b & x & y & z & H1 & H2).
    vm_compute in H1. injection H1 as <- <-. vm_compute in H2. discriminate.
Defined.

(** The run on that tree ends in [ValueError]; the accumulator had kept
    the version without complaint. *)
Example short_version_run :
  run_json short_version_tree "/b" "http://fw" = (Raise ValueError, []).
Proof. vm_compute. reflexivity. Qed.

(** * More of the script: invariants of the walk *)

(** ** Keys are never repeated *)

Lemma dict_inv_nil {V : Type} (P : string -> V -> Prop) : dict_inv P [].
Proof. split; constructor. Qed.

Lemma keys_at_key {V : Type} k (v0 : V) f d x :
  x ∈ map fst (at_key k v0 f d) -> x = k \/ x ∈ map fst d.
Proof.
  induction d as [|[k' v] d IH]; simpl.
  - intros H. apply list_elem_of_singleton in H. by left.
  - destruct (String.eqb k' k); simpl; [by right|].
    intros H. apply elem_of_cons in H as [->|H].
    + right. constructor.
    + destruct (IH H) as [->|H']; [by left|]. right. by constructor.
Qed.

Lemma dict_inv_at_key {V : Type} (P : string -> V -> Prop) k v0 f (d : dict V) :
  dict_inv P d ->
  (forall v, P k v \/ v = v0 -> P k (f v)) ->
  dict_inv P (at_key k v0 f d).
Proof.
  intros [Hn Hd] Hf. induction d as [|[k' v] d IH]; simpl.
  - split; [apply NoDup_singleton|]. constructor; [|constructor]. simpl. auto.
  - simpl in Hn. apply NoDup_cons in Hn as [Hk Hn].
    apply Forall_cons in Hd as [Hv Hd]. simpl in Hv.
    destruct (IH Hn Hd) as [IHn IHd].
    destruct (String.eqb_spec k' k) as [->|Hne]; simpl.
    + split; [by apply NoDup_cons|]. constructor; [simpl; auto | done].
    + split.
      * apply NoDup_cons. split; [|done].
        intros Hin. apply keys_at_key in Hin as [?|?]; done.
      * by constructor.
Qed.

Lemma update_record_table_inv (R : tuple -> Firmware -> Prop) vt fp sha fmt fr f
    (firmware_data : table) :
  table_inv R firmware_data ->
  (forall firmware,
      R (vt, fp, sha, fmt, fr) firmware \/ firmware = Firmware_new ->
      R (vt, fp, sha, fmt, fr) (f firmware)) ->
  table_inv R (update_record vt fp sha fmt fr f firmware_data).
Proof.
  intros Ht Hf. unfold table_inv, update_record.
  apply dict_inv_at_key; [done|]. intros d1 [H1 | ->];
    (apply dict_inv_at_key; [done || apply dict_inv_nil|]); intros d2 [H2 | ->];
    (apply dict_inv_at_key; [done || apply dict_inv_nil|]); intros d3 [H3 | ->];
    (apply dict_inv_at_key; [done || apply dict_inv_nil|]); intros d4 [H4 | ->];
    (apply dict_inv_at_key; [done || apply dict_inv_nil|]); exact Hf.
Qed.

(** ** The visits of a run, and what survives all of them *)

Lemma any_message_all msg : not_no_platform msg -> any_message msg.
Proof. done. Qed.

Lemma hoare_for_each_in {A S : Type} (P : message -> Prop)
    (body : S -> A -> M S) (I : S -> Prop) l st :
  I st -> (forall st x, x ∈ l -> I st -> hoare P (body st x) I) ->
  hoare P (for_each body l st) I.
Proof.
  intros Hst Hb. revert st Hst.
  induction l as [|x l IH]; intros st Hst; simpl.
  - intros log Hl. split; [done|]. by intros ? [= <-].
  - intros log Hl. unfold bind.
    destruct (Hb st x (list_elem_of_here x l) Hst log Hl) as [H1 H2].
    destruct (body st x log) as [[st'|e] log']; simpl in *.
    + apply IH; [|by apply H2|done].
      intros st0 y Hy. apply Hb. by constructor.
    + split; [done|]. by intros ? [=].
Qed.

Lemma hoare_read_firmware_version_of fs file :
  hoare any_message (read_firmware_version fs file)
    (fun ver => ver = firmware_version_of fs file).
Proof.
  unfold read_firmware_version, firmware_version_of.
  destruct (read fs file) as [content|];
    [|by apply (hoare_print_then any_message any_message_all)].
  destruct (Str.split "-" (Str.strip content)) as [|a [|b [|c l]]];
    try by apply (hoare_print_then any_message any_message_all).
  by apply hoare_ret.
Qed.

Lemma fold_file_step_table_inv fs (R : tuple -> Firmware -> Prop)
    some_dir vt rt platform frame sha ver files (firmware_data : table) :
  (forall file firmware,
      file ∈ files -> is_firmware_file file = true ->
      R (vt, file_platform_of platform file, sha, firmware_format_of file, frame)
        firmware \/ firmware = Firmware_new ->
      R (vt, file_platform_of platform file, sha, firmware_format_of file, frame)
        (visit fs rt (Str.path_join some_dir file) (file_platform_of platform file)
           vt sha frame (firmware_format_of file) ver firmware)) ->
  table_inv R firmware_data ->
  table_inv R
    (fold_left (file_step fs some_dir vt rt platform frame sha ver) files
       firmware_data).
Proof.
  revert firmware_data. induction files as [|f files IH]; intros fd Hf Ht; [done|].
  simpl. apply IH.
  - intros file firmware Hin. apply Hf. by constructor.
  - destruct (is_firmware_file f) eqn:E.
    + rewrite file_step_firmware_file by done.
      apply update_record_table_inv; [done|].
      intros firmware. apply Hf; [constructor | done].
    + by rewrite file_step_skipped.
Qed.

Lemma hoare_platformdir_step_inv fs (R : tuple -> Firmware -> Prop)
    dir vt rt dlist (firmware_data : table) platformdir :
  dir_preserves fs R dir vt rt ->
  isdir fs dir = true -> listdir fs dir = Names dlist -> platformdir ∈ dlist ->
  table_inv R firmware_data ->
  hoare any_message (platformdir_step fs dir vt rt firmware_data platformdir)
    (table_inv R).
Proof.
  intros Hpres Hdir Hlist Hin Ht. unfold platformdir_step.
  destruct (Str.startswith "." platformdir) eqn:Hh; [by apply hoare_ret|].
  destruct (isdir fs (Str.path_join dir platformdir)) eqn:Hd; cbn [negb];
    [|by apply hoare_ret].
  destruct (path_exists fs _) eqn:He; cbn [negb];
    [|by apply (hoare_print_then any_message any_message_all)].
  destruct (git_sha_from_git_version fs _) as [sha|e] eqn:Hs;
    [|by apply (hoare_print_then any_message any_message_all)].
  eapply hoare_bind; [apply hoare_read_firmware_version_of|].
  intros ver Hv. cbv beta.
  destruct (platform_and_frame vt platformdir) as [platform frame] eqn:Hpf.
  destruct (listdir fs (Str.path_join dir platformdir)) as [files|errno] eqn:Hl;
    [|apply hoare_raise].
  apply hoare_ret. apply fold_file_step_table_inv; [|done].
  intros file firmware Hfin Hff HR.
  pose proof (Hpres platformdir file sha ver firmware) as H.
  unfold key_of, visit_of in H. rewrite Hpf in H. simpl in H.
  apply H; [|done].
  constructor; eauto.
Qed.

Lemma hoare_add_firmware_data_from_dir_inv fs (R : tuple -> Firmware -> Prop)
    dir (firmware_data : table) vt rt :
  dir_preserves fs R dir vt rt ->
  table_inv R firmware_data ->
  hoare any_message (add_firmware_data_from_dir fs dir firmware_data vt rt)
    (table_inv R).
Proof.
  intros Hpres Ht. unfold add_firmware_data_from_dir.
  destruct (isdir fs dir) eqn:Hd; cbn [negb]; [|by apply hoare_ret].
  destruct (listdir fs dir) as [dlist|errno] eqn:Hl;
    [|by apply (hoare_print_then any_message any_message_all)].
  apply hoare_for_each_in; [done|].
  intros st x Hx Hst. by eapply hoare_platformdir_step_inv.
Qed.

Lemma hoare_firstlevel_step_inv fs (R : tuple -> Firmware -> Prop)
    basedir vt (xfirmwares : table) firstlevel :
  walk_preserves fs R basedir ->
  vt ∈ FIRMWARE_TYPES ->
  (exists vt' names,
      listdir fs (Str.path_join basedir vt') = Names names /\ firstlevel ∈ names) ->
  table_inv R xfirmwares ->
  hoare any_message (firstlevel_step fs basedir vt xfirmwares firstlevel)
    (table_inv R).
Proof.
  intros Hpres Hvt Hlisted Ht. unfold firstlevel_step.
  destruct (_ || _) eqn:Hg; [by apply hoare_ret|].
  destruct (Pattern.year_month_match firstlevel) eqn:Hy; [by apply hoare_ret|].
  destruct (valid_release_type firstlevel) eqn:Hv; cbn [negb];
    [|by apply (hoare_print_then any_message any_message_all)].
  destruct (isdir fs _) eqn:Hd; cbn [negb]; [|by apply hoare_ret].
  apply hoare_add_firmware_data_from_dir_inv; [|done].
  intros platformdir file sha ver firmware Hdv.
  apply Hpres. by constructor.
Qed.

Lemma insert_desc_elem x y l : x ∈ Str.insert_desc y l <-> x = y \/ x ∈ l.
Proof.
  induction l as [|z l IH]; simpl.
  - rewrite list_elem_of_singleton, elem_of_nil. tauto.
  - destruct (String.ltb y z); rewrite !elem_of_cons; [rewrite IH|]; tauto.
Qed.

(** The sorted listing has the names of the listing. *)
Lemma sorted_reverse_elem x l : x ∈ Str.sorted_reverse l <-> x ∈ l.
Proof.
  unfold Str.sorted_reverse. induction l as [|y l IH]; simpl; [done|].
  rewrite insert_desc_elem, elem_of_cons, IH. tauto.
Qed.

Lemma hoare_vehicletype_step_inv fs (R : tuple -> Firmware -> Prop)
    basedir (st : option (list string) * table) vt :
  walk_preserves fs R basedir ->
  vt ∈ FIRMWARE_TYPES ->
  table_inv R st.2 /\ vdir_listed fs basedir st.1 ->
  hoare any_message (vehicletype_step fs basedir st vt)
    (fun st' => table_inv R st'.2 /\ vdir_listed fs basedir st'.1).
Proof.
  intros Hpres Hvt [Ht Hl]. unfold vehicletype_step.
  assert (forall vdir,
    vdir_listed fs basedir (Some vdir) ->
    hoare any_message
      (let* xfirmwares :=
         for_each (firstlevel_step fs basedir vt) vdir st.2 in
       ret (Some vdir, xfirmwares))
      (fun st' => table_inv R st'.2 /\ vdir_listed fs basedir st'.1)) as Hinner.
  { intros vdir Hv. eapply hoare_bind.
    - apply hoare_for_each_in; [exact Ht|].
      intros t x Hin Hx. apply hoare_firstlevel_step_inv; [done..| |done].
      destruct (Hv vdir eq_refl) as (vt' & names & Hn & Hsub).
      exists vt', names. auto.
    - intros t Hx. by apply hoare_ret. }
  destruct (listdir fs (Str.path_join basedir vt)) as [names|errno] eqn:Hn.
  - apply Hinner. intros l [= <-]. exists vt, names. split; [done|].
    intros n. by rewrite sorted_reverse_elem.
  - destruct (errno =? 2); [by apply hoare_ret|].
    destruct st as [[vdir|] t]; [|apply hoare_raise].
    apply Hinner. exact Hl.
Qed.

(** What every visit of the walk preserves holds of the table the walk
    returns, at every key path; and no level of that table repeats a
    key. *)
Lemma walk_tree_table_inv fs (R : tuple -> Firmware -> Prop) basedir log
    (firmware_data : table) log' :
  walk_preserves fs R basedir ->
  walk_tree fs basedir log = (Ok firmware_data, log') ->
  table_inv R firmware_data.
Proof.
  intros Hpres Hw.
  assert (hoare any_message (walk_tree fs basedir) (table_inv R)) as H.
  { unfold walk_tree. eapply hoare_bind.
    - apply (hoare_for_each_in any_message _
               (fun st => table_inv R st.2 /\ vdir_listed fs basedir st.1)).
      + split; [apply dict_inv_nil | by intros l [=]].
      + intros st x Hx Hst. by apply hoare_vehicletype_step_inv.
    - intros st [Hst _]. by apply hoare_ret. }
  destruct (H log) as [_ HQ]; [by apply Forall_true|].
  apply HQ. by rewrite Hw.
Qed.

(** ** The records with their key paths *)

Lemma keyed_level {V A B : Type} (pi : A -> string) (S : A * B -> Prop)
    (Q : string -> V -> Prop) (h : string * V -> list (A * B)) (d : dict V) :
  dict_inv Q d ->
  (forall k v, Q k v ->
     NoDup (map fst (h (k, v))) /\ Forall (fun y => S y /\ pi y.1 = k) (h (k, v))) ->
  NoDup (map fst (flat_map h d)) /\ Forall S (flat_map h d).
Proof.
  intros [Hn Hd] Hh. induction d as [|[k v] d IH]; simpl.
  - split; constructor.
  - simpl in Hn. apply NoDup_cons in Hn as [Hk Hn].
    apply Forall_cons in Hd as [Hv Hd]. simpl in Hv.
    destruct (IH Hn Hd) as [IHn IHs]. destruct (Hh k v Hv) as [Hkn Hks].
    split.
    + rewrite map_app. apply NoDup_app. split; [done|]. split; [|done].
      intros x Hx Hx'.
      apply list_elem_of_fmap in Hx as (y & -> & Hy).
      apply list_elem_of_fmap in Hx' as (y' & Heq & Hy').
      rewrite Forall_forall in Hks. destruct (Hks y Hy) as [_ Hpi].
      apply list_elem_of_In, in_flat_map in Hy' as ([k' v'] & Hin & Hy').
      apply list_elem_of_In in Hin, Hy'.
      rewrite Forall_forall in Hd. pose proof (Hd _ Hin) as Hq. simpl in Hq.
      destruct (Hh k' v' Hq) as [_ Hks']. rewrite Forall_forall in Hks'.
      destruct (Hks' y' Hy') as [_ Hpi'].
      apply Hk. rewrite <- Hpi, Heq, Hpi'.
      apply list_elem_of_fmap. by exists (k', v').
    + apply Forall_app. split; [|done].
      eapply Forall_impl; [exact Hks|]. by intros y [? _].
Qed.

Lemma NoDup_map_key {A B : Type} (f : string -> A) (d : list (string * B)) :
  (forall x y, f x = f y -> x = y) ->
  NoDup (map fst d) -> NoDup (map (fun e => f e.1) d).
Proof.
  intros Hf Hn. rewrite <- (map_map fst f).
  apply (NoDup_fmap_2_strong f); [|done]. auto.
Qed.

(** The table invariant, read on the list of the records: no key path
    occurs twice, and every record satisfies [R] of its key path. *)
Lemma table_inv_keyed_records (R : tuple -> Firmware -> Prop) (firmware_data : table) :
  table_inv R firmware_data ->
  NoDup (map fst (keyed_records firmware_data))
  /\ Forall (fun kf => R kf.1 kf.2) (keyed_records firmware_data).
Proof.
  intros Ht. unfold keyed_records.
  eapply (keyed_level (fun k : tuple => k.1.1.1.1)); [exact Ht|].
  intros k1 d1 H1. cbn [fst snd].
  eapply (keyed_level (fun k : tuple => k.1.1.1.2)
            (fun y => R y.1 y.2 /\ y.1.1.1.1.1 = k1)); [exact H1|].
  intros k2 d2 H2. cbn [fst snd].
  eapply (keyed_level (fun k : tuple => k.1.1.2)
            (fun y => (R y.1 y.2 /\ y.1.1.1.1.1 = k1) /\ y.1.1.1.1.2 = k2));
    [exact H2|].
  intros k3 d3 H3. cbn [fst snd].
  eapply (keyed_level (fun k : tuple => k.1.2)
            (fun y => ((R y.1 y.2 /\ y.1.1.1.1.1 = k1) /\ y.1.1.1.1.2 = k2)
                      /\ y.1.1.1.2 = k3));
    [exact H3|].
  intros k4 d4 [H4n H4]. cbn [fst snd]. split.
  - rewrite map_map. cbn [fst].
    apply (NoDup_map_key (fun k5 => (k1, k2, k3, k4, k5))); [|done].
    by intros ? ? [= ->].
  - apply Forall_map. eapply Forall_impl; [exact H4|]. by intros [k5 fw] ?.
Qed.

Lemma map_snd_flat_map {V Y X : Type} (h : string * V -> list (Y * X))
    (g : V -> list X) (d : dict V) :
  (forall e, map snd (h e) = g e.2) ->
  map snd (flat_map h d) = flat_map g (dvalues d).
Proof.
  intros H. induction d as [|e d IH]; simpl; [done|].
  by rewrite map_app, H, IH.
Qed.

(** [xfirmwares_to_firmwares] lists the records of the key paths. *)
Lemma records_of_keyed (firmware_data : table) :
  xfirmwares_to_firmwares firmware_data = map snd (keyed_records firmware_data).
Proof.
  unfold xfirmwares_to_firmwares, keyed_records. symmetry.
  apply map_snd_flat_map. intros e1.
  apply map_snd_flat_map. intros e2.
  apply map_snd_flat_map. intros e3.
  apply map_snd_flat_map. intros e4.
  by rewrite map_map.
Qed.

(** ** Every record is as its last visit left it *)

Lemma valid_release_type_cases tag :
  valid_release_type tag = true <->
  tag = "beta" \/ tag = "latest" \/ tag = "stable"
  \/ Str.startswith "stable-" tag = true.
Proof.
  unfold valid_release_type, RELEASE_TYPES, Pattern.fnmatch.
  cbn -[Str.startswith String.eqb].
  change (String.eqb "beta" "stable-*") with false.
  change (String.eqb "latest" "stable-*") with false.
  change (String.eqb "stable" "stable-*") with false.
  change (String.eqb "stable-*" "stable-*") with true.
  cbv iota. rewrite orb_false_r, !orb_true_iff, !String.eqb_eq. tauto.
Qed.

Lemma visit_timestamp fs rt path fp vt sha fr fmt ver firmware :
  fw_timestamp (visit fs rt path fp vt sha fr fmt ver firmware)
    = getctime fs <$> fw_filepath (visit fs rt path fp vt sha fr fmt ver firmware).
Proof. unfold visit. by destruct (apply_releasetype rt path firmware). Qed.

Lemma visit_not_dev_path fs rt path fp vt sha fr fmt ver firmware :
  rt <> "dev" ->
  fw_filepath (visit fs rt path fp vt sha fr fmt ver firmware) = Some path.
Proof.
  intros Hd. destruct (decide (rt = "latest")) as [->|Hl].
  - unfold visit.
    destruct (refresh_keeps fs fp vt sha fr fmt ver
                (apply_releasetype "latest" path firmware)) as (-> & _ & _).
    rewrite apply_releasetype_latest.
    by destruct firmware as [? ? ? ? ? ? [] ? ? ? ?].
  - by apply visit_named_overwrites_path.
Qed.

Lemma visit_latest_flag fs path fp vt sha fr fmt ver firmware :
  fw_latest (visit fs "latest" path fp vt sha fr fmt ver firmware) = Some 1.
Proof.
  unfold visit.
  destruct (refresh_keeps fs fp vt sha fr fmt ver
              (apply_releasetype "latest" path firmware)) as (_ & _ & ->).
  rewrite apply_releasetype_latest.
  by destruct firmware as [? ? ? ? ? ? [] ? ? ? ?].
Qed.

Lemma visit_latest_release_type fs path fp vt sha fr fmt ver firmware :
  fw_release_type (visit fs "latest" path fp vt sha fr fmt ver firmware)
    = Some (default "dev" (fw_release_type firmware)).
Proof.
  unfold visit.
  destruct (refresh_keeps fs fp vt sha fr fmt ver
              (apply_releasetype "latest" path firmware)) as (_ & -> & _).
  rewrite apply_releasetype_latest.
  by destruct firmware as [? ? ? ? ? ? [] ? ? ? ?].
Qed.

Lemma walk_preserves_last_visited fs basedir :
  walk_preserves fs (as_last_visited fs basedir) basedir.
Proof.
  intros vt tag platformdir file sha ver firmware Hwv Hprior.
  exists vt, tag, platformdir, file, sha, ver.
  split; [reflexivity|]. split; [exact Hwv|].
  pose proof (proj1 (valid_release_type_cases tag) (wv_valid _ _ _ _ _ _ _ _ Hwv))
    as Hcases.
  assert (tag <> "dev") as Hdev.
  { intros ->. destruct Hcases as [?|[?|[?|?]]]; discriminate. }
  unfold visit_of.
  match goal with
  | |- context [visit fs tag ?p ?fp vt sha ?fr ?fmt ver firmware] =>
      destruct (visit_fields fs tag p fp vt sha fr fmt ver firmware)
        as (Hver & Hfp & Hvt & Hsha & Hfr & Hfmt & _);
      pose proof (visit_timestamp fs tag p fp vt sha fr fmt ver firmware) as Hts;
      pose proof (visit_not_dev_path fs tag p fp vt sha fr fmt ver firmware Hdev)
        as Hpath
  end.
  rewrite Hpath in Hts.
  repeat (split; [done|]).
  destruct (String.eqb_spec tag "latest") as [->|Hl].
  - split; [apply visit_latest_flag|]. split; [done|].
    rewrite visit_latest_release_type. eexists. split; [reflexivity|].
    split; [|done].
    destruct Hprior as [(? & ? & ? & ? & ? & ? & _ & _ & _ & _ & _ & _ & _ & _ & _
                         & _ & _ & r & -> & Hr & _) | ->]; [done|].
    by left.
  - split; [by apply visit_not_latest_resets|]. split; [done|].
    rewrite visit_named_release_type by done.
    eexists. split; [reflexivity|]. split; [|done].
    unfold allowed_release_type. destruct Hcases as [?|[?|[?|?]]]; auto; done.
Qed.

(** After a walk: no key path is repeated, and the record at each key
    path is as a visit of the walk for that key path left it. *)
Lemma walk_tree_last_visited fs basedir log (firmware_data : table) log' :
  walk_tree fs basedir log = (Ok firmware_data, log') ->
  NoDup (map fst (keyed_records firmware_data))
  /\ Forall (fun kf => as_last_visited fs basedir kf.1 kf.2)
       (keyed_records firmware_data).
Proof.
  intros Hw. apply table_inv_keyed_records.
  eapply walk_tree_table_inv; [apply walk_preserves_last_visited | exact Hw].
Qed.

(** * More of the script: the projection *)

(** ** The USB enrichment touches three keys only *)

Lemma enriched_lookup_other board_id bl usb (firmware : entry) k :
  k ∉ usb_keys -> enriched board_id bl usb firmware !! k = firmware !! k.
Proof.
  intros Hk. unfold enriched, usb_keys in *.
  assert (forall x, x ∈ ["USBID"; "board_id"; "bootloader_str"] -> x <> k) as Hne
    by (intros x Hx ->; done).
  rewrite !lookup_insert_ne; [reflexivity| | |]; apply Hne; repeat constructor.
Qed.

Lemma px4_set_enriched board_id bl usb (firmware : entry) :
  <["bootloader_str" := VList bl]>
    (<["board_id" := VInt board_id]> (<["USBID" := VList usb]> firmware))
  = enriched board_id bl usb firmware.
Proof.
  unfold enriched. apply map_eq. intros k.
  rewrite !lookup_insert. repeat case_decide; congruence.
Qed.

Lemma USBID_MAP_singletons platform ids :
  dget platform USBID_MAP = Some ids -> length ids = 1%nat.
Proof.
  unfold USBID_MAP. cbn [dget].
  repeat match goal with
         | |- context [if ?b then _ else _] => destruct b; [by intros [= <-]|]
         end.
  discriminate.
Qed.

Lemma extra_length board_id n x y :
  length (extra board_id n x) = length (extra board_id n y).
Proof. unfold extra. by destruct (board_id =? n). Qed.

(** A run of [add_USB_IDs] that returns has left the entry as it was, or
    has set [board_id], [bootloader_str] and [USBID] together, the two
    lists non-empty and of the same length, and nothing else. *)
Lemma add_USB_IDs_result fs basedir baseurl (firmware : entry) log firmware' log' :
  add_USB_IDs fs basedir baseurl firmware log = (Ok firmware', log') ->
  firmware' = firmware
  \/ exists board_id bl usb,
      firmware' = enriched board_id bl usb firmware
      /\ length bl = length usb /\ bl <> [].
Proof.
  unfold add_USB_IDs.
  destruct (firmware !! "format") as [[| |fmt|]|] eqn:Hf;
    try (by intros [= <- _]; left); try discriminate.
  destruct (String.eqb fmt "px4").
  { unfold add_USB_IDs_PX4.
    destruct (firmware !! "url") as [[| |url|]|]; try discriminate.
    repeat match goal with
           | |- context [if ?b then _ else _] => destruct b
           end; intros [= <- _];
      (by left) || (right; rewrite px4_set_enriched; by eexists _, _, _). }
  destruct (String.eqb fmt "apj"); [|by intros [= <- _]; left].
  unfold add_USB_IDs_ChibiOS.
  destruct (firmware !! "url") as [[| |url|]|] eqn:Hu; try discriminate.
  destruct (path_exists fs _) eqn:He; cbn [negb]; [|by intros [= <- _]; left].
  destruct (json_load fs _) as [| |board_id] eqn:Hj;
    [discriminate | by intros [= <- _]; left |].
  destruct (firmware !! "platform") as [[| |platform|]|] eqn:Hp;
    try discriminate; [|by intros [= <- _]; left].
  pose proof (add_USB_IDs_ChibiOS_enriched fs basedir baseurl firmware url platform
                board_id log Hu Hp He Hj) as H.
  unfold add_USB_IDs_ChibiOS in H. rewrite Hu, He, Hj, Hp in H. cbn [negb] in H.
  rewrite H. clear H.
  assert (length (default ["0x0483/0x5740"] (dget platform USBID_MAP)) = 1%nat) as H1.
  { destruct (dget platform USBID_MAP) as [ids|] eqn:E; [|done].
    by apply USBID_MAP_singletons in E. }
  remember (default ["0x0483/0x5740"] (dget platform USBID_MAP)) as usb0 eqn:Eusb.
  clear Eusb. destruct usb0 as [|i [|]]; try discriminate.
  remember (extra board_id 50 "PX4 BL FMU v5.x" ++ extra board_id 9 "PX4 BL FMU v2.x"
              ++ extra board_id 11 "PX4 BL FMU v4.x"
              ++ extra board_id 13 "PX4 BL FMU v4.x PRO"
              ++ extra board_id 88 "MindPX BL FMU v2.x") as ebl eqn:Ebl.
  remember (extra board_id 50 "0x26AC/0x0032" ++ extra board_id 9 "0x26AC/0x0011"
              ++ extra board_id 11 "0x26AC/0x0012" ++ extra board_id 13 "0x26AC/0x0013"
              ++ extra board_id 88 "0x26AC/0x0030") as eusb eqn:Eusb.
  assert (length ebl = length eusb) as Hlen.
  { subst. unfold extra.
    by destruct (board_id =? 50), (board_id =? 9), (board_id =? 11),
      (board_id =? 13), (board_id =? 88). }
  clear Ebl Eusb.
  intros [= <- _]. right. eexists _, _, _. split; [reflexivity|].
  split; [|done]. simpl. by rewrite Hlen.
Qed.

Lemma add_USB_IDs_keeps fs basedir baseurl (firmware : entry) log firmware' log' :
  add_USB_IDs fs basedir baseurl firmware log = (Ok firmware', log') ->
  forall k, k ∉ usb_keys -> firmware' !! k = firmware !! k.
Proof.
  intros H. apply add_USB_IDs_result in H as [->|(b & bl & usb & -> & _)]; [done|].
  intros k Hk. by apply enriched_lookup_other.
Qed.

(** X1. A run of the USB enrichment that returns has changed no key of the
    entry but [USBID], [board_id] and [bootloader_str]; and it has either
    left the entry as it was or set the three together, with as many
    bootloader strings as USB ids and at least one. *)
Theorem usb_enrichment_sets_three_keys
    fs basedir baseurl (firmware : entry) log firmware' log' :
  add_USB_IDs fs basedir baseurl firmware log = (Ok firmware', log') ->
  (forall k, k ∉ usb_keys -> firmware' !! k = firmware !! k)
  /\ (firmware' = firmware
      \/ exists board_id bl usb,
          firmware' !! "board_id" = Some (VInt board_id)
          /\ firmware' !! "bootloader_str" = Some (VList bl)
          /\ firmware' !! "USBID" = Some (VList usb)
          /\ length bl = length usb /\ bl <> []).
Proof.
  intros H. apply add_USB_IDs_result in H as [->|(b & bl & usb & -> & Hl & Hn)].
  - split; [done | by left].
  - split; [intros k Hk; by apply enriched_lookup_other|].
    right. exists b, bl, usb.
    destruct (enriched_lookups b bl usb firmware) as (H1 & H2 & H3). done.
Qed.

Lemma usb_enrichment_sets_three_keys_witness :
  exists firmware',
    add_USB_IDs (same_build_tree ["stable"]) "/b" "http://fw" navio_entry []
      = (Ok firmware', [])
    /\ firmware' !! "git-sha" = navio_entry !! "git-sha".
Proof.
  eexists. split; [vm_compute; reflexivity|].
  refine (proj1 (usb_enrichment_sets_three_keys (same_build_tree ["stable"]) "/b"
                   "http://fw" navio_entry [] _ [] _) "git-sha" _).
  - vm_compute. reflexivity.
  - unfold usb_keys. intros H.
    repeat (apply elem_of_cons in H as [H|H]; [discriminate|]).
    by apply elem_of_nil in H.
Defined.

(** ** Splitting and joining *)

Lemma join_cons2 sep x y l :
  Str.join sep (x :: y :: l) = x +:+ sep +:+ Str.join sep (y :: l).
Proof. reflexivity. Qed.

(** Joining the parts of a split with the separator gives the string
    back. *)
Lemma join_split sep s : Str.join (String sep "") (Str.split sep s) = s.
Proof.
  induction s as [|c s IH]; [done|].
  pose proof (split_nonempty sep s) as Hne.
  cbn [Str.split].
  destruct (Ascii.eqb_spec c sep) as [->|Hc].
  - destruct (Str.split sep s) as [|p ps] eqn:E; [done|].
    rewrite join_cons2, IH. reflexivity.
  - destruct (Str.split sep s) as [|p [|q ps]] eqn:E; [done| |].
    + cbn [Str.join] in *. by rewrite IH.
    + rewrite join_cons2 in *. rewrite <- IH. reflexivity.
Qed.

Lemma string_app_assoc a b c : (a +:+ b) +:+ c = a +:+ b +:+ c.
Proof.
  induction a as [|d a IH]; [reflexivity|].
  change (String d ((a +:+ b) +:+ c) = String d (a +:+ b +:+ c)). by f_equal.
Qed.

Lemma has_char_app c a b :
  Str.has_char c (a +:+ b) = Str.has_char c a || Str.has_char c b.
Proof. induction a as [|d a IH]; simpl; [done|]. by rewrite IH, orb_assoc. Qed.

(** The parts of a split do not hold the separator. *)
Lemma split_parts_no_sep sep s :
  Forall (fun p => Str.has_char sep p = false) (Str.split sep s).
Proof.
  induction s as [|c s IH]; simpl; [by repeat constructor|].
  destruct (Ascii.eqb c sep) eqn:E; [by constructor|].
  destruct (Str.split sep s) as [|p ps];
    [constructor; [simpl; by rewrite E | constructor]|].
  apply Forall_cons in IH as [Hp Hps]. constructor; [|done].
  simpl. by rewrite E, Hp.
Qed.

(** A version the strict parse accepts is its four parts put together,
    and no part holds its separator. *)
Lemma parse_fw_version_parts version major minor patch :
  parse_fw_version version = Ok (major, minor, patch, version) ->
  exists release_type,
    version = major +:+ "." +:+ minor +:+ "." +:+ patch +:+ "-" +:+ release_type
    /\ Str.has_char "." major = false /\ Str.has_char "." minor = false
    /\ Str.has_char "." patch = false
    /\ Str.has_char "-" (major +:+ "." +:+ minor +:+ "." +:+ patch) = false
    /\ Str.has_char "-" release_type = false.
Proof.
  intros H. apply parse_fw_version_shape in H as (nums & rel & H1 & H2).
  pose proof (join_split "-" version) as J1. rewrite H1 in J1.
  pose proof (join_split "." nums) as J2. rewrite H2 in J2.
  cbn [Str.join] in J1, J2.
  pose proof (split_parts_no_sep "-" version) as P1. rewrite H1 in P1.
  pose proof (split_parts_no_sep "." nums) as P2. rewrite H2 in P2.
  apply Forall_cons in P1 as [Pn P1]. apply Forall_cons in P1 as [Pr _].
  apply Forall_cons in P2 as [Pa P2]. apply Forall_cons in P2 as [Pb P2].
  apply Forall_cons in P2 as [Pc _].
  exists rel. subst nums.
  assert ((major +:+ "." +:+ minor +:+ "." +:+ patch) +:+ "-" +:+ rel
          = major +:+ "." +:+ minor +:+ "." +:+ patch +:+ "-" +:+ rel) as Hassoc.
  { by rewrite !string_app_assoc. }
  rewrite <- Hassoc. done.
Qed.

(** ** One entry per record *)

Lemma some_json_of_entry basedir baseurl firmware filepath releasetype latest format :
  fw_filepath firmware = Some filepath ->
  fw_release_type firmware = Some releasetype ->
  fw_latest firmware = Some latest ->
  fw_format firmware = Some format ->
  entry_of basedir baseurl firmware
    (some_json_of firmware (urlify basedir baseurl filepath)
       (releasetype_map releasetype) latest format)
  /\ forall k, k ∈ version_keys ++ usb_keys ->
       some_json_of firmware (urlify basedir baseurl filepath)
         (releasetype_map releasetype) latest format !! k = None.
Proof.
  intros Hp Hr Hl Hf. unfold entry_of, some_json_of. rewrite Hp, Hr, Hl, Hf.
  split.
  - repeat split;
      repeat (rewrite lookup_insert_ne by done); by rewrite lookup_insert_eq.
  - intros k Hk. unfold version_keys, usb_keys in Hk.
    apply elem_of_app in Hk as [Hk|Hk];
      repeat (apply elem_of_cons in Hk as [->|Hk];
              [by rewrite !lookup_insert_ne by done|]);
      by apply elem_of_nil in Hk.
Qed.

Lemma add_version_result firmware (some_json : entry) log e log' :
  add_version (fw_firmware_version firmware) some_json log = (Ok e, log') ->
  (forall k, k ∈ version_keys -> some_json !! k = None) ->
  log' = log
  /\ (forall k, k ∉ version_keys -> e !! k = some_json !! k)
  /\ version_of firmware e.
Proof.
  unfold add_version, version_of. intros H Hnone.
  destruct (truthy (fw_firmware_version firmware)) eqn:Ht.
  - destruct (fw_firmware_version firmware) as [v|] eqn:Hv; [|discriminate].
    cbn [default from_option id] in H. change (from_option id "" (Some v)) with v in H.
    destruct (parse_fw_version v) as [[[[major minor] patch] rt]|err] eqn:Hparse;
      [|discriminate].
    injection H as <- <-.
    assert (rt = v) as ->.
    { unfold parse_fw_version in Hparse.
      destruct (Str.split "-" v) as [|a [|b [|c l]]]; try discriminate.
      destruct (Str.split "." a) as [|x [|y [|z [|w l]]]]; try discriminate.
      by injection Hparse. }
    apply parse_fw_version_parts in Hparse
      as (rel & -> & Ha & Hb & Hc & Hn & Hr).
    split; [done|]. split.
    + intros k Hk. unfold version_keys in Hk.
      rewrite !lookup_insert_ne; [done|..]; intros <-; apply Hk; repeat constructor.
    + exists major, minor, patch, rel. repeat (split; [done|]).
      cbn [Str.join]. repeat split.
      * rewrite !lookup_insert_ne by done. by rewrite lookup_insert_eq.
      * rewrite !lookup_insert_ne by done. by rewrite lookup_insert_eq.
      * rewrite lookup_insert_ne by done. by rewrite lookup_insert_eq.
      * by rewrite lookup_insert_eq.
  - injection H as <- <-. done.
Qed.

Lemma project_result fs basedir baseurl firmware_json firmware log firmware_json' log' :
  project fs basedir baseurl firmware_json firmware log = (Ok firmware_json', log') ->
  exists e,
    firmware_json' = firmware_json ++ [e]
    /\ entry_of basedir baseurl firmware e
    /\ version_of firmware e.
Proof.
  unfold project.
  destruct (fw_filepath firmware) as [filepath|] eqn:Hp; [|discriminate].
  destruct (fw_release_type firmware) as [releasetype|] eqn:Hr; [|discriminate].
  destruct (fw_latest firmware) as [latest|] eqn:Hl; [|discriminate].
  destruct (fw_format firmware) as [format|] eqn:Hf; [|discriminate].
  destruct (some_json_of_entry basedir baseurl firmware filepath releasetype latest
              format Hp Hr Hl Hf) as [He Hnone].
  remember (some_json_of firmware (urlify basedir baseurl filepath)
              (releasetype_map releasetype) latest format) as sj eqn:Esj.
  clear Esj. unfold bind.
  destruct (add_version (fw_firmware_version firmware) sj log) as [[e1|err] log1] eqn:Hv;
    [|discriminate].
  apply add_version_result in Hv as (-> & Hkeep & Hver).
  2:{ intros k Hk. apply Hnone, elem_of_app. by left. }
  destruct (add_USB_IDs fs basedir baseurl e1 log) as [[e2|err] log2] eqn:Hu;
    [|discriminate].
  intros [= <- <-]. exists e2. split; [done|].
  pose proof (add_USB_IDs_keeps _ _ _ _ _ _ _ Hu) as Hu'. clear Hu.
  rename Hu' into Hu.
  assert (forall k, k ∉ usb_keys -> k ∉ version_keys -> e2 !! k = sj !! k) as Hk.
  { intros k H1 H2. by rewrite Hu, Hkeep. }
  assert (forall k, k ∈ version_keys -> e2 !! k = e1 !! k) as Hk'.
  { intros k Hin. apply Hu. unfold version_keys, usb_keys in *.
    intros Hin'.
    repeat (apply elem_of_cons in Hin as [->|Hin];
            [repeat (apply elem_of_cons in Hin' as [?|Hin']; [done|]);
             by apply elem_of_nil in Hin'|]).
    by apply elem_of_nil in Hin. }
  split.
  - unfold entry_of in *. rewrite !Hk; [done|..];
      unfold usb_keys, version_keys; intros Hin;
      repeat (apply elem_of_cons in Hin as [?|Hin]; [done|]);
      by apply elem_of_nil in Hin.
  - unfold version_of in *.
    destruct (truthy (fw_firmware_version firmware)).
    + destruct Hver as (a & b & c & r & H0 & H1 & H2 & H3 & H4 & H5 & H6 & H7 & H8 & H9).
      exists a, b, c, r. rewrite !Hk' by (unfold version_keys; repeat constructor).
      done.
    + intros k Hin. rewrite Hk' by done. by apply Hver.
Qed.

Lemma for_each_project_entries fs basedir baseurl firmwares firmware_json log
    firmware_json' log' :
  for_each (project fs basedir baseurl) firmwares firmware_json log
    = (Ok firmware_json', log') ->
  exists entries,
    firmware_json' = firmware_json ++ entries
    /\ Forall2 (fun firmware e =>
                  entry_of basedir baseurl firmware e /\ version_of firmware e)
         firmwares entries.
Proof.
  revert firmware_json log.
  induction firmwares as [|firmware firmwares IH]; intros acc log; simpl.
  - intros [= <- <-]. exists []. split; [by rewrite app_nil_r | constructor].
  - unfold bind.
    destruct (project fs basedir baseurl acc firmware log) as [[acc1|err] log1] eqn:Hp;
      [|discriminate].
    apply project_result in Hp as (e & -> & He & Hv).
    intros H. apply IH in H as (entries & -> & Hall).
    exists (e :: entries). split; [by rewrite <- app_assoc|].
    by constructor.
Qed.

(** A run of [walk_directory] that returns a manifest has walked the tree
    into a table and has one entry for each record of the table, in
    order. *)
Lemma walk_directory_entries fs basedir baseurl log m log' :
  walk_directory fs basedir baseurl log = (Ok m, log') ->
  exists (firmware_data : table) log1,
    walk_tree fs basedir log = (Ok firmware_data, log1)
    /\ format_version m = "1.0.0"
    /\ Forall2 (fun firmware e =>
                  entry_of basedir baseurl firmware e /\ version_of firmware e)
         (xfirmwares_to_firmwares firmware_data) (firmware_list m).
Proof.
  unfold walk_directory, bind at 1.
  destruct (walk_tree fs basedir log) as [[t|err] log1] eqn:Hw; [|discriminate].
  unfold project_all, bind.
  destruct (for_each _ _ _ _) as [[entries|err] log2] eqn:Hf; [|discriminate].
  intros [= <- <-]. exists t, log1. split; [done|]. split; [done|].
  apply for_each_project_entries in Hf as (es & -> & H). done.
Qed.

(** X2. A manifest that [walk_directory] returns has the format version
    [1.0.0] and exactly one entry for each record of the table the walk
    built, in the order of the table; the entry has the record's platform,
    commit hash, format and latest flag, its path with the base url for
    the base directory, and its frame and release type in the external
    vocabulary. *)
Theorem manifest_one_entry_per_record fs basedir baseurl log m log' :
  walk_directory fs basedir baseurl log = (Ok m, log') ->
  exists (firmware_data : table) log1,
    walk_tree fs basedir log = (Ok firmware_data, log1)
    /\ format_version m = "1.0.0"
    /\ Forall2 (entry_of basedir baseurl)
         (xfirmwares_to_firmwares firmware_data) (firmware_list m).
Proof.
  intros H. apply walk_directory_entries in H as (t & log1 & Hw & Hv & Hall).
  exists t, log1. split; [done|]. split; [done|].
  eapply Forall2_impl; [exact Hall|]. by intros fw e [? _].
Qed.

Lemma manifest_one_entry_per_record_witness :
  exists (firmware_data : table) log1,
    walk_tree px4_tree "/b" [] = (Ok firmware_data, log1)
    /\ format_version
         (mkManifest "1.0.0"
            (match (walk_directory px4_tree "/b" "http://fw" []).1 with
             | Ok m => firmware_list m
             | Raise _ => []
             end)) = "1.0.0"
    /\ Forall2 (entry_of "/b" "http://fw")
         (xfirmwares_to_firmwares firmware_data)
         (firmware_list
            (mkManifest "1.0.0"
               (match (walk_directory px4_tree "/b" "http://fw" []).1 with
                | Ok m => firmware_list m
                | Raise _ => []
                end))).
Proof.
  apply (manifest_one_entry_per_record px4_tree "/b" "http://fw" []
           _ [BadFile "/b/Copter/stable/PX4/firmware-version.txt"]).
  vm_compute. reflexivity.
Defined.

(** X3. The entry [project] appends for a record has the four version keys
    exactly when the record's firmware version is set and not empty; the
    version is then [major.minor.patch-release], no part holding its
    separator, and the keys hold [major.minor.patch], [major], [minor]
    and [patch]. *)
Theorem projected_version_keys
    fs basedir baseurl firmware_json firmware log firmware_json' log' :
  project fs basedir baseurl firmware_json firmware log = (Ok firmware_json', log') ->
  exists e, firmware_json' = firmware_json ++ [e] /\ version_of firmware e.
Proof.
  intros H. apply project_result in H as (e & -> & _ & Hv). by exists e.
Qed.

Lemma projected_version_keys_witness :
  exists e,
    match (project (same_build_tree ["stable"]) "/b" "http://fw" [] navio_record []).1
    with
    | Ok firmware_json => firmware_json
    | Raise _ => []
    end = [] ++ [e]
    /\ version_of navio_record e.
Proof.
  apply (projected_version_keys (same_build_tree ["stable"]) "/b" "http://fw" []
           navio_record [] _ []).
  vm_compute. reflexivity.
Defined.

(** * More of the script: what a walk leaves in the table *)

(** ** Records and key paths *)

Lemma dget_elem {V : Type} k (v : V) (d : dict V) :
  NoDup (map fst d) -> (k, v) ∈ d -> dget k d = Some v.
Proof.
  induction d as [|[k' v'] d IH]; intros Hn Hin; [by apply elem_of_nil in Hin|].
  simpl in Hn. apply NoDup_cons in Hn as [Hk Hn].
  apply elem_of_cons in Hin as [[= -> ->]|Hin]; simpl.
  - by rewrite String.eqb_refl.
  - destruct (String.eqb_spec k' k) as [->|_]; [|by apply IH].
    destruct Hk. apply list_elem_of_fmap. by exists (k, v).
Qed.

Lemma dict_inv_elem {V : Type} (P : string -> V -> Prop) (d : dict V) e :
  dict_inv P d -> e ∈ d -> dget e.1 d = Some e.2 /\ P e.1 e.2.
Proof.
  intros [Hn Hd] Hin. split.
  - apply dget_elem; [done|]. by destruct e.
  - rewrite Forall_forall in Hd. by apply Hd.
Qed.

(** Under the table invariant a record listed with a key path is the one
    [lookup_record] finds there. *)
Lemma keyed_records_lookup (R : tuple -> Firmware -> Prop) (firmware_data : table)
    vt fp sha fmt fr firmware :
  table_inv R firmware_data ->
  ((vt, fp, sha, fmt, fr), firmware) ∈ keyed_records firmware_data ->
  lookup_record vt fp sha fmt fr firmware_data = Some firmware.
Proof.
  intros Ht Hin. unfold keyed_records in Hin.
  apply list_elem_of_In, in_flat_map in Hin as (e1 & H1 & Hin).
  apply in_flat_map in Hin as (e2 & H2 & Hin).
  apply in_flat_map in Hin as (e3 & H3 & Hin).
  apply in_flat_map in Hin as (e4 & H4 & Hin).
  apply in_map_iff in Hin as (e5 & [= <- <- <- <- <- <-] & H5).
  apply list_elem_of_In in H1, H2, H3, H4, H5.
  unfold table_inv in Ht.
  destruct (dict_inv_elem _ _ _ Ht H1) as [G1 T1].
  destruct (dict_inv_elem _ _ _ T1 H2) as [G2 T2].
  destruct (dict_inv_elem _ _ _ T2 H3) as [G3 T3].
  destruct (dict_inv_elem _ _ _ T3 H4) as [G4 T4].
  destruct (dict_inv_elem _ _ _ T4 H5) as [G5 _].
  unfold lookup_record.
  unfold table, by_platform, by_sha, by_format, by_frame in *.
  rewrite G1. simpl. rewrite G2. simpl. rewrite G3. simpl. rewrite G4. simpl.
  exact G5.
Qed.

Lemma as_last_visited_tuple fs basedir k firmware :
  as_last_visited fs basedir k firmware -> tuple_of firmware = Some k.
Proof.
  intros (vt & tag & pd & file & sha & ver & -> & _ & Hvt & Hfp & Hsha & Hfmt & Hfr & _).
  unfold tuple_of, key_of. by rewrite Hvt, Hfp, Hsha, Hfmt, Hfr.
Qed.

(** X4. After a walk no two records of the table name the same tuple
    (vehicle type, platform key, commit hash, format, frame) by their own
    attributes, and every listed record is the one [lookup_record] finds
    under the tuple it names. *)
Theorem walked_records_distinct fs basedir log (firmware_data : table) log' :
  walk_tree fs basedir log = (Ok firmware_data, log') ->
  NoDup (map tuple_of (xfirmwares_to_firmwares firmware_data))
  /\ forall firmware,
      firmware ∈ xfirmwares_to_firmwares firmware_data ->
      exists vt fp sha fmt fr,
        tuple_of firmware = Some (vt, fp, sha, fmt, fr)
        /\ lookup_record vt fp sha fmt fr firmware_data = Some firmware.
Proof.
  intros Hw.
  pose proof (walk_tree_table_inv fs _ basedir log firmware_data log'
                (walk_preserves_last_visited fs basedir) Hw) as Ht.
  destruct (table_inv_keyed_records _ _ Ht) as [Hn Hall].
  rewrite records_of_keyed. rewrite Forall_forall in Hall. split.
  - rewrite map_map.
    assert (map (fun x => tuple_of x.2) (keyed_records firmware_data)
            = map Some (map fst (keyed_records firmware_data))) as ->.
    { rewrite map_map. apply map_ext_in. intros kf Hin.
      apply (as_last_visited_tuple fs basedir), Hall. by apply list_elem_of_In. }
    apply (NoDup_fmap_2 Some). exact Hn.
  - intros firmware Hin.
    apply list_elem_of_fmap in Hin as ([[[[[vt fp] sha] fmt] fr] fw] & -> & Hin).
    exists vt, fp, sha, fmt, fr. split.
    + apply (as_last_visited_tuple fs basedir). exact (Hall _ Hin).
    + by eapply keyed_records_lookup.
Qed.

Lemma walked_records_distinct_witness :
  NoDup (map tuple_of
           (xfirmwares_to_firmwares
              (match (walk_tree px4_tree "/b" []).1 with
               | Ok firmware_data => firmware_data
               | Raise _ => []
               end))).
Proof.
  refine (proj1 (walked_records_distinct px4_tree "/b" [] _
                   [BadFile "/b/Copter/stable/PX4/firmware-version.txt"] _)).
  vm_compute. reflexivity.
Defined.

(** ** The entries of a manifest against the visits of the walk *)

Lemma Forall2_Forall_r {A B : Type} (P : A -> B -> Prop) (Q : A -> Prop)
    (S : B -> Prop) l k :
  Forall2 P l k -> Forall Q l -> (forall x y, Q x -> P x y -> S y) -> Forall S k.
Proof.
  intros H. induction H as [|x y l k Hxy H IH]; intros HQ HS; [constructor|].
  apply Forall_cons in HQ as [Hx HQ]. constructor; eauto.
Qed.

(** Every entry of a manifest [walk_directory] returns belongs to a record
    that a visit of the walk left. *)
Lemma walk_directory_last_visited fs basedir baseurl log m log' :
  walk_directory fs basedir baseurl log = (Ok m, log') ->
  Forall (fun e => exists k firmware,
            as_last_visited fs basedir k firmware
            /\ entry_of basedir baseurl firmware e
            /\ version_of firmware e)
    (firmware_list m).
Proof.
  intros H. apply walk_directory_entries in H as (t & log1 & Hw & _ & Hall).
  destruct (walk_tree_last_visited fs basedir log t log1 Hw) as [_ Hk].
  rewrite records_of_keyed in Hall.
  assert (Forall (fun fw => exists k, as_last_visited fs basedir k fw)
            (map snd (keyed_records t))) as Hk'.
  { apply Forall_map. eapply Forall_impl; [exact Hk|]. intros [k fw] ?. by exists k. }
  eapply Forall2_Forall_r; [exact Hall | exact Hk' |].
  intros fw e [k Hkf] [He Hv]. by exists k, fw.
Qed.

(** ** The commit hash *)

Lemma take_while_has_char p s c :
  Str.has_char c (Str.take_while p s) = true -> p c = true.
Proof.
  induction s as [|d s IH]; simpl; [done|].
  destruct (p d) eqn:E; simpl; [|done].
  intros H. apply orb_true_iff in H as [H|H]; [|by apply IH].
  apply Ascii.eqb_eq in H. by subst.
Qed.

Lemma sha_search_hex content sha :
  Pattern.sha_search content = Some sha -> sha <> "" /\ all_hex sha.
Proof.
  induction content as [|a content IH]; [done|].
  rewrite sha_search_cons.
  destruct (Str.startswith "commit " (String a content)); cbn [andb]; [|exact IH].
  remember (Str.take_while Str.is_hex (Str.drop 7 (String a content))) as h eqn:Eh.
  destruct (Str.is_empty h) eqn:He; cbn [negb]; [exact IH|].
  intros [= <-]. split; [by destruct h|].
  subst h. intros c. apply take_while_has_char.
Qed.

Lemma git_sha_from_git_version_hex fs filepath sha :
  git_sha_from_git_version fs filepath = Ok sha -> sha <> "" /\ all_hex sha.
Proof.
  unfold git_sha_from_git_version.
  destruct (read fs filepath) as [content|]; [|discriminate].
  destruct (Pattern.sha_search content) as [s|] eqn:E; [|discriminate].
  intros [= <-]. by eapply sha_search_hex.
Qed.

(** X5. Every entry of a manifest [walk_directory] returns has a [git-sha]
    that is a non-empty string of the digits [0-9a-f]: what follows the
    first "commit " of the descriptor that is followed by such a digit,
    up to the first other byte. *)
Theorem manifest_git_sha_hex fs basedir baseurl log m log' :
  walk_directory fs basedir baseurl log = (Ok m, log') ->
  Forall (fun e : entry => exists sha,
            e !! "git-sha" = Some (VStr sha) /\ sha <> "" /\ all_hex sha)
    (firmware_list m).
Proof.
  intros H. apply walk_directory_last_visited in H.
  eapply Forall_impl; [exact H|]. intros e (k & fw & Hv & He & _).
  destruct Hv as (vt & tag & pd & file & sha & ver & _ & Hwv & _ & _ & Hsha & _).
  destruct He as (_ & _ & Hg & _). rewrite Hsha in Hg. exists sha. split; [done|].
  eapply git_sha_from_git_version_hex, dv_sha, wv_dir, Hwv.
Qed.

Lemma manifest_git_sha_hex_witness :
  Forall (fun e : entry => exists sha,
            e !! "git-sha" = Some (VStr sha) /\ sha <> "" /\ all_hex sha)
    (firmware_list
       (mkManifest "1.0.0"
          match (walk_directory px4_tree "/b" "http://fw" []).1 with
          | Ok m => firmware_list m
          | Raise _ => []
          end)).
Proof.
  apply (manifest_git_sha_hex px4_tree "/b" "http://fw" [] _
           [BadFile "/b/Copter/stable/PX4/firmware-version.txt"]).
  vm_compute. reflexivity.
Defined.

(** ** The release type *)

Lemma upper_app a b : Str.upper (a +:+ b) = Str.upper a +:+ Str.upper b.
Proof.
  induction a as [|c a IH]; [reflexivity|].
  change (String (Str.upper_char c) (Str.upper (a +:+ b))
          = String (Str.upper_char c) (Str.upper a +:+ Str.upper b)).
  by rewrite IH.
Qed.

(** The external name of an allowed release type. *)
Lemma releasetype_map_allowed r :
  allowed_release_type r ->
  releasetype_map r = "DEV" \/ releasetype_map r = "BETA"
  \/ releasetype_map r = "OFFICIAL"
  \/ exists rest, r = "stable-" +:+ rest
                  /\ releasetype_map r = "STABLE-" +:+ Str.upper rest.
Proof.
  intros [->|[->|[->|H]]]; [by left | by right; left | by right; right; left |].
  right. right. right. apply startswith_inv in H as [rest ->]. exists rest.
  split; [done|]. unfold releasetype_map.
  assert (String.eqb ("stable-" +:+ rest) "stable" = false) as ->.
  { apply String.eqb_neq. intros H. by destruct rest. }
  by rewrite upper_app.
Qed.

(** X6. Every entry of a manifest [walk_directory] returns has a
    [mav-firmware-version-type] that is [DEV], [BETA], [OFFICIAL] or
    [STABLE-] followed by the upper-cased rest of a [stable-...] tag; it
    is never [LATEST]. *)
Theorem manifest_version_type fs basedir baseurl log m log' :
  walk_directory fs basedir baseurl log = (Ok m, log') ->
  Forall (fun e : entry => exists t,
            e !! "mav-firmware-version-type" = Some (VStr t)
            /\ (t = "DEV" \/ t = "BETA" \/ t = "OFFICIAL"
                \/ exists rest, t = "STABLE-" +:+ Str.upper rest)
            /\ t <> "LATEST")
    (firmware_list m).
Proof.
  intros H. apply walk_directory_last_visited in H.
  eapply Forall_impl; [exact H|]. intros e (k & fw & Hv & He & _).
  destruct Hv as (vt & tag & pd & file & sha & ver & _ & _ & _ & _ & _ & _ & _ & _
                  & _ & _ & _ & r & Hr & Hall & _).
  destruct He as (_ & _ & _ & _ & _ & Ht & _). rewrite Hr in Ht.
  exists (releasetype_map r). split; [done|].
  destruct (releasetype_map_allowed r Hall) as [->|[->|[->|(rest & _ & ->)]]];
    (split; [|done]); eauto 6.
Qed.

Lemma manifest_version_type_witness :
  Forall (fun e : entry => exists t,
            e !! "mav-firmware-version-type" = Some (VStr t)
            /\ (t = "DEV" \/ t = "BETA" \/ t = "OFFICIAL"
                \/ exists rest, t = "STABLE-" +:+ Str.upper rest)
            /\ t <> "LATEST")
    (firmware_list
       (mkManifest "1.0.0"
          match (walk_directory (same_build_tree ["latest"; "stable-1.2.3"]) "/b"
                   "http://fw" []).1 with
          | Ok m => firmware_list m
          | Raise _ => []
          end)).
Proof.
  apply (manifest_version_type (same_build_tree ["latest"; "stable-1.2.3"]) "/b"
           "http://fw" [] _ []).
  vm_compute. reflexivity.
Defined.

(** ** The file an entry stands for *)

(** X7. Every entry of a manifest [walk_directory] returns stands for one
    file the walk has listed: a firmware file of a platform directory of
    a valid tag directory of one of the five vehicle types. Its url is the
    rewritten path of that file, its format and platform key are those of
    the file name, its frame that of the platform directory, and its
    [latest] flag is 1 exactly when the tag is [latest]. *)
Theorem manifest_entry_is_listed_file fs basedir baseurl log m log' :
  walk_directory fs basedir baseurl log = (Ok m, log') ->
  Forall (fun e : entry => exists vt tag platformdir file files,
            vt ∈ FIRMWARE_TYPES /\ valid_release_type tag = true
            /\ listdir fs
                 (Str.path_join (Str.path_join (Str.path_join basedir vt) tag)
                    platformdir) = Names files
            /\ file ∈ files /\ is_firmware_file file = true
            /\ e !! "url"
                 = Some (VStr (urlify basedir baseurl
                                 (walked_path basedir vt tag platformdir file)))
            /\ e !! "latest" = Some (VInt (if String.eqb tag "latest" then 1 else 0))
            /\ e !! "format" = Some (VStr (firmware_format_of file))
            /\ e !! "platform"
                 = Some (VStr (file_platform_of (platform_and_frame vt platformdir).1
                                 file))
            /\ e !! "mav-type"
                 = Some (VStr (frame_map (platform_and_frame vt platformdir).2)))
    (firmware_list m).
Proof.
  intros H. apply walk_directory_last_visited in H.
  eapply Forall_impl; [exact H|]. intros e (k & fw & Hv & He & _).
  destruct Hv as (vt & tag & pd & file & sha & ver & _ & Hwv & _ & Hfp & _ & Hfmt
                  & Hfr & Hpath & _ & Hl & _).
  destruct He as (_ & Ep & _ & Eu & Et & _ & El & Ef).
  rewrite Hfp in Ep. rewrite Hpath in Eu. rewrite Hfr in Et. rewrite Hl in El.
  rewrite Hfmt in Ef.
  destruct (dv_file _ _ _ _ _ _ (wv_dir _ _ _ _ _ _ _ _ Hwv)) as (files & Hfiles & Hin).
  exists vt, tag, pd, file, files.
  split; [exact (wv_vehicletype _ _ _ _ _ _ _ _ Hwv)|].
  split; [exact (wv_valid _ _ _ _ _ _ _ _ Hwv)|].
  split; [done|]. split; [done|].
  split; [exact (dv_firmware _ _ _ _ _ _ (wv_dir _ _ _ _ _ _ _ _ Hwv))|].
  done.
Qed.

Lemma manifest_entry_is_listed_file_witness :
  Forall (fun e : entry => exists vt tag platformdir file files,
            vt ∈ FIRMWARE_TYPES /\ valid_release_type tag = true
            /\ listdir px4_tree
                 (Str.path_join (Str.path_join (Str.path_join "/b" vt) tag)
                    platformdir) = Names files
            /\ file ∈ files /\ is_firmware_file file = true
            /\ e !! "url"
                 = Some (VStr (urlify "/b" "http://fw"
                                 (walked_path "/b" vt tag platformdir file)))
            /\ e !! "latest" = Some (VInt (if String.eqb tag "latest" then 1 else 0))
            /\ e !! "format" = Some (VStr (firmware_format_of file))
            /\ e !! "platform"
                 = Some (VStr (file_platform_of (platform_and_frame vt platformdir).1
                                 file))
            /\ e !! "mav-type"
                 = Some (VStr (frame_map (platform_and_frame vt platformdir).2)))
    (firmware_list
       (mkManifest "1.0.0"
          match (walk_directory px4_tree "/b" "http://fw" []).1 with
          | Ok m => firmware_list m
          | Raise _ => []
          end)).
Proof.
  apply (manifest_entry_is_listed_file px4_tree "/b" "http://fw" [] _
           [BadFile "/b/Copter/stable/PX4/firmware-version.txt"]).
  vm_compute. reflexivity.
Defined.

(** ** Paths and urls *)

Lemma endswith_char_app c a b :
  b <> "" -> Str.endswith_char c (a +:+ b) = Str.endswith_char c b.
Proof.
  intros Hb. induction a as [|d a IH]; [reflexivity|].
  change (String d a +:+ b) with (String d (a +:+ b)).
  cbn [Str.endswith_char]. rewrite IH.
  destruct (a +:+ b) eqn:E; [|done].
  destruct a; [|discriminate]. simpl in E. by subst.
Qed.

Lemma plain_name_ends n :
  n <> "" -> Str.has_char "/" n = false ->
  Str.startswith "/" n = false /\ Str.endswith_char "/" n = false.
Proof.
  intros Hn Hc. split.
  - destruct n as [|c n]; [done|]. cbn [Str.startswith Str.has_char] in *.
    apply orb_false_iff in Hc as [Hc _].
    rewrite Ascii.eqb_sym. by rewrite Hc.
  - clear Hn. induction n as [|c n IH]; [done|].
    cbn [Str.has_char] in Hc. apply orb_false_iff in Hc as [Hc Hn].
    cbn [Str.endswith_char]. destruct n; [done | by apply IH].
Qed.

(** [os.path.join] of a directory without trailing slash and a file
    name. *)
Lemma path_join_plain a n :
  a <> "" -> Str.endswith_char "/" a = false ->
  n <> "" -> Str.has_char "/" n = false ->
  Str.path_join a n = a +:+ "/" +:+ n
  /\ Str.path_join a n <> "" /\ Str.endswith_char "/" (Str.path_join a n) = false.
Proof.
  intros Ha He Hn Hc. destruct (plain_name_ends n Hn Hc) as [Hs Hend].
  assert (Str.path_join a n = a +:+ "/" +:+ n) as ->.
  { unfold Str.path_join. rewrite Hs, He. by destruct a. }
  split; [done|]. split; [by destruct a|].
  rewrite endswith_char_app by done.
  change ("/" +:+ n) with (String "/" n). cbn [Str.endswith_char].
  by destruct n.
Qed.

Lemma urlify_prefix basedir baseurl rest :
  urlify basedir baseurl (basedir +:+ rest) = baseurl +:+ rest.
Proof. unfold urlify. by rewrite startswith_app, drop_length_app. Qed.

Lemma FIRMWARE_TYPES_plain vt :
  vt ∈ FIRMWARE_TYPES -> vt <> "" /\ Str.has_char "/" vt = false.
Proof.
  unfold FIRMWARE_TYPES. intros H.
  repeat (apply elem_of_cons in H as [->|H]; [done|]). by apply elem_of_nil in H.
Qed.

Lemma walked_path_plain fs basedir vt tag platformdir file sha ver :
  names_plain fs -> basedir <> "" -> Str.endswith_char "/" basedir = false ->
  walker_visit fs basedir vt tag platformdir file sha ver ->
  walked_path basedir vt tag platformdir file
    = basedir +:+ "/" +:+ vt +:+ "/" +:+ tag +:+ "/" +:+ platformdir +:+ "/" +:+ file.
Proof.
  intros Hplain Hb He Hwv. unfold walked_path.
  destruct (FIRMWARE_TYPES_plain vt (wv_vehicletype _ _ _ _ _ _ _ _ Hwv)) as [V1 V2].
  destruct (wv_listed _ _ _ _ _ _ _ _ Hwv) as (vt' & names & Hn & Hin).
  destruct (Hplain _ _ _ Hn Hin) as [T1 T2].
  destruct (dv_listed _ _ _ _ _ _ (wv_dir _ _ _ _ _ _ _ _ Hwv)) as (dlist & Hd & Hpd).
  destruct (Hplain _ _ _ Hd Hpd) as [P1 P2].
  destruct (dv_file _ _ _ _ _ _ (wv_dir _ _ _ _ _ _ _ _ Hwv)) as (files & Hf & Hfile).
  destruct (Hplain _ _ _ Hf Hfile) as [F1 F2].
  destruct (path_join_plain basedir vt Hb He V1 V2) as (-> & A1 & A2).
  destruct (path_join_plain _ tag A1 A2 T1 T2) as (-> & B1 & B2).
  destruct (path_join_plain _ platformdir B1 B2 P1 P2) as (-> & C1 & C2).
  destruct (path_join_plain _ file C1 C2 F1 F2) as (-> & _ & _).
  by rewrite !string_app_assoc.
Qed.

(** X8. When the listings hold file names (not empty, without slash) and
    the base directory is not empty and has no trailing slash, every url
    of a manifest is the base url followed by
    [/<vehicle type>/<tag>/<platform directory>/<file>] of a file the walk
    listed. *)
Theorem manifest_urls fs basedir baseurl log m log' :
  names_plain fs -> basedir <> "" -> Str.endswith_char "/" basedir = false ->
  walk_directory fs basedir baseurl log = (Ok m, log') ->
  Forall (fun e : entry => exists vt tag platformdir file,
            vt ∈ FIRMWARE_TYPES /\ valid_release_type tag = true
            /\ e !! "url"
                 = Some (VStr (baseurl +:+ "/" +:+ vt +:+ "/" +:+ tag +:+ "/"
                               +:+ platformdir +:+ "/" +:+ file)))
    (firmware_list m).
Proof.
  intros Hplain Hb He H. apply walk_directory_last_visited in H.
  eapply Forall_impl; [exact H|]. intros e (k & fw & Hv & Hentry & _).
  destruct Hv as (vt & tag & pd & file & sha & ver & _ & Hwv & _ & _ & _ & _ & _
                  & Hpath & _).
  destruct Hentry as (_ & _ & _ & Eu & _). rewrite Hpath in Eu.
  exists vt, tag, pd, file.
  split; [exact (wv_vehicletype _ _ _ _ _ _ _ _ Hwv)|].
  split; [exact (wv_valid _ _ _ _ _ _ _ _ Hwv)|].
  rewrite Eu. simpl.
  rewrite (walked_path_plain fs basedir vt tag pd file sha ver) by done.
  by rewrite urlify_prefix.
Qed.

Lemma dget_Some_elem {V : Type} k (v : V) (d : dict V) :
  dget k d = Some v -> (k, v) ∈ d.
Proof.
  induction d as [|[k' v'] d IH]; simpl; [done|].
  destruct (String.eqb_spec k' k) as [->|_].
  - intros [= ->]. constructor.
  - intros H. constructor. by apply IH.
Qed.

Lemma tree_names_plain dirs files :
  plain_listings dirs = true -> names_plain (tree dirs files).
Proof.
  unfold plain_listings. intros H p names n Hl Hin.
  unfold tree in Hl. cbn [listdir] in Hl.
  destruct (dget p dirs) as [l|] eqn:E; [|discriminate]. injection Hl as ->.
  apply dget_Some_elem in E.
  rewrite forallb_forall in H. apply list_elem_of_In, H in E.
  rewrite forallb_forall in E. apply list_elem_of_In, E in Hin.
  apply andb_true_iff in Hin as [H1 H2].
  apply negb_true_iff in H1, H2. split; [|done]. intros ->. done.
Qed.

Lemma manifest_urls_witness :
  Forall (fun e : entry => exists vt tag platformdir file,
            vt ∈ FIRMWARE_TYPES /\ valid_release_type tag = true
            /\ e !! "url"
                 = Some (VStr ("http://fw" +:+ "/" +:+ vt +:+ "/" +:+ tag +:+ "/"
                               +:+ platformdir +:+ "/" +:+ file)))
    (firmware_list
       (mkManifest "1.0.0"
          match (walk_directory px4_tree "/b" "http://fw" []).1 with
          | Ok m => firmware_list m
          | Raise _ => []
          end)).
Proof.
  apply (manifest_urls px4_tree "/b" "http://fw" [] _
           [BadFile "/b/Copter/stable/PX4/firmware-version.txt"]).
  - apply tree_names_plain. reflexivity.
  - discriminate.
  - reflexivity.
  - vm_compute. reflexivity.
Defined.

(** A base directory with a trailing slash loses the slash between the
    base url and the vehicle type. *)
Example trailing_slash_url :
  urlify "/b/" "http://fw" (walked_path "/b/" "Copter" "stable" "PX4" "a.px4")
    = "http://fwCopter/stable/PX4/a.px4".
Proof. reflexivity. Qed.

Lemma drop_succ_app a c rest :
  Str.drop (String.length a + 1) (a +:+ String c rest) = rest.
Proof. induction a as [|d a IH]; [reflexivity | exact IH]. Qed.

(** X9. The path [add_USB_IDs_ChibiOS] opens for the sidecar is computed
    back from the url. For a base directory that is not empty and has no
    trailing slash it is the path of the firmware file again; for a base
    directory with a trailing slash the first byte of the path below the
    base directory is lost. *)
Theorem apj_path_from_url basedir baseurl rest :
  Str.startswith "/" rest = false ->
  let apj_path filepath :=
    Str.path_join basedir
      (Str.drop (String.length baseurl + 1) (urlify basedir baseurl filepath)) in
  (basedir <> "" -> Str.endswith_char "/" basedir = false ->
   Str.path_join basedir rest = basedir +:+ "/" +:+ rest
   /\ apj_path (Str.path_join basedir rest) = Str.path_join basedir rest)
  /\ (Str.endswith_char "/" basedir = true ->
      forall c rest', rest = String c rest' -> Str.startswith "/" rest' = false ->
      Str.path_join basedir rest = basedir +:+ rest
      /\ apj_path (Str.path_join basedir rest) = basedir +:+ rest').
Proof.
  intros Hr apj_path. subst apj_path. cbv beta. split.
  - intros Hb He.
    assert (Str.path_join basedir rest = basedir +:+ "/" +:+ rest) as Hj.
    { unfold Str.path_join. rewrite Hr, He. by destruct basedir. }
    split; [done|]. rewrite Hj at 1. rewrite urlify_prefix.
    change ("/" +:+ rest) with (String "/" rest). rewrite drop_succ_app.
    by rewrite Hj.
  - intros He c rest' -> Hr'.
    assert (forall r, Str.startswith "/" r = false ->
                      Str.path_join basedir r = basedir +:+ r) as Hj.
    { intros r H. unfold Str.path_join. rewrite H, He. by rewrite orb_true_r. }
    split; [by apply Hj|]. rewrite (Hj _ Hr). rewrite urlify_prefix.
    rewrite drop_succ_app. by apply Hj.
Qed.

Lemma apj_path_from_url_witness :
  (Str.path_join "/b" "Copter/stable/navio/a.apj" = "/b" +:+ "/" +:+ "Copter/stable/navio/a.apj"
   /\ Str.path_join "/b"
        (Str.drop (String.length "http://fw" + 1)
           (urlify "/b" "http://fw" (Str.path_join "/b" "Copter/stable/navio/a.apj")))
      = Str.path_join "/b" "Copter/stable/navio/a.apj")
  /\ (Str.path_join "/b/" "Copter/stable/navio/a.apj"
      = "/b/" +:+ "Copter/stable/navio/a.apj"
      /\ Str.path_join "/b/"
           (Str.drop (String.length "http://fw" + 1)
              (urlify "/b/" "http://fw"
                 (Str.path_join "/b/" "Copter/stable/navio/a.apj")))
         = "/b/" +:+ "opter/stable/navio/a.apj").
Proof.
  split.
  - apply (proj1 (apj_path_from_url "/b" "http://fw" "Copter/stable/navio/a.apj"
                    eq_refl)); [discriminate | reflexivity].
  - apply (proj2 (apj_path_from_url "/b/" "http://fw" "Copter/stable/navio/a.apj"
                    eq_refl) eq_refl "C"%char "opter/stable/navio/a.apj");
      reflexivity.
Defined.

(** * More of the script: the walker at its edges *)

(** X10. When none of the five vehicle-type directories exists (each
    listing fails with errno 2), [walk_directory] returns the manifest
    without firmware and prints nothing; [json] then returns the same with
    the warning when the base directory can be listed, and raises
    [OSError] when it cannot. *)
Theorem walk_without_vehicle_directories fs basedir baseurl log :
  (forall vt, vt ∈ FIRMWARE_TYPES ->
     listdir fs (Str.path_join basedir vt) = Errno 2) ->
  walk_directory fs basedir baseurl log = (Ok empty_manifest, log)
  /\ (forall names, listdir fs basedir = Names names ->
      json fs basedir baseurl log
        = (Ok empty_manifest,
           if existsb (fun e => bool_decide (e ∈ FIRMWARE_TYPES)) names then log
           else log ++ [NotBinariesDirectory]))
  /\ (forall errno, listdir fs basedir = Errno errno ->
      json fs basedir baseurl log = (Raise OSError, log)).
Proof.
  intros H.
  assert (forall log, walk_directory fs basedir baseurl log = (Ok empty_manifest, log))
    as Hw.
  { intros l. unfold walk_directory, walk_tree, FIRMWARE_TYPES, bind.
    cbn [for_each]. unfold bind, vehicletype_step.
    rewrite !H by (unfold FIRMWARE_TYPES; repeat constructor).
    reflexivity. }
  split; [apply Hw|]. split.
  - intros names Hn. unfold json, looks_like_binaries_directory. rewrite Hn.
    unfold bind. destruct (existsb _ names); cbn; apply Hw.
  - intros errno He. unfold json, looks_like_binaries_directory. by rewrite He.
Qed.

Lemma walk_without_vehicle_directories_witness :
  walk_directory nothing "/b" "http://fw" [] = (Ok empty_manifest, []).
Proof.
  apply (walk_without_vehicle_directories nothing "/b" "http://fw" []).
  intros vt Hvt. unfold FIRMWARE_TYPES in Hvt.
  repeat (apply elem_of_cons in Hvt as [->|Hvt]; [reflexivity|]).
  by apply elem_of_nil in Hvt.
Defined.

(** X11. When the listing of the first vehicle-type directory,
    [AntennaTracker], fails with an errno other than 2 (the directory is
    a file, or unreadable), the handler falls through to the loop over
    [vdir], which is not bound yet: the walk raises [NameError], nothing
    is printed and no manifest is returned. *)
Theorem unreadable_first_vehicle_directory fs basedir baseurl log errno :
  listdir fs (Str.path_join basedir "AntennaTracker") = Errno errno ->
  errno <> 2 ->
  walk_tree fs basedir log = (Raise NameError, log)
  /\ walk_directory fs basedir baseurl log = (Raise NameError, log).
Proof.
  intros H He.
  assert (walk_tree fs basedir log = (Raise NameError, log)) as Hw.
  { unfold walk_tree, FIRMWARE_TYPES, bind. cbn [for_each]. unfold bind at 1.
    unfold vehicletype_step at 1. rewrite H.
    apply Z.eqb_neq in He. rewrite He. reflexivity. }
  split; [done|]. unfold walk_directory, bind. by rewrite Hw.
Qed.

Lemma unreadable_first_vehicle_directory_witness :
  walk_tree file_as_root "/b" [] = (Raise NameError, [])
  /\ walk_directory file_as_root "/b" "http://fw" [] = (Raise NameError, []).
Proof.
  apply (unreadable_first_vehicle_directory file_as_root "/b" "http://fw" [] 20);
    [reflexivity | discriminate].
Defined.

(** X12. A vehicle-type listing of which every entry is passed over (the
    generated [files.html], a hidden name, a dated name, an unknown tag,
    or a tag that is no directory) leaves the table as it was; the log
    gets one [UnknownTag] for each entry that is neither generated, nor
    hidden, nor dated, nor a valid tag, in order. *)
Theorem ignored_first_level_entries fs basedir vt names (xfirmwares : table) log :
  (forall name, name ∈ names -> first_level_ignored fs basedir vt name = true) ->
  for_each (firstlevel_step fs basedir vt) names xfirmwares log
    = (Ok xfirmwares, log ++ map UnknownTag (List.filter first_level_unknown names)).
Proof.
  revert log. induction names as [|name names IH]; intros log H.
  - simpl. by rewrite app_nil_r.
  - cbn [for_each List.filter]. unfold bind.
    assert (firstlevel_step fs basedir vt xfirmwares name log
            = (Ok xfirmwares,
               log ++ if first_level_unknown name then [UnknownTag name] else []))
      as ->.
    { pose proof (H name (list_elem_of_here _ _)) as Hi.
      unfold first_level_ignored in Hi. unfold firstlevel_step, first_level_unknown.
      destruct (String.eqb name "files.html" || Str.startswith "." name);
        [by rewrite app_nil_r|].
      destruct (Pattern.year_month_match name); [by rewrite app_nil_r|].
      destruct (valid_release_type name); cbn [negb andb]; [|reflexivity].
      cbn [orb negb] in Hi. rewrite Hi. by rewrite app_nil_r. }
    rewrite IH by (intros n Hn; apply H; by constructor).
    destruct (first_level_unknown name); cbn [map];
      by rewrite <- app_assoc.
Qed.

Lemma ignored_first_level_entries_witness :
  for_each (firstlevel_step px4_tree "/b" "Copter")
    ["2016-02"; "files.html"; "nightly"; ".git"; "beta"] [] []
  = (Ok [], [] ++ map UnknownTag
                     (List.filter first_level_unknown
                        ["2016-02"; "files.html"; "nightly"; ".git"; "beta"])).
Proof.
  apply (ignored_first_level_entries px4_tree "/b" "Copter"
           ["2016-02"; "files.html"; "nightly"; ".git"; "beta"] [] []).
  intros name Hn.
  repeat (apply elem_of_cons in Hn as [->|Hn]; [reflexivity|]).
  by apply elem_of_nil in Hn.
Defined.

(** ** The order of the tags *)

Lemma ltb_lt x y : String.ltb x y = true <-> OrderedTypeEx.String_as_OT.lt x y.
Proof.
  rewrite <- OrderedTypeEx.String_as_OT.cmp_lt.
  unfold String.ltb, OrderedTypeEx.String_as_OT.cmp.
  destruct (String.compare x y); split; congruence.
Qed.

Lemma not_below_total x y : not_below x y \/ String.ltb x y = true.
Proof. unfold not_below. destruct (String.ltb x y); auto. Qed.

Lemma ltb_asym x y : String.ltb x y = true -> not_below y x.
Proof.
  unfold not_below. intros H. destruct (String.ltb y x) eqn:E; [|done].
  apply ltb_lt in H, E.
  pose proof (OrderedTypeEx.String_as_OT.lt_trans _ _ _ H E) as Hxx.
  by apply OrderedTypeEx.String_as_OT.lt_not_eq in Hxx.
Qed.

Lemma not_below_cases x y : not_below x y -> x = y \/ String.ltb y x = true.
Proof.
  unfold not_below, String.ltb. intros H.
  destruct (String.compare x y) eqn:E; [|discriminate|].
  - left. by apply String.compare_eq_iff.
  - right. rewrite String.compare_antisym, E. reflexivity.
Qed.

Lemma not_below_trans x y z : not_below x y -> not_below y z -> not_below x z.
Proof.
  intros Hxy Hyz. destruct (not_below_total x z) as [|Hxz]; [done|].
  apply not_below_cases in Hxy as [->|Hyx]; [done|].
  apply not_below_cases in Hyz as [->|Hzy]; [by apply ltb_asym|].
  apply ltb_lt in Hyx, Hzy, Hxz.
  pose proof (OrderedTypeEx.String_as_OT.lt_trans _ _ _
                (OrderedTypeEx.String_as_OT.lt_trans _ _ _ Hzy Hyx) Hxz) as Hzz.
  by apply OrderedTypeEx.String_as_OT.lt_not_eq in Hzz.
Qed.

Lemma insert_desc_sorted x l :
  StronglySorted not_below l -> StronglySorted not_below (Str.insert_desc x l).
Proof.
  induction l as [|y l IH]; intros Hs; simpl.
  - by repeat constructor.
  - apply StronglySorted_inv in Hs as [Hl Hy].
    destruct (String.ltb x y) eqn:E.
    + constructor; [by apply IH|].
      rewrite Forall_forall. intros z Hz.
      apply insert_desc_elem in Hz as [->|Hz]; [by apply ltb_asym|].
      rewrite Forall_forall in Hy. by apply Hy.
    + constructor; [by constructor|].
      constructor; [done|].
      eapply Forall_impl; [exact Hy|]. intros z Hz.
      by eapply not_below_trans.
Qed.

Lemma insert_desc_perm x l : Str.insert_desc x l ≡ₚ x :: l.
Proof.
  induction l as [|y l IH]; simpl; [done|].
  destruct (String.ltb x y); [|done].
  rewrite IH. apply Permutation_swap.
Qed.

Lemma sorted_reverse_perm names : Str.sorted_reverse names ≡ₚ names.
Proof.
  unfold Str.sorted_reverse. induction names as [|x l IH]; simpl; [done|].
  by rewrite insert_desc_perm, IH.
Qed.

Lemma sorted_reverse_sorted names :
  StronglySorted not_below (Str.sorted_reverse names).
Proof.
  unfold Str.sorted_reverse. induction names as [|x l IH]; simpl; [constructor|].
  by apply insert_desc_sorted.
Qed.

(** X13. The listing of a vehicle-type directory is walked in reverse
    order of the names: the order is a permutation of the listing in
    which no name is below a later one; so once [stable] has been
    processed no [stable-...] tag follows, and the release type of
    [stable] is the one that stays for a build both hold. *)
Theorem walk_order names :
  Str.sorted_reverse names ≡ₚ names
  /\ StronglySorted not_below (Str.sorted_reverse names)
  /\ forall l1 l2 name,
      Str.sorted_reverse names = l1 ++ "stable" :: l2 ->
      name ∈ l2 -> Str.startswith "stable-" name = false.
Proof.
  pose proof (sorted_reverse_sorted names) as Hs.
  split; [apply sorted_reverse_perm|]. split; [done|].
  intros l1 l2 name Heq Hin. rewrite Heq in Hs.
  apply StronglySorted_app_1_r, StronglySorted_inv in Hs as [_ Hs].
  rewrite Forall_forall in Hs. specialize (Hs _ Hin). unfold not_below in Hs.
  destruct (Str.startswith "stable-" name) eqn:E; [|done].
  apply startswith_inv in E as [rest ->]. discriminate.
Qed.

(** The order of the four kinds of tag. *)
Example walk_order_tags :
  Str.sorted_reverse ["beta"; "latest"; "stable"; "stable-3.5.7"; "2016-02"]
    = ["stable-3.5.7"; "stable"; "latest"; "beta"; "2016-02"].
Proof. reflexivity. Qed.

(** Both directories hold the build: [stable] is visited last and its
    release type and path stay. *)
Example stable_wins_over_stable_xyz :
  exists firmware,
    shared_record (walk_tree (same_build_tree ["stable"; "stable-1.2.3"]) "/b" [])
      = Some firmware
    /\ fw_release_type firmware = Some "stable"
    /\ fw_filepath firmware = Some "/b/Copter/stable/navio-quad/ArduCopter.apj".
Proof. eexists. split; [vm_compute; reflexivity | split; reflexivity]. Qed.

Lemma walk_order_witness : Str.startswith "stable-" "latest" = false.
Proof.
  apply (proj2 (proj2 (walk_order ["beta"; "latest"; "stable"; "stable-3.5.7"]))
           ["stable-3.5.7"] ["latest"; "beta"] "latest");
    [reflexivity | repeat constructor].
Defined.

(** * More of the script: what the file name gives *)

Lemma take_drop_while_stop p a c rest :
  (forall d, Str.has_char d a = true -> p d = true) -> p c = false ->
  Str.take_while p (a +:+ String c rest) = a
  /\ Str.drop_while p (a +:+ String c rest) = String c rest.
Proof.
  intros Ha Hc. induction a as [|d a IH].
  - change ("" +:+ String c rest) with (String c rest). simpl. by rewrite Hc.
  - change (String d a +:+ String c rest) with (String d (a +:+ String c rest)).
    cbn [Str.take_while Str.drop_while].
    assert (p d = true) as -> by (apply Ha; simpl; by rewrite Ascii.eqb_refl).
    destruct IH as [-> ->]; [|done].
    intros e He. apply Ha. simpl. by rewrite He, orb_true_r.
Qed.

Lemma digits_then_class_all ds after :
  ds <> "" -> Pattern.next_in_dot_px4 after = true ->
  Pattern.digits_then_class ds after = Some ds.
Proof.
  intros Hds Ha. induction ds as [|d ds IH]; [done|].
  cbn [Pattern.digits_then_class].
  destruct ds as [|d' ds'].
  - cbn [Pattern.digits_then_class]. change ("" +:+ after) with after. by rewrite Ha.
  - by rewrite IH.
Qed.

Lemma no_dash_chars name d :
  Str.has_char "-" name = false -> Str.has_char d name = true ->
  negb (Ascii.eqb d "-") = true.
Proof.
  intros Hn Hd. destruct (Ascii.eqb_spec d "-") as [->|]; [congruence | done].
Qed.

(** X14. The platform key of a file. A name without dash keeps the
    platform. A name of the form [<name>-v<digits><c>...], with [name] not
    empty and without dash and [c] one of [.], [p], [x], appends
    [-v<digits>] to the platform; the rest of the name, and so the
    extension, plays no part. *)
Theorem platform_key_of_file platform name ds c rest :
  (forall file, Str.has_char "-" file = false -> file_platform_of platform file = platform)
  /\ (name <> "" -> Str.has_char "-" name = false ->
      ds <> "" -> (forall d, Str.has_char d ds = true -> Str.is_digit d = true) ->
      c = "."%char \/ c = "p"%char \/ c = "x"%char ->
      file_platform_of platform (name +:+ "-v" +:+ ds +:+ String c rest)
        = platform +:+ "-v" +:+ ds).
Proof.
  split.
  - intros file Hf. unfold file_platform_of, Pattern.variant_firmware_match.
    assert (Str.drop_while (fun c => negb (Ascii.eqb c "-")) file = "") as ->.
    { induction file as [|d file IH]; [done|].
      cbn [Str.has_char] in Hf. apply orb_false_iff in Hf as [Hd Hf].
      cbn [Str.drop_while]. rewrite Hd. cbn [negb]. by apply IH. }
    by destruct (Str.is_empty _).
  - intros Hn Hnd Hds Hd Hc.
    unfold file_platform_of, Pattern.variant_firmware_match.
    change ("-v" +:+ ds +:+ String c rest)
      with (String "-" (String "v" (ds +:+ String c rest))).
    destruct (take_drop_while_stop (fun c => negb (Ascii.eqb c "-")) name "-"
                (String "v" (ds +:+ String c rest))) as [-> ->];
      [intros d; by apply no_dash_chars | reflexivity |].
    assert (Str.is_empty name = false) as -> by (by destruct name).
    assert (Str.is_digit c = false /\ Pattern.in_dot_px4 c = true) as [Hcd Hcc]
      by (destruct Hc as [-> | [-> | ->]]; done).
    destruct (take_drop_while_stop Str.is_digit ds c rest Hd Hcd) as [-> ->].
    rewrite digits_then_class_all by done.
    reflexivity.
Qed.

Lemma platform_key_of_file_witness :
  file_platform_of "navio" "ArduCopter.apj" = "navio"
  /\ file_platform_of "PX4" ("ArduCopter" +:+ "-v" +:+ "2" +:+ String "." "px4")
     = "PX4" +:+ "-v" +:+ "2".
Proof.
  split.
  - apply (proj1 (platform_key_of_file "navio" "" "" "."%char "")). reflexivity.
  - apply (proj2 (platform_key_of_file "PX4" "ArduCopter" "2" "."%char "px4"));
      [discriminate | reflexivity | discriminate | | by left].
    intros d Hd. cbn [Str.has_char] in Hd. rewrite orb_false_r in Hd.
    apply Ascii.eqb_eq in Hd. by subst.
Defined.

(** The class [[.px4]] is no suffix: any extension will do, and a [4]
    closes the digits. *)
Example variant_of_other_names :
  file_platform_of "navio" "ArduCopter-v2.apj" = "navio-v2"
  /\ file_platform_of "navio" "ArduCopter-v14" = "navio-v1"
  /\ file_platform_of "navio" "ArduCopter-v2" = "navio".
Proof. repeat split. Qed.

(** X15. The format of a file is what follows its last dot, and the whole
    name when it has no dot. *)
Theorem format_of_file file :
  (Str.has_char "." file = false -> firmware_format_of file = file)
  /\ (forall pre ext,
      file = pre +:+ "." +:+ ext -> Str.has_char "." ext = false ->
      firmware_format_of file = ext).
Proof.
  unfold firmware_format_of. split.
  - intros H. by rewrite split_no_sep.
  - intros pre ext -> H. change ("." +:+ ext) with (String "." ext).
    rewrite split_app_sep, last_part_app by apply split_nonempty.
    by rewrite split_no_sep.
Qed.

Lemma format_of_file_witness :
  firmware_format_of "README" = "README"
  /\ firmware_format_of "ArduCopter-v2.px4" = "px4".
Proof.
  split.
  - apply (proj1 (format_of_file "README")). reflexivity.
  - apply (proj2 (format_of_file "ArduCopter-v2.px4") "ArduCopter-v2" "px4");
      reflexivity.
Defined.

(** * More of the script: the accumulator on a table that is not empty *)

Lemma hoare_add_firmware_data_from_dir_gen (J : table -> Prop) fs dir
    (firmware_data : table) vt rt :
  (forall some_dir platform frame sha ver (t : table) file,
      J t -> J (file_step fs some_dir vt rt platform frame sha ver t file)) ->
  J firmware_data ->
  hoare any_message (add_firmware_data_from_dir fs dir firmware_data vt rt) J.
Proof.
  intros Hstep Ht. unfold add_firmware_data_from_dir.
  destruct (isdir fs dir); cbn [negb]; [|by apply hoare_ret].
  destruct (listdir fs dir) as [dlist|errno];
    [|by apply (hoare_print_then any_message any_message_all)].
  apply hoare_for_each; [done|]. clear firmware_data Ht.
  intros t platformdir Ht. unfold platformdir_step.
  destruct (Str.startswith "." platformdir); [by apply hoare_ret|].
  destruct (isdir fs _); cbn [negb]; [|by apply hoare_ret].
  destruct (path_exists fs _); cbn [negb];
    [|by apply (hoare_print_then any_message any_message_all)].
  destruct (git_sha_from_git_version fs _) as [sha|e];
    [|by apply (hoare_print_then any_message any_message_all)].
  eapply hoare_bind; [apply hoare_read_firmware_version_of|].
  intros ver _. cbv beta.
  destruct (platform_and_frame vt platformdir) as [platform frame].
  destruct (listdir fs _) as [files|errno]; [|apply hoare_raise].
  apply hoare_ret. revert t Ht.
  induction files as [|f files IH]; intros t Ht; [done|].
  simpl. apply IH. by apply Hstep.
Qed.

(** X16. A call of [add_firmware_data_from_dir] for one vehicle type that
    returns has deleted no record (every key path that had a record still
    has one) and has left the records of every other vehicle type exactly
    as they were. *)
Theorem accumulator_keeps_records fs dir (firmware_data : table) vt rt log
    (firmware_data' : table) log' :
  add_firmware_data_from_dir fs dir firmware_data vt rt log = (Ok firmware_data', log') ->
  (forall vt' fp sha fmt fr,
      is_Some (lookup_record vt' fp sha fmt fr firmware_data) ->
      is_Some (lookup_record vt' fp sha fmt fr firmware_data'))
  /\ (forall vt' fp sha fmt fr,
      vt' <> vt ->
      lookup_record vt' fp sha fmt fr firmware_data'
        = lookup_record vt' fp sha fmt fr firmware_data).
Proof.
  intros H.
  pose (J := fun t : table =>
    (forall vt' fp sha fmt fr,
        is_Some (lookup_record vt' fp sha fmt fr firmware_data) ->
        is_Some (lookup_record vt' fp sha fmt fr t))
    /\ (forall vt' fp sha fmt fr,
        vt' <> vt ->
        lookup_record vt' fp sha fmt fr t
          = lookup_record vt' fp sha fmt fr firmware_data)).
  assert (hoare any_message (add_firmware_data_from_dir fs dir firmware_data vt rt) J)
    as Hh.
  { apply hoare_add_firmware_data_from_dir_gen; [|by split].
    intros some_dir platform frame sha ver t file [J1 J2].
    destruct (is_firmware_file file) eqn:Hf; [|by rewrite file_step_skipped].
    rewrite file_step_firmware_file by done. split.
    - intros vt' fp sha' fmt fr Hs.
      destruct (decide ((vt, file_platform_of platform file, sha,
                         firmware_format_of file, frame) = (vt', fp, sha', fmt, fr)))
        as [[= <- <- <- <- <-]|Hne].
      + rewrite lookup_update_record_same. eauto.
      + rewrite lookup_update_record_other by done. by apply J1.
    - intros vt' fp sha' fmt fr Hne.
      rewrite lookup_update_record_other by congruence. by apply J2. }
  destruct (Hh log) as [_ HQ]; [by apply Forall_true|].
  apply HQ. by rewrite H.
Qed.

Lemma accumulator_keeps_records_witness :
  forall vt' fp sha fmt fr,
    vt' <> "Copter" ->
    lookup_record vt' fp sha fmt fr
      match (add_firmware_data_from_dir px4_tree "/b/Copter/stable" [] "Copter"
               "stable" []).1 with
      | Ok firmware_data' => firmware_data'
      | Raise _ => []
      end
    = lookup_record vt' fp sha fmt fr [].
Proof.
  refine (proj2 (accumulator_keeps_records px4_tree "/b/Copter/stable" [] "Copter"
                   "stable" [] _
                   [BadFile "/b/Copter/stable/PX4/firmware-version.txt"] _)).
  vm_compute. reflexivity.
Defined.

(** X17. A visit of a firmware file by the channel [latest] leaves the
    record of the file's tuple with the path of this file and the [latest]
    flag 1, whatever the table held; its release type is the one the
    record had, and [dev] when it had none or is new. *)
Theorem latest_channel_visit
    fs some_dir vt platform frame sha ver (firmware_data : table) file :
  is_firmware_file file = true ->
  let found := lookup_record vt (file_platform_of platform file) sha
                 (firmware_format_of file) frame in
  exists firmware,
    found (file_step fs some_dir vt "latest" platform frame sha ver firmware_data file)
      = Some firmware
    /\ fw_filepath firmware = Some (Str.path_join some_dir file)
    /\ fw_latest firmware = Some 1
    /\ fw_release_type firmware
         = Some (default "dev" (found firmware_data ≫= fw_release_type)).
Proof.
  intros Hf found. subst found. rewrite file_step_firmware_file by done.
  rewrite lookup_update_record_same. eexists. split; [reflexivity|].
  split; [by apply visit_not_dev_path|]. split; [apply visit_latest_flag|].
  rewrite visit_latest_release_type.
  by destruct (lookup_record _ _ _ _ _ firmware_data).
Qed.

Lemma latest_channel_visit_witness :
  exists firmware,
    lookup_record "Copter" (file_platform_of "navio" "ArduCopter.apj") "deadbeef"
      (firmware_format_of "ArduCopter.apj") "quad"
      (file_step (same_build_tree ["latest"]) "/b/Copter/latest/navio-quad" "Copter"
         "latest" "navio" "quad" "deadbeef" None [] "ArduCopter.apj") = Some firmware
    /\ fw_filepath firmware
         = Some (Str.path_join "/b/Copter/latest/navio-quad" "ArduCopter.apj")
    /\ fw_latest firmware = Some 1
    /\ fw_release_type firmware
         = Some (default "dev"
                   (lookup_record "Copter" (file_platform_of "navio" "ArduCopter.apj")
                      "deadbeef" (firmware_format_of "ArduCopter.apj") "quad" []
                    ≫= fw_release_type)).
Proof.
  apply (latest_channel_visit (same_build_tree ["latest"])
           "/b/Copter/latest/navio-quad" "Copter" "navio" "quad" "deadbeef" None []
           "ArduCopter.apj").
  reflexivity.
Defined.
